(** * CRM list views: search, filter, sort, paginate, select, bulk delete

    A shallow embedding of the table controllers of the CRM front end
    (Meetings, Contacts, Leads, Accounts, Deals, Tasks) and of the
    handlers that talk to the backend client, followed by the properties
    of section 8 of the specification.

    Conventions of the embedding
    - A row fetched from the backend is a JavaScript object: a finite map
      from property names to values ([gmap string jsval]).  The TypeScript
      interfaces ([Contact], [Lead], [Account], [Meeting]) only say which
      properties are expected to hold strings, numbers or string arrays.
    - JavaScript numbers are restricted to integers ([Z]); identifiers,
      dates and enumerations are strings, as they arrive from the backend.
    - React state is a record; a handler is a function on that record; an
      effect runs after a handler when one of its dependencies changed.
    - The backend client is a table store with a log of the requests
      issued; whether a request reports an error is an input. *)

From Stdlib Require Import ZArith List String Ascii Bool Lia DecimalString.
From stdpp Require Import base decidable option list gmap sets strings.
Import ListNotations.
Open Scope string_scope.
Open Scope Z_scope.

(** ** JavaScript values and the built-ins the controllers use *)

Module JS.

Inductive jsval : Type :=
| VUndef
| VNull
| VStr (s : string)
| VNum (n : Z)
| VArr (items : list string).

(** An object with string keys; reading an absent property gives
    [undefined]. *)
Definition get (o : gmap string jsval) (k : string) : jsval :=
  default VUndef (o !! k).

(** Truthiness: [undefined], [null], the empty string and [0] are falsy. *)
Definition truthy (v : jsval) : bool :=
  match v with
  | VUndef | VNull => false
  | VStr s => negb (String.eqb s "")
  | VNum n => negb (n =? 0)
  | VArr _ => true
  end.

(** [a || b] *)
Definition or_else (a b : jsval) : jsval := if truthy a then a else b.

(** [typeof v === 'number'] *)
Definition is_number (v : jsval) : bool :=
  match v with VNum _ => true | _ => false end.

(** Decimal rendering of a number, as in a template literal. *)
Definition number_to_string (n : Z) : string :=
  NilZero.string_of_int (Z.to_int n).

Fixpoint join (sep : string) (l : list string) : string :=
  match l with
  | [] => ""
  | [x] => x
  | x :: rest => x ++ sep ++ join sep rest
  end.

(** [String(v)]; on values other than [undefined] and [null] it is what
    [v.toString()] returns. *)
Definition to_string (v : jsval) : string :=
  match v with
  | VUndef => "undefined"
  | VNull => "null"
  | VStr s => s
  | VNum n => number_to_string n
  | VArr l => join "," l
  end.

(** [v === s] for a string [s]. *)
Definition strict_eq_str (v : jsval) (s : string) : bool :=
  match v with VStr t => String.eqb t s | _ => false end.

Definition lower_ascii (c : ascii) : ascii :=
  let n := nat_of_ascii c in
  if ((65 <=? n) && (n <=? 90))%nat then ascii_of_nat (n + 32) else c.

(** [s.toLowerCase()], on the ASCII letters. *)
Fixpoint toLowerCase (s : string) : string :=
  match s with
  | EmptyString => EmptyString
  | String c rest => String (lower_ascii c) (toLowerCase rest)
  end.

(** [s.includes(sub)] *)
Fixpoint includes (s sub : string) : bool :=
  String.prefix sub s ||
  match s with
  | EmptyString => false
  | String _ rest => includes rest sub
  end.

(** [v?.toLowerCase().includes(sub)], read as a condition: [undefined]
    when [v] is nullish, hence false.  The properties it is applied to
    are declared as strings. *)
Definition lower_includes (v : jsval) (sub : string) : bool :=
  match v with
  | VStr s => includes (toLowerCase s) sub
  | _ => false
  end.

(** [v?.some(tag => tag.toLowerCase().includes(sub))] *)
Definition some_lower_includes (v : jsval) (sub : string) : bool :=
  match v with
  | VArr l => existsb (fun tag => includes (toLowerCase tag) sub) l
  | _ => false
  end.

(** [v?.includes(x)] on a string array. *)
Definition array_includes (v : jsval) (x : string) : bool :=
  match v with
  | VArr l => existsb (String.eqb x) l
  | _ => false
  end.

(** [ids.includes(x)] *)
Definition list_includes (ids : list string) (x : string) : bool :=
  existsb (String.eqb x) ids.

(** [arr.slice(start, end)]: negative indices count from the end, both
    bounds are clamped to the array. *)
Definition clamp_index (len i : Z) : Z :=
  if i <? 0 then Z.max (len + i) 0 else Z.min i len.

Definition slice {A : Type} (l : list A) (start stop : Z) : list A :=
  let len := Z.of_nat (length l) in
  let k := clamp_index len start in
  let final := clamp_index len stop in
  firstn (Z.to_nat (Z.max (final - k) 0)) (skipn (Z.to_nat k) l).

(** [arr.sort(cmp)]: the sort is stable; an element moves in front of
    another only when the comparator does not put it after.  Modelled by
    stable insertion from the right. *)
Fixpoint sort_insert {A : Type} (cmp : A -> A -> Z) (x : A) (l : list A)
  : list A :=
  match l with
  | [] => [x]
  | y :: rest =>
      if cmp x y <=? 0 then x :: y :: rest
      else y :: sort_insert cmp x rest
  end.

Definition sort {A : Type} (cmp : A -> A -> Z) (l : list A) : list A :=
  fold_right (sort_insert cmp) [] l.

(** [Math.ceil(a / b)] for a non-negative count [a] and a positive [b]. *)
Definition ceil_div (a b : Z) : Z := (a + b - 1) / b.

Inductive direction : Type := Asc | Desc.

Definition flip (d : direction) : direction :=
  match d with Asc => Desc | Desc => Asc end.

Definition direction_eqb (a b : direction) : bool :=
  match a, b with
  | Asc, Asc | Desc, Desc => true
  | _, _ => false
  end.

Definition opt_string_eqb (a b : option string) : bool :=
  match a, b with
  | None, None => true
  | Some x, Some y => String.eqb x y
  | _, _ => false
  end.

(** [row.id] *)
Definition id_of (r : gmap string jsval) : string := to_string (get r "id").

(** *** Further built-ins, for the avatars and the badges *)

(** [s.split(sep)] for a separator of one character: the empty string
    splits into one empty piece. *)
Fixpoint split (sep : ascii) (s : string) : list string :=
  match s with
  | EmptyString => [EmptyString]
  | String c rest =>
      if Ascii.eqb c sep then EmptyString :: split sep rest
      else match split sep rest with
           | [] => [String c EmptyString]
           | piece :: pieces => String c piece :: pieces
           end
  end.

(** [s.charAt(0)] *)
Definition charAt0 (s : string) : string :=
  match s with
  | EmptyString => EmptyString
  | String c _ => String c EmptyString
  end.

(** [l.join('')] *)
Definition concat_strings (l : list string) : string :=
  fold_right String.append EmptyString l.

(** [name.split('').reduce((acc, char) => acc + char.charCodeAt(0), 0)] *)
Definition char_code_sum (name : string) : Z :=
  fold_left (fun acc char => acc + Z.of_nat (nat_of_ascii char))
    (list_ascii_of_string name) 0.

(** [arr[index]] *)
Definition index_of {A : Type} (arr : list A) (index : Z) : option A :=
  if index <? 0 then None else nth_error arr (Z.to_nat index).

End JS.
Export JS.

(** ** The backend client

    [supabase.from(table)] requests, as the handlers issue them.  The
    client answers every request with a pair of data and error and does
    not throw; a request that reports an error leaves the tables as they
    were.  [failure] says which requests report an error, and with which
    message. *)

Module Backend.

Inductive request : Type :=
| DeleteEq (table column value : string)
| DeleteIn (table column : string) (values : list string)
| SelectEq (table columns column value : string) (limit : option nat)
| SelectIn (table columns column : string) (values : list string)
| SelectAll (table : string)
| AuditDelete (table : string) (ids : list string).

Record world : Type := mkWorld {
  tables : gmap string (list (gmap string jsval));
  log : list request;
  failure : request -> option string
}.

Definition rows_of (w : world) (table : string) : list (gmap string jsval) :=
  default [] (tables w !! table).

(** The handlers run in a state monad over the backend. *)
Definition M (A : Type) : Type := world -> A * world.

#[global] Instance M_ret : MRet M := fun A a w => (a, w).
#[global] Instance M_bind : MBind M :=
  fun A B f m w => let '(a, w') := m w in f a w'.

Definition issue (r : request) : M (option string) :=
  fun w => (failure w r, mkWorld (tables w) (log w ++ [r])%list (failure w)).

Definition put_rows (table : string) (rows : list (gmap string jsval))
  : M unit :=
  fun w => (tt, mkWorld (<[table := rows]> (tables w)) (log w) (failure w)).

Definition read_rows (table : string) : M (list (gmap string jsval)) :=
  fun w => (rows_of w table, w).

(** The filter [.in(column, values)]: the column holds one of the values. *)
Definition column_in (r : gmap string jsval) (column : string)
    (values : list string) : bool :=
  match get r column with
  | VStr v => list_includes values v
  | _ => false
  end.

(** [.delete().in(column, values)]; the result is the [error]. *)
Definition delete_in (table column : string) (values : list string)
  : M (option string) :=
  error ← issue (DeleteIn table column values);
  match error with
  | Some e => mret (Some e)
  | None =>
      rows ← read_rows table;
      put_rows table
        (List.filter (fun r => negb (column_in r column values)) rows);;
      mret None
  end.

(** [.delete().eq(column, value)] *)
Definition delete_eq (table column value : string) : M (option string) :=
  error ← issue (DeleteEq table column value);
  match error with
  | Some e => mret (Some e)
  | None =>
      rows ← read_rows table;
      put_rows table
        (List.filter (fun r => negb (strict_eq_str (get r column) value))
           rows);;
      mret None
  end.

(** The rows a [select(columns)] returns carry the selected column. *)
Definition project (column : string) (r : gmap string jsval)
  : gmap string jsval :=
  match r !! column with
  | Some v => {[ column := v ]}
  | None => ∅
  end.

Definition take_limit {A : Type} (limit : option nat) (l : list A) : list A :=
  match limit with
  | Some n => firstn n l
  | None => l
  end.

Arguments take_limit {A} limit l : simpl never.

(** [.select(columns).eq(column, value).limit(n)]; the result is the
    [data], [None] standing for [null]. *)
Definition select_eq (table columns column value : string)
    (limit : option nat) : M (option (list (gmap string jsval))) :=
  error ← issue (SelectEq table columns column value limit);
  match error with
  | Some _ => mret None
  | None =>
      rows ← read_rows table;
      mret (Some (take_limit limit
                    (map (project columns)
                       (List.filter
                          (fun r => strict_eq_str (get r column) value)
                          rows))))
  end.

(** [.select(columns).in(column, values)] *)
Definition select_in (table columns column : string) (values : list string)
  : M (option (list (gmap string jsval))) :=
  error ← issue (SelectIn table columns column values);
  match error with
  | Some _ => mret None
  | None =>
      rows ← read_rows table;
      mret (Some (map (project columns)
                    (List.filter (fun r => column_in r column values)
                       rows)))
  end.

(** The bulk read behind [fetchContacts], [fetchLeads], ...: the handler
    starts it and does not wait for the answer. *)
Definition start_fetch (table : string) : M unit :=
  issue (SelectAll table);; mret tt.

(** [logDelete] and [logBulkDelete] of the audit hook [useCRUDAudit],
    awaited inside the [try].  The hook is taken as given: a call writes
    an audit entry, recorded in the log, and may throw; the result says
    whether it threw. *)
Definition audit_delete (table : string) (ids : list string)
  : M (option string) :=
  issue (AuditDelete table ids).

Definition is_delete (r : request) : bool :=
  match r with
  | DeleteEq _ _ _ | DeleteIn _ _ _ => true
  | _ => false
  end.

Record toast : Type := mkToast {
  title : string;
  description : string;
  destructive : bool
}.

(** [error.message || fallback] *)
Definition message_or (e fallback : string) : string :=
  if String.eqb e "" then fallback else e.

End Backend.
Export Backend.

(** ** Contacts: [ContactTable] *)

Module ContactTable.

Definition PAGE_SIZE_OPTIONS : list Z := [10; 25; 50; 100].

(** The component state.  [contactsRef] is the identity of the array held
    in [contacts]: an effect compares array dependencies by reference,
    and every [setContacts] installs a fresh array. *)
Record state : Type := mkState {
  contacts : list (gmap string jsval);
  contactsRef : nat;
  filteredContacts : list (gmap string jsval);
  searchTerm : string;
  debouncedSearchTerm : string;
  sourceFilter : string;
  ownerFilter : string;
  segmentFilter : string;
  tagFilter : option string;
  currentPage : Z;
  itemsPerPage : Z;
  sortField : option string;
  sortDirection : direction
}.

Definition initial : state :=
  mkState [] 0 [] "" "" "all" "all" "all" None 1 25 None Asc.

Definition setContacts (v : list (gmap string jsval)) (s : state) : state :=
  mkState v (S (contactsRef s)) (filteredContacts s) (searchTerm s)
    (debouncedSearchTerm s) (sourceFilter s) (ownerFilter s)
    (segmentFilter s) (tagFilter s) (currentPage s) (itemsPerPage s)
    (sortField s) (sortDirection s).

Definition setFilteredContacts (v : list (gmap string jsval)) (s : state)
  : state :=
  mkState (contacts s) (contactsRef s) v (searchTerm s)
    (debouncedSearchTerm s) (sourceFilter s) (ownerFilter s)
    (segmentFilter s) (tagFilter s) (currentPage s) (itemsPerPage s)
    (sortField s) (sortDirection s).

Definition setSearchTerm (v : string) (s : state) : state :=
  mkState (contacts s) (contactsRef s) (filteredContacts s) v
    (debouncedSearchTerm s) (sourceFilter s) (ownerFilter s)
    (segmentFilter s) (tagFilter s) (currentPage s) (itemsPerPage s)
    (sortField s) (sortDirection s).

Definition setDebouncedSearchTerm (v : string) (s : state) : state :=
  mkState (contacts s) (contactsRef s) (filteredContacts s) (searchTerm s)
    v (sourceFilter s) (ownerFilter s)
    (segmentFilter s) (tagFilter s) (currentPage s) (itemsPerPage s)
    (sortField s) (sortDirection s).

Definition setSourceFilter (v : string) (s : state) : state :=
  mkState (contacts s) (contactsRef s) (filteredContacts s) (searchTerm s)
    (debouncedSearchTerm s) v (ownerFilter s)
    (segmentFilter s) (tagFilter s) (currentPage s) (itemsPerPage s)
    (sortField s) (sortDirection s).

Definition setOwnerFilter (v : string) (s : state) : state :=
  mkState (contacts s) (contactsRef s) (filteredContacts s) (searchTerm s)
    (debouncedSearchTerm s) (sourceFilter s) v
    (segmentFilter s) (tagFilter s) (currentPage s) (itemsPerPage s)
    (sortField s) (sortDirection s).

Definition setSegmentFilter (v : string) (s : state) : state :=
  mkState (contacts s) (contactsRef s) (filteredContacts s) (searchTerm s)
    (debouncedSearchTerm s) (sourceFilter s) (ownerFilter s)
    v (tagFilter s) (currentPage s) (itemsPerPage s)
    (sortField s) (sortDirection s).

Definition setTagFilter (v : option string) (s : state) : state :=
  mkState (contacts s) (contactsRef s) (filteredContacts s) (searchTerm s)
    (debouncedSearchTerm s) (sourceFilter s) (ownerFilter s)
    (segmentFilter s) v (currentPage s) (itemsPerPage s)
    (sortField s) (sortDirection s).

Definition setCurrentPage (v : Z) (s : state) : state :=
  mkState (contacts s) (contactsRef s) (filteredContacts s) (searchTerm s)
    (debouncedSearchTerm s) (sourceFilter s) (ownerFilter s)
    (segmentFilter s) (tagFilter s) v (itemsPerPage s)
    (sortField s) (sortDirection s).

Definition setItemsPerPage (v : Z) (s : state) : state :=
  mkState (contacts s) (contactsRef s) (filteredContacts s) (searchTerm s)
    (debouncedSearchTerm s) (sourceFilter s) (ownerFilter s)
    (segmentFilter s) (tagFilter s) (currentPage s) v
    (sortField s) (sortDirection s).

Definition setSortField (v : option string) (s : state) : state :=
  mkState (contacts s) (contactsRef s) (filteredContacts s) (searchTerm s)
    (debouncedSearchTerm s) (sourceFilter s) (ownerFilter s)
    (segmentFilter s) (tagFilter s) (currentPage s) (itemsPerPage s)
    v (sortDirection s).

Definition setSortDirection (v : direction) (s : state) : state :=
  mkState (contacts s) (contactsRef s) (filteredContacts s) (searchTerm s)
    (debouncedSearchTerm s) (sourceFilter s) (ownerFilter s)
    (segmentFilter s) (tagFilter s) (currentPage s) (itemsPerPage s)
    (sortField s) v.

(** The search of the filter effect: the lowered term is looked for in
    eleven text properties and in the tags. *)
Definition matchesSearch (searchLower : string) (contact : gmap string jsval)
  : bool :=
  lower_includes (get contact "contact_name") searchLower
  || lower_includes (get contact "company_name") searchLower
  || lower_includes (get contact "account_company_name") searchLower
  || lower_includes (get contact "email") searchLower
  || lower_includes (get contact "phone_no") searchLower
  || lower_includes (get contact "linkedin") searchLower
  || lower_includes (get contact "website") searchLower
  || lower_includes (get contact "industry") searchLower
  || lower_includes (get contact "region") searchLower
  || lower_includes (get contact "description") searchLower
  || lower_includes (get contact "position") searchLower
  || some_lower_includes (get contact "tags") searchLower.

(** [contact.contact_source?.toLowerCase() === sourceFilter.toLowerCase()] *)
Definition matchesSource (sourceFilter : string)
    (contact : gmap string jsval) : bool :=
  match get contact "contact_source" with
  | VStr src => String.eqb (toLowerCase src) (toLowerCase sourceFilter)
  | _ => false
  end.

(** [filter && filter !== "all"] *)
Definition active (filter : string) : bool :=
  negb (String.eqb filter "") && negb (String.eqb filter "all").

Section Host.

(** [String.prototype.localeCompare] of the host. *)
Variable localeCompare : string -> string -> Z.

(** The comparator handed to [filtered.sort]. *)
Definition compare (sortField : string) (sortDirection : direction)
    (a b : gmap string jsval) : Z :=
  let aValue := or_else (get a sortField) (VStr "") in
  let bValue := or_else (get b sortField) (VStr "") in
  match aValue, bValue with
  | VNum x, VNum y =>
      match sortDirection with Asc => x - y | Desc => y - x end
  | _, _ =>
      let comparison :=
        localeCompare (to_string aValue) (to_string bValue) in
      match sortDirection with
      | Asc => comparison
      | Desc => - comparison
      end
  end.

(** The array the filter effect stores in [filteredContacts]. *)
Definition filterAndSort (s : state) : list (gmap string jsval) :=
  let searchLower := toLowerCase (debouncedSearchTerm s) in
  let filtered := List.filter (matchesSearch searchLower) (contacts s) in
  let filtered :=
    if active (sourceFilter s)
    then List.filter (matchesSource (sourceFilter s)) filtered
    else filtered in
  let filtered :=
    if active (ownerFilter s)
    then List.filter
           (fun contact =>
              strict_eq_str (get contact "contact_owner") (ownerFilter s))
           filtered
    else filtered in
  let filtered :=
    if active (segmentFilter s)
    then List.filter
           (fun contact =>
              strict_eq_str (get contact "segment") (segmentFilter s))
           filtered
    else filtered in
  let filtered :=
    match tagFilter s with
    | Some tag =>
        if String.eqb tag "" then filtered
        else List.filter
               (fun contact => array_includes (get contact "tags") tag)
               filtered
    | None => filtered
    end in
  match sortField s with
  | Some field =>
      if String.eqb field "" then filtered
      else sort (compare field (sortDirection s)) filtered
  | None => filtered
  end.

(** The body of the filter effect. *)
Definition filterEffect (s : state) : state :=
  setCurrentPage 1 (setFilteredContacts (filterAndSort s) s).

(** The dependency array of the filter effect:
    [contacts, debouncedSearchTerm, sourceFilter, ownerFilter,
     segmentFilter, tagFilter, sortField, sortDirection]. *)
Definition filterDepsChanged (before after : state) : bool :=
  negb (Nat.eqb (contactsRef before) (contactsRef after))
  || negb (String.eqb (debouncedSearchTerm before)
             (debouncedSearchTerm after))
  || negb (String.eqb (sourceFilter before) (sourceFilter after))
  || negb (String.eqb (ownerFilter before) (ownerFilter after))
  || negb (String.eqb (segmentFilter before) (segmentFilter after))
  || negb (opt_string_eqb (tagFilter before) (tagFilter after))
  || negb (opt_string_eqb (sortField before) (sortField after))
  || negb (direction_eqb (sortDirection before) (sortDirection after)).

(** After a state change the component renders again and the effect
    runs when a dependency differs from the previous render. *)
Definition runEffects (before after : state) : state :=
  if filterDepsChanged before after then filterEffect after else after.

End Host.

Definition handleSort (field : string) (s : state) : state :=
  if opt_string_eqb (sortField s) (Some field)
  then setSortDirection (flip (sortDirection s)) s
  else setSortDirection Asc (setSortField (Some field) s).

Definition totalPages (s : state) : Z :=
  ceil_div (Z.of_nat (length (filteredContacts s))) (itemsPerPage s).

Definition startIndex (s : state) : Z :=
  (currentPage s - 1) * itemsPerPage s.

Definition pageContacts (s : state) : list (gmap string jsval) :=
  slice (filteredContacts s) (startIndex s) (startIndex s + itemsPerPage s).

(** What the user and the timers can do to the view.  The page size
    selector offers the values of [PAGE_SIZE_OPTIONS]. *)
Inductive event : Type :=
| TypeSearch (v : string)
| DebounceElapsed
| SelectSource (v : string)
| SelectOwner (v : string)
| SelectSegment (v : string)
| PickTag (v : option string)
| ClickHeader (field : string)
| SelectPageSize (v : Z)
| ClickPrevious
| ClickNext
| Fetched (rows : list (gmap string jsval)).

Definition handle (e : event) (s : state) : state :=
  match e with
  | TypeSearch v => setSearchTerm v s
  | DebounceElapsed => setDebouncedSearchTerm (searchTerm s) s
  | SelectSource v => setSourceFilter v s
  | SelectOwner v => setOwnerFilter v s
  | SelectSegment v => setSegmentFilter v s
  | PickTag v => setTagFilter v s
  | ClickHeader field => handleSort field s
  | SelectPageSize v => setItemsPerPage v s
  | ClickPrevious => setCurrentPage (Z.max 1 (currentPage s - 1)) s
  | ClickNext => setCurrentPage (Z.min (totalPages s) (currentPage s + 1)) s
  | Fetched rows => setContacts rows s
  end.

Definition step (localeCompare : string -> string -> Z) (e : event)
    (s : state) : state :=
  runEffects localeCompare s (handle e s).

(** Selection lives in the parent and reaches the table as the props
    [selectedContacts] and [setSelectedContacts]. *)
Definition handleSelectAll (pageContacts : list (gmap string jsval))
    (checked : bool) : list string :=
  if checked then map id_of (slice pageContacts 0 50) else [].

Definition handleSelectContact (selectedContacts : list string)
    (contactId : string) (checked : bool) : list string :=
  if checked then (selectedContacts ++ [contactId])%list
  else List.filter (fun id => negb (String.eqb id contactId))
         selectedContacts.

(** The [checked] property of the checkbox in the table header. *)
Definition headerChecked (selectedContacts : list string)
    (pageContacts : list (gmap string jsval)) : bool :=
  (0 <? Z.of_nat (length selectedContacts))
  && (Z.of_nat (length selectedContacts)
      =? Z.min (Z.of_nat (length pageContacts)) 50).

(** What a bulk delete leaves behind in the user interface. *)
Record outcome : Type := mkOutcome {
  selection : list string;
  shown : option toast
}.

Definition handleBulkDelete (selectedContacts : list string) : M outcome :=
  if (Z.of_nat (length selectedContacts) =? 0)
  then mret (mkOutcome selectedContacts None)
  else
    error ← delete_in "contacts" "id" selectedContacts;
    match error with
    | Some message =>
        mret (mkOutcome selectedContacts
                (Some (mkToast "Error"
                         (message_or message "Failed to delete contacts")
                         true)))
    | None =>
        thrown ← audit_delete "contacts" selectedContacts;
        match thrown with
        | Some message =>
            mret (mkOutcome selectedContacts
                    (Some (mkToast "Error"
                             (message_or message "Failed to delete contacts")
                             true)))
        | None =>
            start_fetch "contacts";;
            mret (mkOutcome []
                    (Some (mkToast "Success"
                             ("Deleted "
                              ++ number_to_string
                                   (Z.of_nat (length selectedContacts))
                              ++ " contacts successfully")
                             false)))
        end
    end.

(** The events that change what the filter effect reads: the debounced
    search term takes a new value, a dropdown or the tag takes a new
    value, or a column header is clicked (a new sort column, or the other
    direction on the same one). *)
Inductive changesQuery (s : state) : event -> Prop :=
| changes_search :
    searchTerm s <> debouncedSearchTerm s -> changesQuery s DebounceElapsed
| changes_source v : v <> sourceFilter s -> changesQuery s (SelectSource v)
| changes_owner v : v <> ownerFilter s -> changesQuery s (SelectOwner v)
| changes_segment v :
    v <> segmentFilter s -> changesQuery s (SelectSegment v)
| changes_tag v : v <> tagFilter s -> changesQuery s (PickTag v)
| changes_sort field : changesQuery s (ClickHeader field).

(** The view after a sequence of events, oldest first. *)
Definition run (localeCompare : string -> string -> Z) (events : list event)
    (s : state) : state :=
  fold_left (fun s e => step localeCompare e s) events s.

(** *** The rest of the table: footer, filter reset, single delete, avatar *)

(** The footer: "Showing [showingFrom] to [showingTo] of n contacts". *)
Definition showingFrom (s : state) : Z :=
  if Z.of_nat (length (filteredContacts s)) =? 0 then 0
  else startIndex s + 1.

Definition showingTo (s : state) : Z :=
  Z.min (startIndex s + itemsPerPage s)
    (Z.of_nat (length (filteredContacts s))).

Definition hasActiveFilters (s : state) : bool :=
  negb (String.eqb (debouncedSearchTerm s) "")
  || negb (String.eqb (sourceFilter s) "all")
  || negb (String.eqb (ownerFilter s) "all")
  || negb (String.eqb (segmentFilter s) "all")
  || negb (opt_string_eqb (tagFilter s) None).

Definition clearAllFilters (s : state) : state :=
  setTagFilter None
    (setSegmentFilter "all"
       (setOwnerFilter "all" (setSourceFilter "all" (setSearchTerm "" s)))).

(** [handleDelete]: the catch shows a fixed message. *)
Definition handleDelete (id : string) : M toast :=
  error ← delete_eq "contacts" "id" id;
  match error with
  | Some _ => mret (mkToast "Error" "Failed to delete contact" true)
  | None =>
      thrown ← audit_delete "contacts" [id];
      match thrown with
      | Some _ => mret (mkToast "Error" "Failed to delete contact" true)
      | None =>
          start_fetch "contacts";;
          mret (mkToast "Success" "Contact deleted successfully" false)
      end
  end.

Section Initials.

(** [String.prototype.toUpperCase] of the host.  It can lengthen a string:
    the letter with code 223 becomes ["SS"]. *)
Variable toUpperCase : string -> string.

Definition getContactInitials (name : string) : string :=
  concat_strings
    (map (fun word => toUpperCase (charAt0 word))
       (slice (split " " name) 0 2)).

End Initials.

Definition avatarColors : list string :=
  ["bg-slate-500"; "bg-slate-600"; "bg-zinc-500"; "bg-gray-500";
   "bg-stone-500"; "bg-neutral-500"; "bg-slate-700"; "bg-zinc-600"].

Definition getAvatarColor (name : string) : option string :=
  let index := char_code_sum name mod Z.of_nat (length avatarColors) in
  index_of avatarColors index.

End ContactTable.

(** ** Leads: [LeadTable] *)

Module LeadTable.

Section Host.

Variable localeCompare : string -> string -> Z.

(** The comparator handed to [filtered.sort]: every value is compared
    through its string form. *)
Definition compare (sortField : string) (sortDirection : direction)
    (a b : gmap string jsval) : Z :=
  let aValue := or_else (get a sortField) (VStr "") in
  let bValue := or_else (get b sortField) (VStr "") in
  let comparison := localeCompare (to_string aValue) (to_string bValue) in
  match sortDirection with
  | Asc => comparison
  | Desc => - comparison
  end.

End Host.

(** [handleSort] reads and writes the pair [sortField], [sortDirection]. *)
Definition handleSort (field : string)
    (sorting : option string * direction) : option string * direction :=
  let '(sortField, sortDirection) := sorting in
  if opt_string_eqb sortField (Some field)
  then (sortField, flip sortDirection)
  else (Some field, Asc).

Definition getCurrentPageLeads (filteredLeads : list (gmap string jsval))
    (currentPage itemsPerPage : Z) : list (gmap string jsval) :=
  let startIndex := (currentPage - 1) * itemsPerPage in
  slice filteredLeads startIndex (startIndex + itemsPerPage).

Definition handleSelectAll (currentPageLeads : list (gmap string jsval))
    (checked : bool) : list string :=
  if checked then map id_of (slice currentPageLeads 0 50) else [].

Definition headerChecked (selectedLeads : list string)
    (pageLeads : list (gmap string jsval)) : bool :=
  (0 <? Z.of_nat (length selectedLeads))
  && (Z.of_nat (length selectedLeads)
      =? Z.min (Z.of_nat (length pageLeads)) 50).

Record outcome : Type := mkOutcome {
  selection : list string;
  shown : option toast
}.

(** The dependent records of the selected leads, removed first when
    [deleteLinkedRecords] is set.  The errors of these requests are not
    looked at. *)
Definition deleteLinked (selectedLeads : list string) : M unit :=
  delete_in "notifications" "lead_id" selectedLeads;;
  actionItems ← select_in "lead_action_items" "id" "lead_id" selectedLeads;
  match actionItems with
  | Some (item :: items) =>
      let actionItemIds := map id_of (item :: items) in
      delete_in "notifications" "action_item_id" actionItemIds;;
      mret tt
  | _ => mret tt
  end;;
  delete_in "lead_action_items" "lead_id" selectedLeads;;
  mret tt.

Definition handleBulkDelete (deleteLinkedRecords : bool)
    (selectedLeads : list string) : M outcome :=
  if (Z.of_nat (length selectedLeads) =? 0)
  then mret (mkOutcome selectedLeads None)
  else
    (if deleteLinkedRecords then deleteLinked selectedLeads else mret tt);;
    error ← delete_in "leads" "id" selectedLeads;
    match error with
    | Some message =>
        mret (mkOutcome selectedLeads
                (Some (mkToast "Error"
                         (message_or message "Failed to delete leads")
                         true)))
    | None =>
        thrown ← audit_delete "leads" selectedLeads;
        match thrown with
        | Some message =>
            mret (mkOutcome selectedLeads
                    (Some (mkToast "Error"
                             (message_or message "Failed to delete leads")
                             true)))
        | None =>
            start_fetch "leads";;
            mret (mkOutcome []
                    (Some (mkToast "Success"
                             ("Deleted "
                              ++ number_to_string
                                   (Z.of_nat (length selectedLeads))
                              ++ " leads successfully")
                             false)))
        end
    end.

(** *** The rest of the table: the filter effect and the single delete *)

(** The state the filter effect reads. *)
Record query : Type := mkQuery {
  debouncedSearchTerm : string;
  statusFilter : string;
  ownerFilter : string;
  dateFromFilter : option string;
  dateToFilter : option string;
  sortField : option string;
  sortDirection : direction
}.

Definition matchesSearch (searchLower : string) (lead : gmap string jsval)
  : bool :=
  lower_includes (get lead "lead_name") searchLower
  || lower_includes (get lead "company_name") searchLower
  || lower_includes (get lead "account_company_name") searchLower
  || lower_includes (get lead "email") searchLower
  || lower_includes (get lead "phone_no") searchLower
  || lower_includes (get lead "position") searchLower
  || lower_includes (get lead "linkedin") searchLower
  || lower_includes (get lead "website") searchLower.

Section Filter.

Variable localeCompare : string -> string -> Z.
(** [new Date(v)] as a number of milliseconds, [None] for an invalid
    date, which compares false with everything. *)
Variable dateValue : jsval -> option Z.

(** [new Date(lead.created_time) >= fromDate], after the guard
    [if (!lead.created_time) return false]. *)
Definition createdFrom (fromDate : option Z) (lead : gmap string jsval)
  : bool :=
  if truthy (get lead "created_time")
  then match dateValue (get lead "created_time"), fromDate with
       | Some created, Some bound => bound <=? created
       | _, _ => false
       end
  else false.

Definition createdTo (toDate : option Z) (lead : gmap string jsval) : bool :=
  if truthy (get lead "created_time")
  then match dateValue (get lead "created_time"), toDate with
       | Some created, Some bound => created <=? bound
       | _, _ => false
       end
  else false.

(** The array the filter effect stores in [filteredLeads]. *)
Definition filterAndSort (leads : list (gmap string jsval)) (q : query)
  : list (gmap string jsval) :=
  let searchLower := toLowerCase (debouncedSearchTerm q) in
  let filtered := List.filter (matchesSearch searchLower) leads in
  let filtered :=
    if negb (String.eqb (statusFilter q) "all")
    then List.filter
           (fun lead => strict_eq_str (get lead "lead_status") (statusFilter q))
           filtered
    else filtered in
  let filtered :=
    if negb (String.eqb (ownerFilter q) "all")
    then List.filter
           (fun lead =>
              strict_eq_str (get lead "contact_owner") (ownerFilter q))
           filtered
    else filtered in
  let filtered :=
    match dateFromFilter q with
    | Some from =>
        if String.eqb from "" then filtered
        else List.filter (createdFrom (dateValue (VStr from))) filtered
    | None => filtered
    end in
  let filtered :=
    match dateToFilter q with
    | Some to =>
        if String.eqb to "" then filtered
        else List.filter (createdTo (dateValue (VStr to))) filtered
    | None => filtered
    end in
  match sortField q with
  | Some field =>
      if String.eqb field "" then filtered
      else sort (compare localeCompare field (sortDirection q)) filtered
  | None => filtered
  end.

End Filter.

(** What [handleDelete] leaves behind: the lead awaiting deletion, whether
    the confirmation dialog is open, and the toast. *)
Record deleteOutcome : Type := mkDeleteOutcome {
  leadToDelete' : option (gmap string jsval);
  showDeleteDialog' : bool;
  deleteShown : toast
}.

(** The dependent records of one lead; only the error of the last request
    is looked at. *)
Definition deleteLinkedOf (id : string) : M (option string) :=
  delete_eq "notifications" "lead_id" id;;
  actionItems ← select_eq "lead_action_items" "id" "lead_id" id None;
  match actionItems with
  | Some (item :: items) =>
      let actionItemIds := map id_of (item :: items) in
      delete_in "notifications" "action_item_id" actionItemIds;;
      mret tt
  | _ => mret tt
  end;;
  delete_eq "lead_action_items" "lead_id" id.

Definition deleteFailed (message : string) : toast :=
  mkToast "Error" (message_or message "Failed to delete lead") true.

Definition handleDelete (deleteLinkedRecords : bool)
    (leadToDelete : option (gmap string jsval)) (showDeleteDialog : bool)
  : M deleteOutcome :=
  let noLead :=
    mkDeleteOutcome leadToDelete showDeleteDialog
      (mkToast "Error" "No lead selected for deletion" true) in
  match leadToDelete with
  | None => mret noLead
  | Some lead =>
      if negb (truthy (get lead "id")) then mret noLead
      else
        let id := id_of lead in
        actionItemsError ←
          (if deleteLinkedRecords then deleteLinkedOf id else mret None);
        match actionItemsError with
        | Some message =>
            mret (mkDeleteOutcome leadToDelete showDeleteDialog
                    (deleteFailed message))
        | None =>
            error ← delete_eq "leads" "id" id;
            match error with
            | Some message =>
                mret (mkDeleteOutcome leadToDelete showDeleteDialog
                        (deleteFailed message))
            | None =>
                thrown ← audit_delete "leads" [id];
                match thrown with
                | Some message =>
                    mret (mkDeleteOutcome leadToDelete showDeleteDialog
                            (deleteFailed message))
                | None =>
                    start_fetch "leads";;
                    mret (mkDeleteOutcome None false
                            (mkToast "Success" "Lead deleted successfully"
                               false))
                end
            end
        end
  end.

End LeadTable.

(** ** Accounts: [AccountTable] *)

Module AccountTable.

Section Host.

Variable localeCompare : string -> string -> Z.

(** The comparator handed to [filtered.sort]; the numeric branch serves
    score, revenue and the counts. *)
Definition compare (sortField : string) (sortDirection : direction)
    (a b : gmap string jsval) : Z :=
  let aValue := or_else (get a sortField) (VStr "") in
  let bValue := or_else (get b sortField) (VStr "") in
  match aValue, bValue with
  | VNum x, VNum y =>
      match sortDirection with Asc => x - y | Desc => y - x end
  | _, _ =>
      let comparison :=
        localeCompare (to_string aValue) (to_string bValue) in
      match sortDirection with
      | Asc => comparison
      | Desc => - comparison
      end
  end.

End Host.

Definition handleSort (field : string)
    (sorting : option string * direction) : option string * direction :=
  let '(sortField, sortDirection) := sorting in
  if opt_string_eqb sortField (Some field)
  then (sortField, flip sortDirection)
  else (Some field, Asc).

Definition getCurrentPageAccounts
    (filteredAccounts : list (gmap string jsval))
    (currentPage itemsPerPage : Z) : list (gmap string jsval) :=
  let startIndex := (currentPage - 1) * itemsPerPage in
  slice filteredAccounts startIndex (startIndex + itemsPerPage).

Definition handleSelectAll (currentPageAccounts : list (gmap string jsval))
    (checked : bool) : list string :=
  if checked then map id_of (slice currentPageAccounts 0 50) else [].

Definition headerChecked (selectedAccounts : list string)
    (pageAccounts : list (gmap string jsval)) : bool :=
  (0 <? Z.of_nat (length selectedAccounts))
  && (Z.of_nat (length selectedAccounts)
      =? Z.min (Z.of_nat (length pageAccounts)) 50).

Definition cannotDeleteLinked : toast :=
  mkToast "Cannot Delete"
    "This account has linked contacts or leads. Please unlink them first."
    true.

Definition cannotDeleteAllLinked : toast :=
  mkToast "Cannot Delete"
    "All selected accounts have linked contacts or leads." true.

(** [data && data.length > 0] *)
Definition nonEmptyData {A : Type} (data : option (list A)) : bool :=
  match data with
  | Some (_ :: _) => true
  | _ => false
  end.

Arguments nonEmptyData {A} data : simpl never.

(** What [handleDelete] leaves behind: the account still awaiting
    deletion, whether the confirmation dialog stays open, and the toast. *)
Record deleteOutcome : Type := mkDeleteOutcome {
  accountToDelete' : option (gmap string jsval);
  showDeleteDialog' : bool;
  deleteShown : option toast
}.

Definition handleDelete (accountToDelete : option (gmap string jsval))
    (showDeleteDialog : bool) : M deleteOutcome :=
  match accountToDelete with
  | None => mret (mkDeleteOutcome accountToDelete showDeleteDialog None)
  | Some account =>
      if negb (truthy (get account "id"))
      then mret (mkDeleteOutcome accountToDelete showDeleteDialog None)
      else
        let id := id_of account in
        linkedContacts ← select_eq "contacts" "id" "account_id" id (Some 1%nat);
        linkedLeads ← select_eq "leads" "id" "account_id" id (Some 1%nat);
        if nonEmptyData linkedContacts || nonEmptyData linkedLeads
        then mret (mkDeleteOutcome accountToDelete false
                     (Some cannotDeleteLinked))
        else
          error ← delete_eq "accounts" "id" id;
          match error with
          | Some message =>
              mret (mkDeleteOutcome accountToDelete showDeleteDialog
                      (Some (mkToast "Error"
                               (message_or message "Failed to delete account")
                               true)))
          | None =>
              thrown ← audit_delete "accounts" [id];
              match thrown with
              | Some message =>
                  mret (mkDeleteOutcome accountToDelete showDeleteDialog
                          (Some (mkToast "Error"
                                   (message_or message
                                      "Failed to delete account")
                                   true)))
              | None =>
                  start_fetch "accounts";;
                  mret (mkDeleteOutcome None false
                          (Some (mkToast "Success"
                                   "Account deleted successfully" false)))
              end
          end
  end.

(** [(data || []).map(r => r.account_id)], kept as the strings a selected
    identifier can be equal to. *)
Definition linkedAccountIds (data : option (list (gmap string jsval)))
  : list string :=
  omap (fun r => match get r "account_id" with
                 | VStr v => Some v
                 | _ => None
                 end)
    (default [] data).

(** The audit loop over the deleted accounts: an account found in the
    fetched collection is logged; the loop stops at the first call that
    throws. *)
Fixpoint logDeletions (accounts : list (gmap string jsval))
    (ids : list string) : M (option string) :=
  match ids with
  | [] => mret None
  | id :: rest =>
      match List.find (fun a => strict_eq_str (get a "id") id) accounts with
      | Some _ =>
          thrown ← audit_delete "accounts" [id];
          match thrown with
          | Some message => mret (Some message)
          | None => logDeletions accounts rest
          end
      | None => logDeletions accounts rest
      end
  end.

Record outcome : Type := mkOutcome {
  selection : list string;
  shown : option toast
}.

Definition deletedSummary (deleted skippedCount : Z) : string :=
  if 0 <? skippedCount
  then "Deleted " ++ number_to_string deleted ++ " accounts. "
       ++ number_to_string skippedCount ++ " skipped (have linked records)."
  else "Deleted " ++ number_to_string deleted ++ " accounts successfully".

Definition handleBulkDelete (accounts : list (gmap string jsval))
    (selectedAccounts : list string) : M outcome :=
  if (Z.of_nat (length selectedAccounts) =? 0)
  then mret (mkOutcome selectedAccounts None)
  else
    linkedContacts ←
      select_in "contacts" "account_id" "account_id" selectedAccounts;
    linkedLeads ←
      select_in "leads" "account_id" "account_id" selectedAccounts;
    let accountsWithLinks : gset string :=
      list_to_set (linkedAccountIds linkedContacts
                   ++ linkedAccountIds linkedLeads)%list in
    let deletableAccounts :=
      List.filter (fun id => negb (bool_decide (id ∈ accountsWithLinks)))
        selectedAccounts in
    let skippedCount :=
      Z.of_nat (length selectedAccounts)
      - Z.of_nat (length deletableAccounts) in
    if (Z.of_nat (length deletableAccounts) =? 0)
    then mret (mkOutcome selectedAccounts (Some cannotDeleteAllLinked))
    else
      error ← delete_in "accounts" "id" deletableAccounts;
      match error with
      | Some message =>
          mret (mkOutcome selectedAccounts
                  (Some (mkToast "Error"
                           (message_or message "Failed to delete accounts")
                           true)))
      | None =>
          thrown ← logDeletions accounts deletableAccounts;
          match thrown with
          | Some message =>
              mret (mkOutcome selectedAccounts
                      (Some (mkToast "Error"
                               (message_or message
                                  "Failed to delete accounts")
                               true)))
          | None =>
              start_fetch "accounts";;
              mret (mkOutcome []
                      (Some (mkToast "Success"
                               (deletedSummary
                                  (Z.of_nat (length deletableAccounts))
                                  skippedCount)
                               false)))
          end
      end.

(** *** The contact counts computed by [fetchAccounts] *)

(** What a property of the count object, or [contact_count], holds: a
    number, or a value that is not a number. *)
Inductive counted : Type :=
| Count (n : Z)
| NotANumber.

Section Counts.

(** [key in Object.prototype]: the count object is the literal [{}], which
    inherits [constructor], [toString], [__proto__] and the like from
    [Object.prototype] of the host.  Read under such a key it gives the
    inherited function or object, and after [(acc[key] || 0) + 1] text
    built from it: never a number. *)
Variable inherited : string -> bool.

(** The [reduce] over the fetched contact rows, as far as it holds
    numbers: one more for the account of every row that names one under a
    key that is not inherited. *)
Definition contactCountMap (contactCounts : list (gmap string jsval))
  : gmap string Z :=
  fold_left
    (fun acc c =>
       if truthy (get c "account_id")
       then let key := to_string (get c "account_id") in
            if inherited key then acc
            else <[ key := default 0 (acc !! key) + 1 ]> acc
       else acc)
    contactCounts ∅.

(** [contactCountMap[account.id] || 0] *)
Definition countFor (counts : gmap string Z) (account : gmap string jsval)
  : counted :=
  let key := to_string (get account "id") in
  if inherited key then NotANumber
  else Count (default 0 (counts !! key)).

(** [{ ...account, contact_count }] for every fetched account: the fetched
    properties, and the value of [contact_count], which replaces a fetched
    property of that name. *)
Definition accountsWithCounts (accountsData contactCounts
                                 : list (gmap string jsval))
  : list (gmap string jsval * counted) :=
  map (fun account =>
         (account, countFor (contactCountMap contactCounts) account))
    accountsData.

End Counts.

End AccountTable.

(** ** Meetings: the [Meetings] page *)

Module Meetings.

Definition ITEMS_PER_PAGE : Z := 25.

Inductive SortColumn : Type :=
| subject
| date
| time
| lead_contact
| status.

Definition SortColumn_eqb (a b : SortColumn) : bool :=
  match a, b with
  | subject, subject | date, date | time, time
  | lead_contact, lead_contact | status, status => true
  | _, _ => false
  end.

(** [sortColumn === column], both of type [SortColumn | null]. *)
Definition column_eqb (a b : option SortColumn) : bool :=
  match a, b with
  | None, None => true
  | Some x, Some y => SortColumn_eqb x y
  | _, _ => false
  end.

(** [meetingsRef] is the identity of the array held in [meetings]. *)
Record state : Type := mkState {
  meetings : list (gmap string jsval);
  meetingsRef : nat;
  filteredMeetings : list (gmap string jsval);
  searchTerm : string;
  statusFilter : string;
  organizerFilter : string;
  sortColumn : option SortColumn;
  sortDirection : direction;
  currentPage : Z;
  selectedMeetings : list string
}.

Definition initial (initialStatus : string) : state :=
  mkState [] 0 [] "" initialStatus "all" None Asc 1 [].

Definition setFilteredMeetings (v : list (gmap string jsval)) (s : state)
  : state :=
  mkState (meetings s) (meetingsRef s) v (searchTerm s) (statusFilter s)
    (organizerFilter s) (sortColumn s) (sortDirection s) (currentPage s)
    (selectedMeetings s).

Definition setCurrentPage (v : Z) (s : state) : state :=
  mkState (meetings s) (meetingsRef s) (filteredMeetings s) (searchTerm s)
    (statusFilter s) (organizerFilter s) (sortColumn s) (sortDirection s)
    v (selectedMeetings s).

Definition setSelectedMeetings (v : list string) (s : state) : state :=
  mkState (meetings s) (meetingsRef s) (filteredMeetings s) (searchTerm s)
    (statusFilter s) (organizerFilter s) (sortColumn s) (sortDirection s)
    (currentPage s) v.

Definition setSorting (column : option SortColumn) (d : direction)
    (s : state) : state :=
  mkState (meetings s) (meetingsRef s) (filteredMeetings s) (searchTerm s)
    (statusFilter s) (organizerFilter s) column d (currentPage s)
    (selectedMeetings s).

Definition handleSort (column : option SortColumn) (s : state) : state :=
  if column_eqb (sortColumn s) column
  then setSorting (sortColumn s) (flip (sortDirection s)) s
  else setSorting column Asc s.

(** The values the comparator orders: a string or a number, the number
    being [None] when the date is invalid ([NaN]). *)
Inductive sortValue : Type :=
| SString (s : string)
| SNumber (n : option Z).

(** [aValue < bValue]; the two values of one comparison come from the
    same branch of the [switch] and have the same kind. *)
Definition value_ltb (a b : sortValue) : bool :=
  match a, b with
  | SString x, SString y => String.ltb x y
  | SNumber (Some x), SNumber (Some y) => x <? y
  | _, _ => false
  end.

Section Host.

(** [getMeetingStatus] of [utils/meetingStatus]. *)
Variable getMeetingStatus : gmap string jsval -> string.
(** [new Date(v).setHours(0, 0, 0, 0)]: the local midnight of the day,
    in epoch milliseconds. *)
Variable startOfDay : jsval -> option Z.
(** [getHours() * 60 + getMinutes()] of [new Date(v)]. *)
Variable minutesOfDay : jsval -> option Z.

Definition getEffectiveStatus (meeting : gmap string jsval) : string :=
  getMeetingStatus meeting.

Definition matches (s : state) (meeting : gmap string jsval) : bool :=
  let matchesSearch :=
    lower_includes (get meeting "subject") (toLowerCase (searchTerm s))
    || lower_includes (get meeting "lead_name")
         (toLowerCase (searchTerm s))
    || lower_includes (get meeting "contact_name")
         (toLowerCase (searchTerm s)) in
  let matchesStatus :=
    String.eqb (statusFilter s) "all"
    || String.eqb (getEffectiveStatus meeting) (statusFilter s) in
  let matchesOrganizer :=
    String.eqb (organizerFilter s) "all"
    || strict_eq_str (get meeting "created_by") (organizerFilter s) in
  matchesSearch && matchesStatus && matchesOrganizer.

(** The [switch (sortColumn)] of the comparator. *)
Definition sortValueOf (column : SortColumn) (m : gmap string jsval)
  : sortValue :=
  match column with
  | subject =>
      match get m "subject" with
      | VStr t => SString (toLowerCase t)
      | _ => SString ""
      end
  | date => SNumber (startOfDay (get m "start_time"))
  | time => SNumber (minutesOfDay (get m "start_time"))
  | lead_contact =>
      SString
        (toLowerCase
           (to_string
              (or_else (get m "lead_name")
                 (or_else (get m "contact_name") (VStr "")))))
  | status => SString (getEffectiveStatus m)
  end.

Definition compare (column : SortColumn) (sortDirection : direction)
    (a b : gmap string jsval) : Z :=
  let aValue := sortValueOf column a in
  let bValue := sortValueOf column b in
  if value_ltb aValue bValue
  then match sortDirection with Asc => -1 | Desc => 1 end
  else if value_ltb bValue aValue
  then match sortDirection with Asc => 1 | Desc => -1 end
  else 0.

(** The memoised [sortedAndFilteredMeetings]. *)
Definition sortedAndFilteredMeetings (s : state)
  : list (gmap string jsval) :=
  let filtered := List.filter (matches s) (meetings s) in
  match sortColumn s with
  | Some column => sort (compare column (sortDirection s)) filtered
  | None => filtered
  end.

(** The dependencies of the memo; the effect below depends on the
    memoised array, which is a new array exactly when the memo is
    computed again. *)
Definition memoDepsChanged (before after : state) : bool :=
  negb (Nat.eqb (meetingsRef before) (meetingsRef after))
  || negb (String.eqb (searchTerm before) (searchTerm after))
  || negb (String.eqb (statusFilter before) (statusFilter after))
  || negb (String.eqb (organizerFilter before) (organizerFilter after))
  || negb (column_eqb (sortColumn before) (sortColumn after))
  || negb (direction_eqb (sortDirection before) (sortDirection after)).

Definition runEffects (before after : state) : state :=
  if memoDepsChanged before after
  then setCurrentPage 1
         (setFilteredMeetings (sortedAndFilteredMeetings after) after)
  else after.

End Host.

Definition totalPages (s : state) : Z :=
  ceil_div (Z.of_nat (length (filteredMeetings s))) ITEMS_PER_PAGE.

Definition paginatedMeetings (s : state) : list (gmap string jsval) :=
  let startIndex := (currentPage s - 1) * ITEMS_PER_PAGE in
  slice (filteredMeetings s) startIndex (startIndex + ITEMS_PER_PAGE).

Definition handleSelectAll (checked : bool) (s : state) : state :=
  if checked
  then setSelectedMeetings (map id_of (paginatedMeetings s)) s
  else setSelectedMeetings [] s.

Definition handleSelectMeeting (meetingId : string) (checked : bool)
    (s : state) : state :=
  if checked
  then setSelectedMeetings (selectedMeetings s ++ [meetingId])%list s
  else setSelectedMeetings
         (List.filter (fun id => negb (String.eqb id meetingId))
            (selectedMeetings s)) s.

Definition isAllSelected (s : state) : bool :=
  (0 <? Z.of_nat (length (paginatedMeetings s)))
  && forallb (fun m => list_includes (selectedMeetings s) (id_of m))
       (paginatedMeetings s).

Inductive event : Type :=
| TypeSearch (v : string)
| SelectStatus (v : string)
| SelectOrganizer (v : string)
| ClickHeader (column : option SortColumn)
| ClickPrevious
| ClickNext
| ToggleAll (checked : bool)
| ToggleRow (meetingId : string) (checked : bool)
| Fetched (rows : list (gmap string jsval)).

Definition handle (e : event) (s : state) : state :=
  match e with
  | TypeSearch v =>
      mkState (meetings s) (meetingsRef s) (filteredMeetings s) v
        (statusFilter s) (organizerFilter s) (sortColumn s)
        (sortDirection s) (currentPage s) (selectedMeetings s)
  | SelectStatus v =>
      mkState (meetings s) (meetingsRef s) (filteredMeetings s)
        (searchTerm s) v (organizerFilter s) (sortColumn s)
        (sortDirection s) (currentPage s) (selectedMeetings s)
  | SelectOrganizer v =>
      mkState (meetings s) (meetingsRef s) (filteredMeetings s)
        (searchTerm s) (statusFilter s) v (sortColumn s)
        (sortDirection s) (currentPage s) (selectedMeetings s)
  | ClickHeader column => handleSort column s
  | ClickPrevious => setCurrentPage (Z.max 1 (currentPage s - 1)) s
  | ClickNext => setCurrentPage (Z.min (totalPages s) (currentPage s + 1)) s
  | ToggleAll checked => handleSelectAll checked s
  | ToggleRow meetingId checked => handleSelectMeeting meetingId checked s
  | Fetched rows =>
      mkState rows (S (meetingsRef s)) (filteredMeetings s) (searchTerm s)
        (statusFilter s) (organizerFilter s) (sortColumn s)
        (sortDirection s) (currentPage s) []
  end.

Definition step (getMeetingStatus : gmap string jsval -> string)
    (startOfDay minutesOfDay : jsval -> option Z) (e : event) (s : state)
  : state :=
  runEffects getMeetingStatus startOfDay minutesOfDay s (handle e s).

(** The events that change the search term, a dropdown filter or the
    sort key. *)
Inductive changesQuery (s : state) : event -> Prop :=
| changes_search v : v <> searchTerm s -> changesQuery s (TypeSearch v)
| changes_status v : v <> statusFilter s -> changesQuery s (SelectStatus v)
| changes_organizer v :
    v <> organizerFilter s -> changesQuery s (SelectOrganizer v)
| changes_sort column : changesQuery s (ClickHeader column).

Definition run (getMeetingStatus : gmap string jsval -> string)
    (startOfDay minutesOfDay : jsval -> option Z) (events : list event)
    (s : state) : state :=
  fold_left (fun s e => step getMeetingStatus startOfDay minutesOfDay e s)
    events s.

Record outcome : Type := mkOutcome {
  selection : list string;
  shown : option toast
}.

Definition handleBulkDelete (selectedMeetings : list string) : M outcome :=
  error ← delete_in "meetings" "id" selectedMeetings;
  match error with
  | Some _ =>
      mret (mkOutcome selectedMeetings
              (Some (mkToast "Error" "Failed to delete meetings" true)))
  | None =>
      start_fetch "meetings";;
      mret (mkOutcome []
              (Some (mkToast "Success"
                       (number_to_string
                          (Z.of_nat (length selectedMeetings))
                        ++ " meeting(s) deleted successfully")
                       false)))
  end.

(** *** The rest of the page: partial selection, filter reset, single
    delete *)

Definition isSomeSelected (s : state) : bool :=
  existsb (fun m => list_includes (selectedMeetings s) (id_of m))
    (paginatedMeetings s)
  && negb (isAllSelected s).

Definition hasActiveFilters (s : state) : bool :=
  negb (String.eqb (statusFilter s) "all")
  || negb (String.eqb (organizerFilter s) "all")
  || negb (String.eqb (searchTerm s) "").

Definition handleClearAllFilters (s : state) : state :=
  mkState (meetings s) (meetingsRef s) (filteredMeetings s) "" "all" "all"
    (sortColumn s) (sortDirection s) (currentPage s) (selectedMeetings s).

(** [handleDelete] *)
Definition handleDelete (id : string) : M toast :=
  error ← delete_eq "meetings" "id" id;
  match error with
  | Some _ => mret (mkToast "Error" "Failed to delete meeting" true)
  | None =>
      start_fetch "meetings";;
      mret (mkToast "Success" "Meeting deleted successfully" false)
  end.

End Meetings.

(** ** Deals: [ListView] *)

Module ListView.

Definition PAGE_SIZE_OPTIONS : list Z := [10; 25; 50; 100].

(** [filtersRef] is the identity of the advanced filter object held in
    [filters]; every [setFilters] installs a new object.  The content of
    the object only matters to [filteredAndSortedDeals], which the
    handlers below receive as computed by the render. *)
Record state : Type := mkState {
  searchTerm : string;
  leadOwnerFilter : string;
  filtersRef : nat;
  sortBy : string;
  sortOrder : direction;
  selectedDeals : gset string;
  currentPage : Z;
  itemsPerPage : Z
}.

Definition initial : state :=
  mkState "" "all" 0 "modified_at" Desc ∅ 1 25.

Definition setCurrentPage (v : Z) (s : state) : state :=
  mkState (searchTerm s) (leadOwnerFilter s) (filtersRef s) (sortBy s)
    (sortOrder s) (selectedDeals s) v (itemsPerPage s).

Definition setItemsPerPage (v : Z) (s : state) : state :=
  mkState (searchTerm s) (leadOwnerFilter s) (filtersRef s) (sortBy s)
    (sortOrder s) (selectedDeals s) (currentPage s) v.

Definition setSelectedDeals (v : gset string) (s : state) : state :=
  mkState (searchTerm s) (leadOwnerFilter s) (filtersRef s) (sortBy s)
    (sortOrder s) v (currentPage s) (itemsPerPage s).

Definition setSorting (field : string) (d : direction) (s : state)
  : state :=
  mkState (searchTerm s) (leadOwnerFilter s) (filtersRef s) field d
    (selectedDeals s) (currentPage s) (itemsPerPage s).

(** The [onClick] of a column header. *)
Definition onHeaderClick (field : string) (s : state) : state :=
  if String.eqb (sortBy s) field
  then setSorting (sortBy s) (flip (sortOrder s)) s
  else setSorting field Desc s.

Definition totalPages (filteredAndSortedDeals : list (gmap string jsval))
    (s : state) : Z :=
  ceil_div (Z.of_nat (length filteredAndSortedDeals)) (itemsPerPage s).

Definition paginatedDeals (filteredAndSortedDeals : list (gmap string jsval))
    (s : state) : list (gmap string jsval) :=
  let startIndex := (currentPage s - 1) * itemsPerPage s in
  slice filteredAndSortedDeals startIndex (startIndex + itemsPerPage s).

Definition handleSelectAll
    (filteredAndSortedDeals : list (gmap string jsval)) (checked : bool)
    (s : state) : state :=
  if checked
  then setSelectedDeals (list_to_set (map id_of filteredAndSortedDeals)) s
  else setSelectedDeals ∅ s.

Definition handleSelectDeal (dealId : string) (checked : bool) (s : state)
  : state :=
  if checked
  then setSelectedDeals ({[ dealId ]} ∪ selectedDeals s) s
  else setSelectedDeals (selectedDeals s ∖ {[ dealId ]}) s.

(** The [checked] property of the checkbox in the table header. *)
Definition headerChecked (paginatedDeals : list (gmap string jsval))
    (s : state) : bool :=
  (Z.of_nat (size (selectedDeals s)) =? Z.of_nat (length paginatedDeals))
  && (0 <? Z.of_nat (length paginatedDeals)).

(** The dependency array of the page reset:
    [filters, searchTerm, leadOwnerFilter]. *)
Definition resetDepsChanged (before after : state) : bool :=
  negb (Nat.eqb (filtersRef before) (filtersRef after))
  || negb (String.eqb (searchTerm before) (searchTerm after))
  || negb (String.eqb (leadOwnerFilter before) (leadOwnerFilter after)).

Definition runEffects (before after : state) : state :=
  if resetDepsChanged before after then setCurrentPage 1 after else after.

Inductive event : Type :=
| TypeSearch (v : string)
| SelectLeadOwner (v : string)
| ChangeFilters
| ClickHeader (field : string)
| SelectPageSize (v : Z)
| ClickPrevious
| ClickNext
| ToggleAll (checked : bool)
| ToggleRow (dealId : string) (checked : bool).

Definition handle (filteredAndSortedDeals : list (gmap string jsval))
    (e : event) (s : state) : state :=
  match e with
  | TypeSearch v =>
      mkState v (leadOwnerFilter s) (filtersRef s) (sortBy s) (sortOrder s)
        (selectedDeals s) (currentPage s) (itemsPerPage s)
  | SelectLeadOwner v =>
      mkState (searchTerm s) v (filtersRef s) (sortBy s) (sortOrder s)
        (selectedDeals s) (currentPage s) (itemsPerPage s)
  | ChangeFilters =>
      mkState (searchTerm s) (leadOwnerFilter s) (S (filtersRef s))
        (sortBy s) (sortOrder s) (selectedDeals s) (currentPage s)
        (itemsPerPage s)
  | ClickHeader field => onHeaderClick field s
  | SelectPageSize v => setItemsPerPage v s
  | ClickPrevious => setCurrentPage (Z.max 1 (currentPage s - 1)) s
  | ClickNext =>
      setCurrentPage
        (Z.min (totalPages filteredAndSortedDeals s) (currentPage s + 1)) s
  | ToggleAll checked => handleSelectAll filteredAndSortedDeals checked s
  | ToggleRow dealId checked => handleSelectDeal dealId checked s
  end.

Definition step (filteredAndSortedDeals : list (gmap string jsval))
    (e : event) (s : state) : state :=
  runEffects s (handle filteredAndSortedDeals e s).

(** The events that change the search term or a filter. *)
Inductive changesFilter (s : state) : event -> Prop :=
| changes_search v : v <> searchTerm s -> changesFilter s (TypeSearch v)
| changes_lead_owner v :
    v <> leadOwnerFilter s -> changesFilter s (SelectLeadOwner v)
| changes_filters : changesFilter s ChangeFilters.

(** *** The advanced filter object *)

Record AdvancedFilterState : Type := mkFilters {
  stages : list string;
  regions : list string;
  leadOwners : list string;
  priorities : list string;
  probabilities : list string;
  handoffStatuses : list string;
  filterSearchTerm : string;
  probabilityRange : Z * Z
}.

(** The object [clearAllFilters] installs. *)
Definition clearedFilters : AdvancedFilterState :=
  mkFilters [] [] [] [] [] [] "" (0, 100).

Definition nonEmpty {A : Type} (l : list A) : Z :=
  if 0 <? Z.of_nat (length l) then 1 else 0.

Definition getActiveFiltersCount (filters : AdvancedFilterState) : Z :=
  nonEmpty (stages filters)
  + nonEmpty (regions filters)
  + nonEmpty (leadOwners filters)
  + nonEmpty (priorities filters)
  + nonEmpty (probabilities filters)
  + nonEmpty (handoffStatuses filters)
  + (if negb (String.eqb (filterSearchTerm filters) "") then 1 else 0)
  + (if (0 <? (probabilityRange filters).1)
        || ((probabilityRange filters).2 <? 100)
     then 1 else 0).

Definition hasActiveFilters (filters : AdvancedFilterState)
    (searchTerm : string) : bool :=
  (0 <? getActiveFiltersCount filters) || negb (String.eqb searchTerm "").

End ListView.

(** ** Tasks: [TaskListView] *)

Module TaskListView.

Definition PAGE_SIZE_OPTIONS : list Z := [10; 25; 50; 100].

Record state : Type := mkState {
  searchTerm : string;
  statusFilter : string;
  priorityFilter : string;
  assignedToFilter : string;
  currentPage : Z;
  itemsPerPage : Z
}.

Definition initial (initialStatusFilter initialOwnerFilter : string)
  : state :=
  mkState "" initialStatusFilter "all" initialOwnerFilter 1 25.

Definition setCurrentPage (v : Z) (s : state) : state :=
  mkState (searchTerm s) (statusFilter s) (priorityFilter s)
    (assignedToFilter s) v (itemsPerPage s).

Definition setItemsPerPage (v : Z) (s : state) : state :=
  mkState (searchTerm s) (statusFilter s) (priorityFilter s)
    (assignedToFilter s) (currentPage s) v.

(** The memoised [filteredTasks].  [task.title], declared a string, is
    lower-cased without [?.]: on a task without a title the code throws.
    The model gives false there; it describes lists of tasks that have
    titles. *)
Definition filteredTasks (tasks : list (gmap string jsval)) (s : state)
  : list (gmap string jsval) :=
  List.filter
    (fun task =>
       let matchesSearch :=
         lower_includes (get task "title") (toLowerCase (searchTerm s))
         || lower_includes (get task "description")
              (toLowerCase (searchTerm s)) in
       let matchesStatus :=
         String.eqb (statusFilter s) "all"
         || strict_eq_str (get task "status") (statusFilter s) in
       let matchesPriority :=
         String.eqb (priorityFilter s) "all"
         || strict_eq_str (get task "priority") (priorityFilter s) in
       let matchesAssignedTo :=
         String.eqb (assignedToFilter s) "all"
         || strict_eq_str (get task "assigned_to") (assignedToFilter s) in
       matchesSearch && matchesStatus && matchesPriority
       && matchesAssignedTo)
    tasks.

Definition totalPages (tasks : list (gmap string jsval)) (s : state) : Z :=
  ceil_div (Z.of_nat (length (filteredTasks tasks s))) (itemsPerPage s).

Definition paginatedTasks (tasks : list (gmap string jsval)) (s : state)
  : list (gmap string jsval) :=
  let startIndex := (currentPage s - 1) * itemsPerPage s in
  slice (filteredTasks tasks s) startIndex (startIndex + itemsPerPage s).

(** The dependency array of the page reset:
    [searchTerm, statusFilter, priorityFilter, assignedToFilter]. *)
Definition resetDepsChanged (before after : state) : bool :=
  negb (String.eqb (searchTerm before) (searchTerm after))
  || negb (String.eqb (statusFilter before) (statusFilter after))
  || negb (String.eqb (priorityFilter before) (priorityFilter after))
  || negb (String.eqb (assignedToFilter before) (assignedToFilter after)).

Definition runEffects (before after : state) : state :=
  if resetDepsChanged before after then setCurrentPage 1 after else after.

Inductive event : Type :=
| TypeSearch (v : string)
| SelectStatus (v : string)
| SelectPriority (v : string)
| SelectAssignedTo (v : string)
| SelectPageSize (v : Z)
| ClickPrevious
| ClickNext.

Definition handle (tasks : list (gmap string jsval)) (e : event)
    (s : state) : state :=
  match e with
  | TypeSearch v =>
      mkState v (statusFilter s) (priorityFilter s) (assignedToFilter s)
        (currentPage s) (itemsPerPage s)
  | SelectStatus v =>
      mkState (searchTerm s) v (priorityFilter s) (assignedToFilter s)
        (currentPage s) (itemsPerPage s)
  | SelectPriority v =>
      mkState (searchTerm s) (statusFilter s) v (assignedToFilter s)
        (currentPage s) (itemsPerPage s)
  | SelectAssignedTo v =>
      mkState (searchTerm s) (statusFilter s) (priorityFilter s) v
        (currentPage s) (itemsPerPage s)
  | SelectPageSize v => setItemsPerPage v s
  | ClickPrevious => setCurrentPage (Z.max 1 (currentPage s - 1)) s
  | ClickNext =>
      setCurrentPage (Z.min (totalPages tasks s) (currentPage s + 1)) s
  end.

Definition step (tasks : list (gmap string jsval)) (e : event) (s : state)
  : state :=
  runEffects s (handle tasks e s).

(** The events that change the search term or a filter. *)
Inductive changesFilter (s : state) : event -> Prop :=
| changes_search v : v <> searchTerm s -> changesFilter s (TypeSearch v)
| changes_status v : v <> statusFilter s -> changesFilter s (SelectStatus v)
| changes_priority v :
    v <> priorityFilter s -> changesFilter s (SelectPriority v)
| changes_assigned_to v :
    v <> assignedToFilter s -> changesFilter s (SelectAssignedTo v).

(** *** The rest of the view: filter reset and the due date marks *)

Definition hasActiveFilters (s : state) : bool :=
  negb (String.eqb (searchTerm s) "")
  || negb (String.eqb (statusFilter s) "all")
  || negb (String.eqb (priorityFilter s) "all")
  || negb (String.eqb (assignedToFilter s) "all").

Definition clearAllFilters (s : state) : state :=
  mkState "" "all" "all" "all" (currentPage s) (itemsPerPage s).

Record dueDateInfo : Type := mkDueDateInfo {
  color : string;
  isOverdue : bool;
  isDueToday : bool
}.

(** [getDueDateInfo].  [startOfDay v] is the local midnight of the day of
    [new Date(v)], [None] for an invalid date; [today] is the local
    midnight of the current day. *)
Definition getDueDateInfo (startOfDay : jsval -> option Z) (today : Z)
    (dueDate : jsval) (status : string) : dueDateInfo :=
  if negb (truthy dueDate) || String.eqb status "completed"
     || String.eqb status "cancelled"
  then mkDueDateInfo "" false false
  else
    match startOfDay dueDate with
    | Some date =>
        if date <? today
        then mkDueDateInfo "text-red-600 font-semibold" true false
        else if date =? today
        then mkDueDateInfo "text-orange-500 font-medium" false true
        else mkDueDateInfo "" false false
    | None => mkDueDateInfo "" false false
    end.

End TaskListView.

(** A stand-in for the host's [localeCompare] in the worked examples: on
    the strings used there (digits, a minus sign, the empty string) the
    host collation and the comparison of code units agree: the empty
    string comes first and ["10"] comes before ["9"]. *)
Definition codeUnitCompare (a b : string) : Z :=
  match String.compare a b with
  | Lt => -1
  | Eq => 0
  | Gt => 1
  end.

(** The requests issued between two states of the backend. *)
Definition issued (before after : world) : list request :=
  skipn (length (log before)) (log after).

(** [n] rows with the identifiers ["1"] .. ["n"]; the property [label]
    holds a name for the row. *)
Definition numbered (label : string) (n : nat) : list (gmap string jsval) :=
  map (fun i =>
         let id := number_to_string (Z.of_nat i) in
         <[ "id" := VStr id ]> {[ label := VStr ("Row " ++ id) ]})
    (seq 1 n).

(** The stored rows are the ones the filter effect computes from the
    current state. *)
Definition Contact_synced (localeCompare : string -> string -> Z)
    (s : ContactTable.state) : Prop :=
  ContactTable.filteredContacts s
  = ContactTable.filterAndSort localeCompare s.

Definition Meetings_synced (getMeetingStatus : gmap string jsval -> string)
    (startOfDay minutesOfDay : jsval -> option Z) (s : Meetings.state)
  : Prop :=
  Meetings.filteredMeetings s
  = Meetings.sortedAndFilteredMeetings getMeetingStatus startOfDay
      minutesOfDay s.

(** What a click on a column header does to the pair of sort column and
    direction: on the current column the direction flips, on another
    column that column is taken with the direction [start]. *)
Definition header_click {K : Type} (start : direction) (column : K)
    (before after : K * direction) : Prop :=
  (before.1 = column -> after = (column, flip before.2))
  /\ (before.1 <> column -> after = (column, start)).

(** The text a value is compared as when it is a string or is missing:
    [null] and [undefined] read as the empty string. *)
Definition text_of (v : jsval) : option string :=
  match v with
  | VStr s => Some s
  | VUndef | VNull => Some ""
  | _ => None
  end.

Definition nullish (v : jsval) : Prop := v = VUndef \/ v = VNull.

(** The result of a comparator for one direction, given the result for
    ascending order. *)
Definition directed (d : direction) (comparison : Z) : Z :=
  match d with Asc => comparison | Desc => - comparison end.

(** The delete requests among them. *)
Definition deletes (before after : world) : list request :=
  List.filter is_delete (issued before after).

(** The rows of [table] without the rows whose [column] holds one of
    [values]. *)
Definition without (w : world) (table column : string)
    (values : list string) : list (gmap string jsval) :=
  List.filter (fun r => negb (column_in r column values)) (rows_of w table).


(** Some row of [table] refers to the account [id]. *)
Definition has_link (w : world) (table id : string) : bool :=
  existsb (fun r => strict_eq_str (get r "account_id") id) (rows_of w table).

(** A backend for the worked examples: three contacts, one of them in
    account ["A"], a lead in account ["B"], three accounts, and two action
    items with their notifications; no request reports an error. *)
Definition sampleWorld : world :=
  mkWorld
    (<[ "contacts" := [ <["id" := VStr "c1"]> {["account_id" := VStr "A"]};
                        {["id" := VStr "c2"]};
                        {["id" := VStr "c3"]} ] ]>
     (<[ "leads" := [ <["id" := VStr "l1"]> {["account_id" := VStr "B"]};
                      {["id" := VStr "l2"]};
                      {["id" := VStr "l3"]} ] ]>
      (<[ "accounts" := [ {["id" := VStr "A"]};
                          {["id" := VStr "B"]};
                          {["id" := VStr "C"]} ] ]>
       (<[ "lead_action_items" :=
             [ <["id" := VStr "t1"]> {["lead_id" := VStr "l1"]};
               <["id" := VStr "t2"]> {["lead_id" := VStr "l3"]} ] ]>
        (<[ "notifications" :=
              [ <["id" := VStr "n1"]> {["lead_id" := VStr "l1"]};
                <["id" := VStr "n2"]> {["action_item_id" := VStr "t2"]} ] ]>
         (<[ "meetings" := [ {["id" := VStr "m1"]};
                             {["id" := VStr "m2"]} ] ]> ∅))))))
    []
    (fun _ => None).

(** ** Further definitions for the statements below *)

(** The page numbers [1] .. [totalPages]. *)
Definition pageNumbers (totalPages : Z) : list Z :=
  map Z.of_nat (seq 1 (Z.to_nat totalPages)).


(** The backend answers the request without an error. *)
Definition answered (w : world) (r : request) : bool :=
  match failure w r with
  | None => true
  | Some _ => false
  end.

(** The links of an account that the pre-check of a delete gets to see: a
    link query that reports an error shows none. *)
Definition seenLink (w : world) (query : string -> request) (table id : string)
  : bool :=
  answered w (query table) && has_link w table id.

(** The sample backend with the deletes on [table] refused. *)
Definition refusing (table message : string) : world :=
  mkWorld (tables sampleWorld) []
    (fun r =>
       match r with
       | DeleteEq t _ _ | DeleteIn t _ _ =>
           if String.eqb t table then Some message else None
       | _ => None
       end).

(** The sample backend with the reads of [table] reporting an error. *)
Definition unanswered (table : string) : world :=
  mkWorld (tables sampleWorld) []
    (fun r =>
       match r with
       | SelectEq t _ _ _ _ | SelectIn t _ _ _ =>
           if String.eqb t table then Some "unavailable" else None
       | _ => None
       end).

(** A contact passes every filter the toolbar has switched on. *)
Definition Contact_passes (s : ContactTable.state)
    (contact : gmap string jsval) : bool :=
  ContactTable.matchesSearch
    (toLowerCase (ContactTable.debouncedSearchTerm s)) contact
  && (if ContactTable.active (ContactTable.sourceFilter s)
      then ContactTable.matchesSource (ContactTable.sourceFilter s) contact
      else true)
  && (if ContactTable.active (ContactTable.ownerFilter s)
      then strict_eq_str (get contact "contact_owner")
             (ContactTable.ownerFilter s)
      else true)
  && (if ContactTable.active (ContactTable.segmentFilter s)
      then strict_eq_str (get contact "segment")
             (ContactTable.segmentFilter s)
      else true)
  && match ContactTable.tagFilter s with
     | Some tag =>
         if String.eqb tag "" then true
         else array_includes (get contact "tags") tag
     | None => true
     end.

(** Every row stands in the relation [R] to every row after it. *)
Fixpoint ordered {A : Type} (R : A -> A -> Prop) (l : list A) : Prop :=
  match l with
  | [] => True
  | x :: rest => Forall (R x) rest /\ ordered R rest
  end.

(** Three contacts for the worked examples of the filters. *)
Definition sampleContacts : list (gmap string jsval) :=
  [ <["id" := VStr "c1"]>
      (<["contact_name" := VStr "Ann"]> {["contact_owner" := VStr "u1"]});
    <["id" := VStr "c2"]>
      (<["contact_name" := VStr "Bob"]> {["contact_owner" := VStr "u2"]});
    <["id" := VStr "c3"]>
      (<["contact_name" := VStr "Cid"]> {["contact_owner" := VStr "u1"]}) ].

(** The Contacts view with the sample contacts on display, the owner
    filter set to [owner] and [term] typed and debounced. *)
Definition contactsFilteredBy (owner term : string) : ContactTable.state :=
  let s :=
    ContactTable.mkState sampleContacts 1 [] term term "all" owner "all" None
      3 25 None Asc in
  ContactTable.setFilteredContacts
    (ContactTable.filterAndSort codeUnitCompare s) s.

(** The contact row [c] names the account with the key [id]. *)
Definition refersTo (id : string) (c : gmap string jsval) : bool :=
  truthy (get c "account_id")
  && String.eqb (to_string (get c "account_id")) id.

(** The properties of [Object.prototype] in the current hosts, for the
    worked examples. *)
Definition objectPrototypeKeys : list string :=
  ["constructor"; "hasOwnProperty"; "isPrototypeOf"; "propertyIsEnumerable";
   "toLocaleString"; "toString"; "valueOf"; "__proto__";
   "__defineGetter__"; "__defineSetter__"; "__lookupGetter__";
   "__lookupSetter__"].

Definition inheritedKey (key : string) : bool :=
  list_includes objectPrototypeKeys key.

(** A stand-in for the host's [toUpperCase] in the worked examples: on the
    ASCII letters, the only ones used there, the two agree. *)
Fixpoint asciiUpperCase (s : string) : string :=
  match s with
  | EmptyString => EmptyString
  | String c rest =>
      let n := nat_of_ascii c in
      String (if ((97 <=? n) && (n <=? 122))%nat then ascii_of_nat (n - 32)
              else c)
        (asciiUpperCase rest)
  end.

(** A lead passes the search and every filter that is switched on. *)
Definition Lead_passes (dateValue : jsval -> option Z) (q : LeadTable.query)
    (lead : gmap string jsval) : bool :=
  LeadTable.matchesSearch (toLowerCase (LeadTable.debouncedSearchTerm q)) lead
  && (String.eqb (LeadTable.statusFilter q) "all"
      || strict_eq_str (get lead "lead_status") (LeadTable.statusFilter q))
  && (String.eqb (LeadTable.ownerFilter q) "all"
      || strict_eq_str (get lead "contact_owner") (LeadTable.ownerFilter q))
  && match LeadTable.dateFromFilter q with
     | Some from =>
         String.eqb from ""
         || LeadTable.createdFrom dateValue (dateValue (VStr from)) lead
     | None => true
     end
  && match LeadTable.dateToFilter q with
     | Some to =>
         String.eqb to ""
         || LeadTable.createdTo dateValue (dateValue (VStr to)) lead
     | None => true
     end.

(** The day of a meeting comes no later than the day of the next one, or
    no earlier under descending order. *)
Definition daysInOrder (startOfDay : jsval -> option Z) (d : direction)
    (a b : gmap string jsval) : Prop :=
  exists x y,
    startOfDay (get a "start_time") = Some x
    /\ startOfDay (get b "start_time") = Some y
    /\ match d with Asc => x <= y | Desc => y <= x end.

(** * Properties *)

(** ** The built-ins *)

Example slice_page_2 : slice [1; 2; 3; 4; 5] 2 4 = [3; 4].
Proof. reflexivity. Qed.

Example slice_negative : slice [1; 2; 3; 4; 5] (-2) 0 = [].
Proof. reflexivity. Qed.

Example sort_is_stable :
  sort (fun a b => fst a - fst b) [(2, "x"); (1, "y"); (2, "z"); (1, "w")]
  = [(1, "y"); (1, "w"); (2, "x"); (2, "z")].
Proof. reflexivity. Qed.

Example includes_acme : lower_includes (VStr "Acme Corp") "acme" = true.
Proof. reflexivity. Qed.

(** ** Two scenarios of the specification, run on the embedding *)

(** The search term "acme" keeps a contact named Jane Doe whose company is
    Acme Corp. *)
Example search_matches_company :
  let jane : gmap string jsval :=
    <[ "id" := VStr "1" ]>
      (<[ "contact_name" := VStr "Jane Doe" ]>
         {[ "company_name" := VStr "Acme Corp" ]}) in
  let s := ContactTable.run codeUnitCompare
             [ContactTable.Fetched [jane];
              ContactTable.TypeSearch "acme";
              ContactTable.DebounceElapsed]
             ContactTable.initial in
  map id_of (ContactTable.filteredContacts s) = ["1"].
Proof. by vm_compute. Qed.

(** Thirty meetings, ten of them completed: the status filter "completed"
    leaves ten rows, all on page 1 of 1. *)
Example completed_meetings_on_one_page :
  let meeting (status : string) (i : nat) : gmap string jsval :=
    <[ "id" := VStr (number_to_string (Z.of_nat i)) ]>
      (<[ "subject" := VStr "Review" ]> {[ "status" := VStr status ]}) in
  let rows := (map (meeting "scheduled") (seq 1 20)
               ++ map (meeting "completed") (seq 21 10))%list in
  let s := Meetings.run (fun m => to_string (get m "status"))
             (fun _ => None) (fun _ => None)
             [Meetings.Fetched rows; Meetings.SelectStatus "completed"]
             (Meetings.initial "all") in
  length (Meetings.filteredMeetings s) = 10%nat
  /\ length (Meetings.paginatedMeetings s) = 10%nat
  /\ Meetings.currentPage s = 1
  /\ Meetings.totalPages s = 1.
Proof. by vm_compute. Qed.

Section ListFacts.

Context {A : Type}.
Implicit Types (l : list A) (cmp : A -> A -> Z).

Lemma slice_subseteq l start stop : slice l start stop ⊆ l.
Proof.
  unfold slice. etrans; [apply subseteq_take | apply subseteq_drop].
Qed.

(** A window [slice l a (a + n)] holds at most [n] elements. *)
Lemma slice_window_length l a n :
  0 <= n -> Z.of_nat (length (slice l a (a + n))) <= n.
Proof.
  intros Hn. unfold slice, clamp_index.
  rewrite length_take, length_drop.
  destruct (Z.ltb_spec a 0), (Z.ltb_spec (a + n) 0); lia.
Qed.

Lemma slice_from_0_length l n :
  0 <= n -> Z.of_nat (length (slice l 0 n)) <= n.
Proof. intros Hn. apply (slice_window_length l 0 n Hn). Qed.

(** A window that starts at or after the end of the array is empty. *)
Lemma slice_past_end l a b :
  Z.of_nat (length l) <= a -> slice l a b = [].
Proof.
  intros Ha. unfold slice, clamp_index.
  destruct (Z.ltb_spec a 0); [lia|].
  replace (Z.min a (Z.of_nat (length l))) with (Z.of_nat (length l)) by lia.
  rewrite Nat2Z.id, drop_all. by destruct (Z.to_nat _).
Qed.

Lemma sort_insert_perm cmp x l : sort_insert cmp x l ≡ₚ x :: l.
Proof.
  induction l as [|y l IH]; simpl; [done|].
  destruct (cmp x y <=? 0); [done|].
  rewrite IH. apply Permutation_swap.
Qed.

(** Sorting rearranges: the result is a permutation of the array. *)
Lemma sort_perm cmp l : sort cmp l ≡ₚ l.
Proof.
  induction l as [|x l IH]; simpl; [done|].
  unfold sort in *. simpl. by rewrite sort_insert_perm, IH.
Qed.

Lemma sort_subseteq cmp l : sort cmp l ⊆ l.
Proof. intros x Hx. by rewrite <- (sort_perm cmp l). Qed.

Lemma filter_subseteq (f : A -> bool) l : List.filter f l ⊆ l.
Proof.
  intros x Hx. apply list_elem_of_In. apply list_elem_of_In in Hx.
  by apply (incl_filter f l).
Qed.

End ListFacts.

Lemma list_includes_spec (ids : list string) (x : string) :
  list_includes ids x = true <-> x ∈ ids.
Proof.
  unfold list_includes. rewrite existsb_exists, list_elem_of_In. split.
  - intros (y & Hy & Heq). apply String.eqb_eq in Heq. by subst.
  - intros Hx. exists x. split; [done | apply String.eqb_refl].
Qed.

Lemma opt_string_eqb_spec (a b : option string) :
  opt_string_eqb a b = true <-> a = b.
Proof.
  destruct a as [x|], b as [y|]; simpl; try (split; congruence).
  rewrite String.eqb_eq. split; congruence.
Qed.

Lemma direction_eqb_flip (d : direction) : direction_eqb d (flip d) = false.
Proof. by destruct d. Qed.

Lemma flip_involutive (d : direction) : flip (flip d) = d.
Proof. by destruct d. Qed.

Lemma string_eqb_false (a b : string) : a <> b -> String.eqb a b = false.
Proof. intros H. by apply String.eqb_neq. Qed.

(** ** Contacts: the stored [filteredContacts] follows the filter effect *)

Section ContactFacts.

Variable localeCompare : string -> string -> Z.
Local Abbreviation filterAndSort := (ContactTable.filterAndSort localeCompare).
Local Abbreviation step := (ContactTable.step localeCompare).

Lemma Contact_filterAndSort_subseteq (s : ContactTable.state) :
  filterAndSort s ⊆ ContactTable.contacts s.
Proof.
  unfold ContactTable.filterAndSort.
  repeat match goal with
         | |- context [if ?b then _ else _] => destruct b
         | |- context [match ?o with Some _ => _ | None => _ end] =>
             destruct o
         end;
    repeat first [ apply filter_subseteq
                 | (etrans; [apply sort_subseteq |])
                 | (etrans; [apply filter_subseteq |]) ].
Qed.

(** When no dependency of the effect differs and the array is the same,
    the effect would store the same rows. *)
Lemma Contact_filterAndSort_same_deps (s s' : ContactTable.state) :
  ContactTable.filterDepsChanged s s' = false ->
  ContactTable.contacts s' = ContactTable.contacts s ->
  filterAndSort s' = filterAndSort s.
Proof.
  unfold ContactTable.filterDepsChanged. intros H Hc.
  repeat (apply orb_false_elim in H as [H ?]).
  repeat match goal with
         | H : negb _ = false |- _ => apply negb_false_iff in H
         end.
  repeat match goal with
         | H : String.eqb _ _ = true |- _ => apply String.eqb_eq in H
         | H : opt_string_eqb _ _ = true |- _ => apply opt_string_eqb_spec in H
         end.
  assert (ContactTable.sortDirection s = ContactTable.sortDirection s')
    by (by destruct (ContactTable.sortDirection s),
             (ContactTable.sortDirection s')).
  unfold ContactTable.filterAndSort.
  destruct s, s'; simpl in *; by subst.
Qed.

Lemma Contact_handle_keeps_array (e : ContactTable.event)
    (s : ContactTable.state) :
  ContactTable.contactsRef (ContactTable.handle e s)
  = ContactTable.contactsRef s ->
  ContactTable.contacts (ContactTable.handle e s) = ContactTable.contacts s.
Proof.
  destruct e; simpl; try done.
  - unfold ContactTable.handleSort. by destruct (opt_string_eqb _ _).
  - lia.
Qed.

Lemma Contact_handle_keeps_filtered (e : ContactTable.event)
    (s : ContactTable.state) :
  ContactTable.filteredContacts (ContactTable.handle e s)
  = ContactTable.filteredContacts s.
Proof.
  destruct e; simpl; try done.
  unfold ContactTable.handleSort. by destruct (opt_string_eqb _ _).
Qed.

Local Abbreviation Contact_synced := (Contact_synced localeCompare).

Lemma Contact_step_synced (e : ContactTable.event) (s : ContactTable.state) :
  Contact_synced s -> Contact_synced (step e s).
Proof.
  unfold Contact_synced, ContactTable.step, ContactTable.runEffects.
  intros Hs.
  destruct (ContactTable.filterDepsChanged _ _) eqn:Hdeps; [done|].
  rewrite Contact_handle_keeps_filtered, Hs. symmetry.
  apply Contact_filterAndSort_same_deps; [done|].
  apply Contact_handle_keeps_array.
  unfold ContactTable.filterDepsChanged in Hdeps.
  repeat (apply orb_false_elim in Hdeps as [Hdeps ?]).
  apply negb_false_iff, Nat.eqb_eq in Hdeps. done.
Qed.

Lemma Contact_run_synced (events : list ContactTable.event)
    (s : ContactTable.state) :
  Contact_synced s -> Contact_synced (ContactTable.run localeCompare events s).
Proof.
  revert s. induction events as [|e events IH]; intros s Hs; simpl; [done|].
  apply IH. by apply Contact_step_synced.
Qed.

End ContactFacts.

(** ** Meetings: the stored [filteredMeetings] follows the memo *)

Section MeetingFacts.

Variable getMeetingStatus : gmap string jsval -> string.
Variables startOfDay minutesOfDay : jsval -> option Z.
Local Abbreviation sortedAndFiltered :=
  (Meetings.sortedAndFilteredMeetings getMeetingStatus startOfDay
     minutesOfDay).
Local Abbreviation Mstep :=
  (Meetings.step getMeetingStatus startOfDay minutesOfDay).
Local Abbreviation Msynced :=
  (Meetings_synced getMeetingStatus startOfDay minutesOfDay).

Lemma Meetings_sortedAndFiltered_subseteq (s : Meetings.state) :
  sortedAndFiltered s ⊆ Meetings.meetings s.
Proof.
  unfold Meetings.sortedAndFilteredMeetings.
  destruct (Meetings.sortColumn s);
    [etrans; [apply sort_subseteq |] |]; apply filter_subseteq.
Qed.

Lemma Meetings_column_eqb_spec (a b : option Meetings.SortColumn) :
  Meetings.column_eqb a b = true <-> a = b.
Proof.
  destruct a as [[]|], b as [[]|]; simpl; split; congruence.
Qed.

Lemma Meetings_same_deps (s s' : Meetings.state) :
  Meetings.memoDepsChanged s s' = false ->
  Meetings.meetings s' = Meetings.meetings s ->
  sortedAndFiltered s' = sortedAndFiltered s.
Proof.
  unfold Meetings.memoDepsChanged. intros H Hc.
  repeat (apply orb_false_elim in H as [H ?]).
  repeat match goal with
         | H : negb _ = false |- _ => apply negb_false_iff in H
         end.
  repeat match goal with
         | H : String.eqb _ _ = true |- _ => apply String.eqb_eq in H
         | H : Meetings.column_eqb _ _ = true |- _ =>
             apply Meetings_column_eqb_spec in H
         end.
  assert (Meetings.sortDirection s = Meetings.sortDirection s')
    by (by destruct (Meetings.sortDirection s), (Meetings.sortDirection s')).
  unfold Meetings.sortedAndFilteredMeetings, Meetings.matches.
  destruct s, s'; simpl in *; by subst.
Qed.

Lemma Meetings_handle_keeps_array (e : Meetings.event) (s : Meetings.state) :
  Meetings.meetingsRef (Meetings.handle e s) = Meetings.meetingsRef s ->
  Meetings.meetings (Meetings.handle e s) = Meetings.meetings s.
Proof.
  destruct e; simpl; try done.
  - unfold Meetings.handleSort. by destruct (Meetings.column_eqb _ _).
  - unfold Meetings.handleSelectAll. by destruct checked.
  - unfold Meetings.handleSelectMeeting. by destruct checked.
  - lia.
Qed.

Lemma Meetings_handle_keeps_filtered (e : Meetings.event)
    (s : Meetings.state) :
  Meetings.filteredMeetings (Meetings.handle e s)
  = Meetings.filteredMeetings s.
Proof.
  destruct e; simpl; try done.
  - unfold Meetings.handleSort. by destruct (Meetings.column_eqb _ _).
  - unfold Meetings.handleSelectAll. by destruct checked.
  - unfold Meetings.handleSelectMeeting. by destruct checked.
Qed.

Lemma Meetings_step_synced (e : Meetings.event) (s : Meetings.state) :
  Msynced s -> Msynced (Mstep e s).
Proof.
  unfold Meetings_synced, Meetings.step, Meetings.runEffects.
  intros Hs.
  destruct (Meetings.memoDepsChanged _ _) eqn:Hdeps; [done|].
  rewrite Meetings_handle_keeps_filtered, Hs. symmetry.
  apply Meetings_same_deps; [done|].
  apply Meetings_handle_keeps_array.
  unfold Meetings.memoDepsChanged in Hdeps.
  repeat (apply orb_false_elim in Hdeps as [Hdeps ?]).
  apply negb_false_iff, Nat.eqb_eq in Hdeps. done.
Qed.

Lemma Meetings_run_synced (events : list Meetings.event)
    (s : Meetings.state) :
  Msynced s ->
  Msynced (Meetings.run getMeetingStatus startOfDay minutesOfDay events s).
Proof.
  revert s. induction events as [|e events IH]; intros s Hs; simpl; [done|].
  apply IH. by apply Meetings_step_synced.
Qed.

End MeetingFacts.

(** ** C1 *)

(** C1.  The displayed page is drawn from the filtered rows and the
    filtered rows from the fetched collection: [paginated ⊆ filtered ⊆ all].
    For Contacts and Meetings this holds in every state the view reaches
    from its mount, whatever rows arrive and whatever the user types,
    picks, sorts by or pages to; and for every state at all, the page is
    part of the stored filtered rows and the rows the filter produces are
    part of the collection. *)
Theorem C1_page_within_filtered_within_all :
  (forall localeCompare events,
     let s := ContactTable.run localeCompare events ContactTable.initial in
     ContactTable.pageContacts s ⊆ ContactTable.filteredContacts s
     /\ ContactTable.filteredContacts s ⊆ ContactTable.contacts s)
  /\ (forall localeCompare s,
        ContactTable.pageContacts s ⊆ ContactTable.filteredContacts s
        /\ ContactTable.filterAndSort localeCompare s
           ⊆ ContactTable.contacts s)
  /\ (forall getMeetingStatus startOfDay minutesOfDay initialStatus events,
        let s := Meetings.run getMeetingStatus startOfDay minutesOfDay events
                   (Meetings.initial initialStatus) in
        Meetings.paginatedMeetings s ⊆ Meetings.filteredMeetings s
        /\ Meetings.filteredMeetings s ⊆ Meetings.meetings s)
  /\ (forall getMeetingStatus startOfDay minutesOfDay s,
        Meetings.paginatedMeetings s ⊆ Meetings.filteredMeetings s
        /\ Meetings.sortedAndFilteredMeetings getMeetingStatus startOfDay
             minutesOfDay s ⊆ Meetings.meetings s).
Proof.
  repeat split.
  - apply slice_subseteq.
  - rewrite (Contact_run_synced localeCompare events ContactTable.initial)
      by reflexivity.
    apply Contact_filterAndSort_subseteq.
  - apply slice_subseteq.
  - apply Contact_filterAndSort_subseteq.
  - apply slice_subseteq.
  - rewrite (Meetings_run_synced getMeetingStatus startOfDay minutesOfDay
               events (Meetings.initial initialStatus)) by reflexivity.
    apply Meetings_sortedAndFiltered_subseteq.
  - apply slice_subseteq.
  - apply Meetings_sortedAndFiltered_subseteq.
Qed.

(** ** C2 *)

Lemma Contact_changesQuery_deps (s : ContactTable.state)
    (e : ContactTable.event) :
  ContactTable.changesQuery s e ->
  ContactTable.filterDepsChanged s (ContactTable.handle e s) = true.
Proof.
  unfold ContactTable.filterDepsChanged.
  destruct 1 as [H|v H|v H|v H|v H|field]; simpl;
    try (rewrite (string_eqb_false _ _ (not_eq_sym H)); simpl;
         by rewrite ?orb_true_r).
  - destruct (opt_string_eqb (ContactTable.tagFilter s) v) eqn:E.
    + apply opt_string_eqb_spec in E. congruence.
    + simpl. by rewrite ?orb_true_r.
  - unfold ContactTable.handleSort.
    destruct (opt_string_eqb (ContactTable.sortField s) (Some field)) eqn:E;
      simpl.
    + rewrite direction_eqb_flip. simpl. by rewrite ?orb_true_r.
    + rewrite E. simpl. by rewrite ?orb_true_r.
Qed.

Lemma Meetings_changesQuery_deps (s : Meetings.state) (e : Meetings.event) :
  Meetings.changesQuery s e ->
  Meetings.memoDepsChanged s (Meetings.handle e s) = true.
Proof.
  unfold Meetings.memoDepsChanged.
  destruct 1 as [v H|v H|v H|column]; simpl;
    try (rewrite (string_eqb_false _ _ (not_eq_sym H)); simpl;
         by rewrite ?orb_true_r).
  unfold Meetings.handleSort.
  destruct (Meetings.column_eqb (Meetings.sortColumn s) column) eqn:E; simpl.
  - rewrite direction_eqb_flip. simpl. by rewrite ?orb_true_r.
  - rewrite E. simpl. by rewrite ?orb_true_r.
Qed.

Lemma ListView_changesFilter_deps deals (s : ListView.state)
    (e : ListView.event) :
  ListView.changesFilter s e ->
  ListView.resetDepsChanged s (ListView.handle deals e s) = true.
Proof.
  unfold ListView.resetDepsChanged.
  destruct 1 as [v H|v H|]; simpl;
    try (rewrite (string_eqb_false _ _ (not_eq_sym H)); simpl;
         by rewrite ?orb_true_r).
  replace (ListView.filtersRef s =? S (ListView.filtersRef s))%nat
    with false; [done|].
  symmetry. apply Nat.eqb_neq. lia.
Qed.

Lemma ListView_sort_keeps_deps deals (s : ListView.state) (field : string) :
  ListView.resetDepsChanged s
    (ListView.handle deals (ListView.ClickHeader field) s) = false.
Proof.
  unfold ListView.resetDepsChanged. simpl. unfold ListView.onHeaderClick.
  destruct (String.eqb _ field); simpl;
    by rewrite Nat.eqb_refl, !String.eqb_refl.
Qed.

Lemma TaskListView_changesFilter_deps tasks (s : TaskListView.state)
    (e : TaskListView.event) :
  TaskListView.changesFilter s e ->
  TaskListView.resetDepsChanged s (TaskListView.handle tasks e s) = true.
Proof.
  unfold TaskListView.resetDepsChanged.
  destruct 1 as [v H|v H|v H|v H]; simpl;
    rewrite (string_eqb_false _ _ (not_eq_sym H)); simpl;
    by rewrite ?orb_true_r.
Qed.

(** C2, as the code has it.  A change of the search term or of a dropdown
    filter puts the view back on page 1 in Contacts, Meetings, Deals and
    Tasks (in Contacts the search term counts once the debounce has passed
    it on).  A click on a column header, which changes the sort column or
    the direction, does so in Contacts and Meetings; in the Deals list it
    leaves the current page where it was. *)
Theorem C2_page_reset :
  (forall localeCompare s e,
     ContactTable.changesQuery s e ->
     ContactTable.currentPage (ContactTable.step localeCompare e s) = 1)
  /\ (forall getMeetingStatus startOfDay minutesOfDay s e,
        Meetings.changesQuery s e ->
        Meetings.currentPage
          (Meetings.step getMeetingStatus startOfDay minutesOfDay e s) = 1)
  /\ (forall deals s e,
        ListView.changesFilter s e ->
        ListView.currentPage (ListView.step deals e s) = 1)
  /\ (forall tasks s e,
        TaskListView.changesFilter s e ->
        TaskListView.currentPage (TaskListView.step tasks e s) = 1)
  /\ (forall deals s field,
        ListView.currentPage
          (ListView.step deals (ListView.ClickHeader field) s)
        = ListView.currentPage s).
Proof.
  repeat split.
  - intros localeCompare s e H.
    unfold ContactTable.step, ContactTable.runEffects.
    by rewrite (Contact_changesQuery_deps s e H).
  - intros getMeetingStatus startOfDay minutesOfDay s e H.
    unfold Meetings.step, Meetings.runEffects.
    by rewrite (Meetings_changesQuery_deps s e H).
  - intros deals s e H. unfold ListView.step, ListView.runEffects.
    by rewrite (ListView_changesFilter_deps deals s e H).
  - intros tasks s e H. unfold TaskListView.step, TaskListView.runEffects.
    by rewrite (TaskListView_changesFilter_deps tasks s e H).
  - intros deals s field. unfold ListView.step, ListView.runEffects.
    rewrite ListView_sort_keeps_deps. simpl. unfold ListView.onHeaderClick.
    by destruct (String.eqb _ field).
Qed.

(** In the Contacts table the owner filter goes from ["all"] to a user
    while page 3 is shown: the view is back on page 1. *)
Lemma C2_page_reset_witness :
  let s := ContactTable.setCurrentPage 3 ContactTable.initial in
  "u1" <> ContactTable.ownerFilter s
  /\ ContactTable.currentPage
       (ContactTable.step codeUnitCompare (ContactTable.SelectOwner "u1") s)
     = 1.
Proof.
  split; [discriminate|].
  apply (proj1 C2_page_reset). constructor. discriminate.
Defined.

(** The Deals list on page 2 of 26 deals: a click on the Stage header
    changes the sort column and the list stays on page 2. *)
Lemma C2_sort_in_deals_keeps_page :
  let deals := numbered "project_name" 26 in
  let s := ListView.step deals ListView.ClickNext ListView.initial in
  let s' := ListView.step deals (ListView.ClickHeader "stage") s in
  ListView.currentPage s = 2
  /\ ListView.sortBy s' <> ListView.sortBy s
  /\ ListView.currentPage s' <> 1.
Proof. vm_compute. repeat split; discriminate. Qed.

(** ** C3 *)

(** C3, as the code has it.  A click on the header of the current sort
    column flips the direction, ascending to descending and back.  A click
    on another column makes it the sort column; the direction then starts
    at ascending in Contacts, Leads, Accounts and Meetings, and at
    descending in the Deals list. *)
Theorem C3_header_click :
  (flip Asc = Desc /\ flip Desc = Asc)
  /\ (forall field s,
        let s' := ContactTable.handleSort field s in
        header_click Asc (Some field)
          (ContactTable.sortField s, ContactTable.sortDirection s)
          (ContactTable.sortField s', ContactTable.sortDirection s'))
  /\ (forall field sorting,
        header_click Asc (Some field) sorting
          (LeadTable.handleSort field sorting))
  /\ (forall field sorting,
        header_click Asc (Some field) sorting
          (AccountTable.handleSort field sorting))
  /\ (forall column s,
        let s' := Meetings.handleSort column s in
        header_click Asc column
          (Meetings.sortColumn s, Meetings.sortDirection s)
          (Meetings.sortColumn s', Meetings.sortDirection s'))
  /\ (forall field s,
        let s' := ListView.onHeaderClick field s in
        header_click Desc field
          (ListView.sortBy s, ListView.sortOrder s)
          (ListView.sortBy s', ListView.sortOrder s')).
Proof.
  unfold header_click. repeat split; simpl.
  - intros H. unfold ContactTable.handleSort.
    apply opt_string_eqb_spec in H as H'. by rewrite H', <- H.
  - intros H. unfold ContactTable.handleSort.
    destruct (opt_string_eqb _ _) eqn:E; [|done].
    by apply opt_string_eqb_spec in E.
  - destruct sorting as [f d]. simpl. intros H. subst.
    unfold LeadTable.handleSort.
    by rewrite (proj2 (opt_string_eqb_spec _ _) eq_refl).
  - destruct sorting as [f d]. simpl. intros H.
    unfold LeadTable.handleSort.
    destruct (opt_string_eqb _ _) eqn:E; [|done].
    by apply opt_string_eqb_spec in E.
  - destruct sorting as [f d]. simpl. intros H. subst.
    unfold AccountTable.handleSort.
    by rewrite (proj2 (opt_string_eqb_spec _ _) eq_refl).
  - destruct sorting as [f d]. simpl. intros H.
    unfold AccountTable.handleSort.
    destruct (opt_string_eqb _ _) eqn:E; [|done].
    by apply opt_string_eqb_spec in E.
  - intros H. unfold Meetings.handleSort.
    apply Meetings_column_eqb_spec in H as H'. by rewrite H', <- H.
  - intros H. unfold Meetings.handleSort.
    destruct (Meetings.column_eqb _ _) eqn:E; [|done].
    by apply Meetings_column_eqb_spec in E.
  - intros H. unfold ListView.onHeaderClick.
    apply String.eqb_eq in H as H'. by rewrite H', <- H.
  - intros H. unfold ListView.onHeaderClick.
    destruct (String.eqb _ _) eqn:E; [|done].
    by apply String.eqb_eq in E.
Qed.

(** Contacts sorted by name, ascending: a click on Name turns the
    direction to descending, a click on Email starts ascending. *)
Lemma C3_header_click_witness :
  let s := ContactTable.setSortField (Some "contact_name")
             ContactTable.initial in
  (ContactTable.sortField s = Some "contact_name"
   /\ (ContactTable.sortField (ContactTable.handleSort "contact_name" s),
       ContactTable.sortDirection (ContactTable.handleSort "contact_name" s))
      = (Some "contact_name", Desc))
  /\ (ContactTable.sortField s <> Some "email"
      /\ (ContactTable.sortField (ContactTable.handleSort "email" s),
          ContactTable.sortDirection (ContactTable.handleSort "email" s))
         = (Some "email", Asc)).
Proof.
  split; (split; [done|]).
  - apply (proj1 (proj1 (proj2 C3_header_click) "contact_name"
                    (ContactTable.setSortField (Some "contact_name")
                       ContactTable.initial))).
    reflexivity.
  - apply (proj2 (proj1 (proj2 C3_header_click) "email"
                    (ContactTable.setSortField (Some "contact_name")
                       ContactTable.initial))).
    discriminate.
Defined.

(** The Deals list as it opens, sorted by modification time: a click on
    the Stage header selects Stage with direction descending. *)
Lemma C3_deals_start_descending :
  let s' := ListView.onHeaderClick "stage" ListView.initial in
  ListView.sortBy ListView.initial <> "stage"
  /\ ListView.sortBy s' = "stage"
  /\ ListView.sortOrder s' <> Asc.
Proof. vm_compute. repeat split; discriminate. Qed.

(** ** C4 *)

Lemma length_pos_nonempty {A : Type} (l : list A) :
  0 < Z.of_nat (length l) <-> l <> [].
Proof. destruct l; simpl; split; (done || lia). Qed.

Lemma count_header_checked (selected : list string)
    (page : list (gmap string jsval)) :
  (0 <? Z.of_nat (length selected))
  && (Z.of_nat (length selected) =? Z.min (Z.of_nat (length page)) 50) = true
  <-> selected <> []
      /\ Z.of_nat (length selected) = Z.min (Z.of_nat (length page)) 50.
Proof.
  rewrite andb_true_iff, Z.ltb_lt, Z.eqb_eq.
  by rewrite length_pos_nonempty.
Qed.

(** C4, as the code has it.  On the Meetings page [isAllSelected] holds
    exactly when the page is non-empty and every row on it is selected.
    The header checkbox of Contacts, Leads and Accounts compares counts:
    it is checked exactly when the selection is non-empty and has as many
    entries as the page has rows, 50 at most.  The header checkbox of the
    Deals list is checked exactly when the page is non-empty and the
    selection has as many entries as the page has rows. *)
Theorem C4_all_selected_indicator :
  (forall s,
     Meetings.isAllSelected s = true
     <-> Meetings.paginatedMeetings s <> []
         /\ forall m, m ∈ Meetings.paginatedMeetings s ->
                      id_of m ∈ Meetings.selectedMeetings s)
  /\ (forall selected page,
        ContactTable.headerChecked selected page = true
        <-> selected <> []
            /\ Z.of_nat (length selected)
               = Z.min (Z.of_nat (length page)) 50)
  /\ (forall selected page,
        LeadTable.headerChecked selected page = true
        <-> selected <> []
            /\ Z.of_nat (length selected)
               = Z.min (Z.of_nat (length page)) 50)
  /\ (forall selected page,
        AccountTable.headerChecked selected page = true
        <-> selected <> []
            /\ Z.of_nat (length selected)
               = Z.min (Z.of_nat (length page)) 50)
  /\ (forall page s,
        ListView.headerChecked page s = true
        <-> page <> []
            /\ size (ListView.selectedDeals s) = length page).
Proof.
  split; [|split; [|split; [|split]]].
  - intros s. unfold Meetings.isAllSelected.
    rewrite andb_true_iff, Z.ltb_lt, length_pos_nonempty, forallb_forall.
    apply and_iff_compat_l. split.
    + intros H m Hm. apply list_includes_spec, H. by apply list_elem_of_In.
    + intros H m Hm. apply list_includes_spec, H. by apply list_elem_of_In.
  - apply count_header_checked.
  - apply count_header_checked.
  - apply count_header_checked.
  - intros page s. unfold ListView.headerChecked.
    rewrite andb_true_iff, Z.ltb_lt, Z.eqb_eq, length_pos_nonempty.
    rewrite Nat2Z.inj_iff. tauto.
Qed.

(** Two meetings on the page, both selected by a click on the header
    checkbox: [isAllSelected] holds. *)
Lemma C4_all_selected_indicator_witness :
  let rows : list (gmap string jsval) :=
    [ <[ "id" := VStr "m1" ]> {[ "subject" := VStr "Kickoff" ]};
      <[ "id" := VStr "m2" ]> {[ "subject" := VStr "Review" ]} ] in
  let s := Meetings.run (fun m => to_string (get m "status"))
             (fun _ => None) (fun _ => None)
             [Meetings.Fetched rows; Meetings.ToggleAll true]
             (Meetings.initial "all") in
  (Meetings.paginatedMeetings s <> []
   /\ forall m, m ∈ Meetings.paginatedMeetings s ->
                id_of m ∈ Meetings.selectedMeetings s)
  /\ Meetings.isAllSelected s = true.
Proof.
  intros rows s.
  assert (Meetings.paginatedMeetings s = rows) as Hpage by (by vm_compute).
  assert (Meetings.selectedMeetings s = ["m1"; "m2"]) as Hsel
    by (by vm_compute).
  assert (Meetings.paginatedMeetings s <> []
          /\ forall m, m ∈ Meetings.paginatedMeetings s ->
                       id_of m ∈ Meetings.selectedMeetings s) as H.
  { rewrite Hpage, Hsel. split; [done|]. intros m Hm.
    apply list_elem_of_In in Hm. apply list_elem_of_In.
    destruct Hm as [<-|[<-|[]]]; vm_compute; auto. }
  split; [exact H|].
  by apply (proj2 (proj1 C4_all_selected_indicator s)).
Defined.

(** Contacts with a page of 60 rows (page size 100): after a click on the
    header checkbox the first 50 rows are selected and the checkbox is
    checked, although the rows of the page are not all in the selection. *)
Lemma C4_contacts_checked_without_all_rows :
  let s := ContactTable.run codeUnitCompare
             [ContactTable.Fetched (numbered "contact_name" 60);
              ContactTable.SelectPageSize 100]
             ContactTable.initial in
  let page := ContactTable.pageContacts s in
  let selected := ContactTable.handleSelectAll page true in
  length page = 60%nat
  /\ ContactTable.headerChecked selected page = true
  /\ forallb (fun c => list_includes selected (id_of c)) page = false.
Proof. vm_compute. done. Qed.

(** ** C7 *)

Lemma capped_select_all (page : list (gmap string jsval)) :
  let selected := map id_of (slice page 0 50) in
  (forall id, id ∈ selected -> exists r, r ∈ page /\ id_of r = id)
  /\ Z.of_nat (length selected) <= 50.
Proof.
  simpl. split.
  - intros id Hid. apply list_elem_of_fmap in Hid as (r & -> & Hr).
    exists r. split; [|done]. by apply (slice_subseteq page 0 50).
  - rewrite length_map. by apply slice_from_0_length.
Qed.

(** C7, as the code has it.  In Contacts, Leads, Accounts and Meetings a
    checked select-all takes rows of the visible page only and at most 50
    of them; in the Deals list it takes every filtered row, on whatever
    page, without a cap.  An unchecked select-all empties the selection
    everywhere. *)
Theorem C7_select_all :
  (forall page,
     let selected := ContactTable.handleSelectAll page true in
     (forall id, id ∈ selected -> exists r, r ∈ page /\ id_of r = id)
     /\ Z.of_nat (length selected) <= 50
     /\ ContactTable.handleSelectAll page false = [])
  /\ (forall page,
        let selected := LeadTable.handleSelectAll page true in
        (forall id, id ∈ selected -> exists r, r ∈ page /\ id_of r = id)
        /\ Z.of_nat (length selected) <= 50
        /\ LeadTable.handleSelectAll page false = [])
  /\ (forall page,
        let selected := AccountTable.handleSelectAll page true in
        (forall id, id ∈ selected -> exists r, r ∈ page /\ id_of r = id)
        /\ Z.of_nat (length selected) <= 50
        /\ AccountTable.handleSelectAll page false = [])
  /\ (forall s,
        let s' := Meetings.handleSelectAll true s in
        (forall id, id ∈ Meetings.selectedMeetings s' ->
                    exists r, r ∈ Meetings.paginatedMeetings s'
                              /\ id_of r = id)
        /\ Z.of_nat (length (Meetings.selectedMeetings s')) <= 50
        /\ Meetings.selectedMeetings (Meetings.handleSelectAll false s) = [])
  /\ (forall deals s,
        (forall id,
           id ∈ ListView.selectedDeals (ListView.handleSelectAll deals true s)
           <-> exists r, r ∈ deals /\ id_of r = id)
        /\ ListView.selectedDeals (ListView.handleSelectAll deals false s)
           = ∅).
Proof.
  split; [|split; [|split; [|split]]].
  - intros page. pose proof (capped_select_all page) as [H1 H2]. done.
  - intros page. pose proof (capped_select_all page) as [H1 H2]. done.
  - intros page. pose proof (capped_select_all page) as [H1 H2]. done.
  - intros s. simpl. split; [|split; [|done]].
    + intros id Hid. apply list_elem_of_fmap in Hid as (r & -> & Hr).
      by exists r.
    + rewrite length_map. unfold Meetings.paginatedMeetings.
      pose proof (slice_window_length (Meetings.filteredMeetings s)
                    ((Meetings.currentPage s - 1) * Meetings.ITEMS_PER_PAGE)
                    Meetings.ITEMS_PER_PAGE) as H.
      unfold Meetings.ITEMS_PER_PAGE in *. lia.
  - intros deals s. simpl. split; [|done].
    intros id. rewrite elem_of_list_to_set, list_elem_of_fmap.
    split; intros (r & ? & ?); by exists r.
Qed.

(** Three contacts on the page: the identifier ["2"], selected by a
    checked select-all, belongs to a row of the page. *)
Lemma C7_select_all_witness :
  let page := numbered "contact_name" 3 in
  "2" ∈ ContactTable.handleSelectAll page true
  /\ exists r, r ∈ page /\ id_of r = "2".
Proof.
  intros page.
  assert ("2" ∈ ContactTable.handleSelectAll page true) as H.
  { apply list_elem_of_In. vm_compute. auto. }
  split; [exact H|].
  by apply (proj1 (proj1 C7_select_all page) "2").
Defined.

(** The Deals list with 51 filtered deals, 25 to a page: after a checked
    select-all 51 deals are selected, the deal ["51"] among them, which is
    not on the visible page. *)
Lemma C7_deals_select_all_beyond_page :
  let deals := numbered "project_name" 51 in
  let s' := ListView.handleSelectAll deals true ListView.initial in
  size (ListView.selectedDeals s') = 51%nat
  /\ bool_decide ("51" ∈ ListView.selectedDeals s') = true
  /\ existsb (fun r => String.eqb (id_of r) "51")
       (ListView.paginatedDeals deals s') = false.
Proof. vm_compute. done. Qed.

(** ** C10 *)

Lemma Contact_page_size_keeps_deps (s : ContactTable.state) (v : Z) :
  ContactTable.filterDepsChanged s (ContactTable.setItemsPerPage v s) = false.
Proof.
  unfold ContactTable.filterDepsChanged. simpl.
  rewrite Nat.eqb_refl, !String.eqb_refl.
  rewrite !(proj2 (opt_string_eqb_spec _ _) eq_refl).
  by destruct (ContactTable.sortDirection s).
Qed.

Lemma Contact_page_size_step localeCompare (s : ContactTable.state) (v : Z) :
  ContactTable.step localeCompare (ContactTable.SelectPageSize v) s
  = ContactTable.setItemsPerPage v s.
Proof.
  unfold ContactTable.step, ContactTable.runEffects. simpl.
  by rewrite Contact_page_size_keeps_deps.
Qed.

Lemma ListView_page_size_step deals (s : ListView.state) (v : Z) :
  ListView.step deals (ListView.SelectPageSize v) s
  = ListView.setItemsPerPage v s.
Proof.
  unfold ListView.step, ListView.runEffects, ListView.resetDepsChanged. simpl.
  by rewrite Nat.eqb_refl, !String.eqb_refl.
Qed.

Lemma TaskListView_page_size_step tasks (s : TaskListView.state) (v : Z) :
  TaskListView.step tasks (TaskListView.SelectPageSize v) s
  = TaskListView.setItemsPerPage v s.
Proof.
  unfold TaskListView.step, TaskListView.runEffects,
    TaskListView.resetDepsChanged. simpl.
  by rewrite !String.eqb_refl.
Qed.

(** C10.  Choosing a page size leaves [currentPage] as it is in Contacts,
    Deals and Tasks: nothing brings it back within the new number of
    pages.  When the new size [v] puts the start of the window,
    [(currentPage - 1) * v], at or beyond the number of filtered rows, the
    page shown is empty, whether or not filtered rows exist; and the
    Contacts view reaches such a state: on a page after the first, with
    filtered rows and an empty page. *)
Theorem C10_page_size_keeps_current_page :
  (forall localeCompare s v,
     let s' := ContactTable.step localeCompare
                 (ContactTable.SelectPageSize v) s in
     ContactTable.currentPage s' = ContactTable.currentPage s
     /\ (Z.of_nat (length (ContactTable.filteredContacts s))
           <= (ContactTable.currentPage s - 1) * v ->
         ContactTable.pageContacts s' = []))
  /\ (forall deals s v,
        let s' := ListView.step deals (ListView.SelectPageSize v) s in
        ListView.currentPage s' = ListView.currentPage s
        /\ (Z.of_nat (length deals) <= (ListView.currentPage s - 1) * v ->
            ListView.paginatedDeals deals s' = []))
  /\ (forall tasks s v,
        let s' := TaskListView.step tasks (TaskListView.SelectPageSize v) s in
        TaskListView.currentPage s' = TaskListView.currentPage s
        /\ (Z.of_nat (length (TaskListView.filteredTasks tasks s))
              <= (TaskListView.currentPage s - 1) * v ->
            TaskListView.paginatedTasks tasks s' = []))
  /\ (forall localeCompare,
      exists events v,
        let s := ContactTable.run localeCompare events ContactTable.initial in
        let s' := ContactTable.step localeCompare
                    (ContactTable.SelectPageSize v) s in
        1 < ContactTable.currentPage s'
        /\ 0 < Z.of_nat (length (ContactTable.filteredContacts s'))
        /\ ContactTable.pageContacts s' = []).
Proof.
  split; [|split; [|split]].
  - intros localeCompare s v. simpl. rewrite Contact_page_size_step.
    split; [done|]. intros H.
    unfold ContactTable.pageContacts, ContactTable.startIndex. simpl.
    by apply slice_past_end.
  - intros deals s v. simpl. rewrite ListView_page_size_step.
    split; [done|]. intros H. unfold ListView.paginatedDeals. simpl.
    by apply slice_past_end.
  - intros tasks s v. simpl. rewrite TaskListView_page_size_step.
    split; [done|]. intros H. unfold TaskListView.paginatedTasks. simpl.
    by apply slice_past_end.
  - intros localeCompare.
    exists [ContactTable.Fetched (numbered "contact_name" 30);
            ContactTable.SelectPageSize 10;
            ContactTable.ClickNext;
            ContactTable.ClickNext], 25.
    by vm_compute.
Qed.

(** Thirty contacts, ten to a page, the view on page 3: with 25 to a page
    the view is still on page 3 of what are now 2 pages and shows no row,
    although thirty rows pass the filter. *)
Lemma C10_page_size_keeps_current_page_witness :
  let s := ContactTable.run codeUnitCompare
             [ContactTable.Fetched (numbered "contact_name" 30);
              ContactTable.SelectPageSize 10;
              ContactTable.ClickNext;
              ContactTable.ClickNext]
             ContactTable.initial in
  let s' := ContactTable.step codeUnitCompare
              (ContactTable.SelectPageSize 25) s in
  (ContactTable.currentPage s = 3
   /\ length (ContactTable.filteredContacts s') = 30%nat
   /\ ContactTable.totalPages s' = 2)
  /\ Z.of_nat (length (ContactTable.filteredContacts s))
     <= (ContactTable.currentPage s - 1) * 25
  /\ ContactTable.currentPage s' = 3
  /\ ContactTable.pageContacts s' = [].
Proof.
  split; [by vm_compute|].
  split; [by vm_compute|].
  split.
  - etrans.
    + apply (proj1 (proj1 C10_page_size_keeps_current_page codeUnitCompare
                      _ 25)).
    + by vm_compute.
  - apply (proj2 (proj1 C10_page_size_keeps_current_page codeUnitCompare
                    _ 25)).
    by vm_compute.
Defined.

(** ** C8 *)

Lemma or_else_text (v : jsval) (t : string) :
  text_of v = Some t -> to_string (or_else v (VStr "")) = t.
Proof.
  destruct v as [| |s|n|l]; simpl; intros [= <-]; try done.
  unfold or_else. simpl.
  destruct (String.eqb_spec s ""); simpl; congruence.
Qed.

Lemma or_else_text_not_number (v : jsval) (t : string) :
  text_of v = Some t -> is_number (or_else v (VStr "")) = false.
Proof.
  destruct v as [| |s|n|l]; simpl; try done.
  intros _. unfold or_else. simpl. by destruct (String.eqb s "").
Qed.

Lemma or_else_number (n : Z) :
  n <> 0 -> or_else (VNum n) (VStr "") = VNum n.
Proof.
  intros H. unfold or_else. simpl.
  by rewrite (proj2 (Z.eqb_neq n 0) H).
Qed.

Section CompareFacts.

Variable localeCompare : string -> string -> Z.

Lemma Contact_compare_numbers f d a b x y :
  get a f = VNum x -> get b f = VNum y -> x <> 0 -> y <> 0 ->
  ContactTable.compare localeCompare f d a b
  = match d with Asc => x - y | Desc => y - x end.
Proof.
  intros Ha Hb Hx Hy. unfold ContactTable.compare.
  by rewrite Ha, Hb, !or_else_number.
Qed.

Lemma Contact_compare_left_text f d a b t :
  text_of (get a f) = Some t ->
  ContactTable.compare localeCompare f d a b
  = directed d
      (localeCompare t (to_string (or_else (get b f) (VStr "")))).
Proof.
  intros Ha. unfold ContactTable.compare.
  rewrite <- (or_else_text _ _ Ha).
  pose proof (or_else_text_not_number _ _ Ha) as Hn.
  destruct (or_else (get a f) (VStr "")); try done.
Qed.

Lemma Contact_compare_right_text f d a b t :
  text_of (get b f) = Some t ->
  ContactTable.compare localeCompare f d a b
  = directed d
      (localeCompare (to_string (or_else (get a f) (VStr ""))) t).
Proof.
  intros Hb. unfold ContactTable.compare.
  rewrite <- (or_else_text _ _ Hb).
  pose proof (or_else_text_not_number _ _ Hb) as Hn.
  destruct (or_else (get b f) (VStr "")); try done;
    by destruct (or_else (get a f) (VStr "")).
Qed.

End CompareFacts.

Lemma nullish_text (v : jsval) : nullish v -> text_of v = Some "".
Proof. by intros [-> | ->]. Qed.

(** C8, as the code has it.  The comparators of Contacts and Accounts
    subtract when the two values are numbers other than zero; they compare
    text, and with it the dates, which are stored as strings, through
    [localeCompare], a missing value reading as the empty string; and they
    compare a missing value with a number as the empty string with the
    decimal form of the number, not as zero.  The comparator of Leads
    compares the string forms of the two values in every case.  The
    direction descending negates the result. *)
Theorem C8_comparators :
  forall localeCompare f d a b,
    (forall x y,
       get a f = VNum x -> get b f = VNum y -> x <> 0 -> y <> 0 ->
       ContactTable.compare localeCompare f d a b
       = match d with Asc => x - y | Desc => y - x end
       /\ AccountTable.compare localeCompare f d a b
          = match d with Asc => x - y | Desc => y - x end)
    /\ (forall ta tb,
          text_of (get a f) = Some ta -> text_of (get b f) = Some tb ->
          ContactTable.compare localeCompare f d a b
          = directed d (localeCompare ta tb)
          /\ AccountTable.compare localeCompare f d a b
             = directed d (localeCompare ta tb)
          /\ LeadTable.compare localeCompare f d a b
             = directed d (localeCompare ta tb))
    /\ (forall y,
          nullish (get a f) -> get b f = VNum y -> y <> 0 ->
          ContactTable.compare localeCompare f d a b
          = directed d (localeCompare "" (number_to_string y))
          /\ AccountTable.compare localeCompare f d a b
             = directed d (localeCompare "" (number_to_string y)))
    /\ (forall x,
          get a f = VNum x -> x <> 0 -> nullish (get b f) ->
          ContactTable.compare localeCompare f d a b
          = directed d (localeCompare (number_to_string x) "")
          /\ AccountTable.compare localeCompare f d a b
             = directed d (localeCompare (number_to_string x) ""))
    /\ LeadTable.compare localeCompare f d a b
       = directed d
           (localeCompare (to_string (or_else (get a f) (VStr "")))
              (to_string (or_else (get b f) (VStr "")))).
Proof.
  intros localeCompare f d a b. split; [|split; [|split; [|split]]].
  - intros x y Ha Hb Hx Hy.
    split; by apply (Contact_compare_numbers localeCompare f d a b x y).
  - intros ta tb Ha Hb.
    assert (ContactTable.compare localeCompare f d a b
            = directed d (localeCompare ta tb)) as Hc.
    { rewrite (Contact_compare_left_text localeCompare f d a b ta Ha).
      by rewrite (or_else_text _ _ Hb). }
    split; [exact Hc | split; [exact Hc |]].
    unfold LeadTable.compare, directed.
    by rewrite (or_else_text _ _ Ha), (or_else_text _ _ Hb).
  - intros y Ha Hb Hy.
    assert (ContactTable.compare localeCompare f d a b
            = directed d (localeCompare "" (number_to_string y))) as Hc.
    { rewrite (Contact_compare_left_text localeCompare f d a b ""
                 (nullish_text _ Ha)).
      by rewrite Hb, (or_else_number y Hy). }
    split; exact Hc.
  - intros x Ha Hx Hb.
    assert (ContactTable.compare localeCompare f d a b
            = directed d (localeCompare (number_to_string x) "")) as Hc.
    { rewrite (Contact_compare_right_text localeCompare f d a b ""
                 (nullish_text _ Hb)).
      by rewrite Ha, (or_else_number x Hx). }
    split; exact Hc.
  - reflexivity.
Qed.

(** Two contacts with scores 70 and 40 compare as 30 under ascending
    order, whatever the collation of the host. *)
Lemma C8_comparators_witness :
  let a : gmap string jsval := <[ "id" := VStr "a" ]> {[ "score" := VNum 70 ]} in
  let b : gmap string jsval := <[ "id" := VStr "b" ]> {[ "score" := VNum 40 ]} in
  (get a "score" = VNum 70 /\ get b "score" = VNum 40 /\ 70 <> 0 /\ 40 <> 0)
  /\ ContactTable.compare codeUnitCompare "score" Asc a b = 30.
Proof.
  intros a b. split; [by vm_compute|].
  refine (proj1 (proj1 (C8_comparators codeUnitCompare "score" Asc a b)
                   70 40 _ _ _ _));
    by vm_compute.
Defined.

(** Three contacts with scores [-5], [0] and none, sorted by score in
    ascending order: the contact without a score and the one with score 0
    come before the one with score [-5]; as numbers, with a missing score
    read as zero, [-5] would come first. *)
Lemma C8_missing_number_is_not_zero :
  let minus5 : gmap string jsval :=
    <[ "id" := VStr "minus5" ]> {[ "score" := VNum (-5) ]} in
  let zero : gmap string jsval :=
    <[ "id" := VStr "zero" ]> {[ "score" := VNum 0 ]} in
  let none : gmap string jsval := {[ "id" := VStr "none" ]} in
  ContactTable.compare codeUnitCompare "score" Asc none minus5 < 0
  /\ 0 < 0 - (-5)
  /\ ContactTable.compare codeUnitCompare "score" Asc zero minus5 < 0
  /\ map id_of
       (sort (ContactTable.compare codeUnitCompare "score" Asc)
          [minus5; zero; none])
     = ["zero"; "none"; "minus5"]
  /\ map id_of
       (sort (AccountTable.compare codeUnitCompare "score" Asc)
          [minus5; zero; none])
     = ["zero"; "none"; "minus5"].
Proof. vm_compute. done. Qed.

(** ** The backend: what a handler leaves in the log and in the tables *)

Lemma nonempty_length_eqb {A : Type} (l : list A) :
  l <> [] -> (Z.of_nat (length l) =? 0) = false.
Proof. destruct l; [done|]. intros _. by apply Z.eqb_neq. Qed.

Lemma issued_since (w : world) t (l : list request) f :
  issued w (mkWorld t (log w ++ l) f) = l.
Proof. unfold issued. simpl. apply drop_app_length. Qed.

Lemma rows_of_insert (t : gmap string (list (gmap string jsval)))
    (l : list request) f (table : string) rows :
  rows_of (mkWorld (<[table := rows]> t) l f) table = rows.
Proof. unfold rows_of. simpl. by rewrite lookup_insert_eq. Qed.

Lemma rows_of_insert_ne (w : world) (l : list request) f
    (table other : string) rows :
  other <> table ->
  rows_of (mkWorld (<[table := rows]> (tables w)) l f) other
  = rows_of w other.
Proof. intros H. unfold rows_of. simpl. by rewrite lookup_insert_ne. Qed.

(** The steps shared by the proofs below: run the monadic code, split on
    the answers of the backend, and read the requests off the log. *)
Ltac run_handler :=
  unfold delete_in, delete_eq, select_in, select_eq, audit_delete,
    start_fetch, issue, read_rows, put_rows, mbind, mret, M_bind, M_ret;
  simpl.

Ltac read_log :=
  unfold deletes; rewrite <- ?app_assoc; rewrite ?issued_since; simpl.

(** ** C5 *)

(** C5.  A bulk delete of a non-empty selection of contacts or of meetings
    issues one delete request, for exactly the selected identifiers.  When
    the backend carries it out, the table loses the rows with these
    identifiers and no other table changes, and the selection is emptied
    (for contacts once the audit entry is written; meetings have none).
    When the delete request reports an error, the selection and the tables
    stay as they were. *)
Theorem C5_bulk_delete :
  (forall w selected,
     selected <> [] ->
     let r := ContactTable.handleBulkDelete selected w in
     let request := DeleteIn "contacts" "id" selected in
     deletes w r.2 = [request]
     /\ (failure w request = None ->
         rows_of r.2 "contacts" = without w "contacts" "id" selected
         /\ (forall t, t <> "contacts" -> rows_of r.2 t = rows_of w t)
         /\ (failure w (AuditDelete "contacts" selected) = None ->
             ContactTable.selection r.1 = []))
     /\ (failure w request <> None ->
         ContactTable.selection r.1 = selected /\ tables r.2 = tables w))
  /\ (forall w selected,
        selected <> [] ->
        let r := Meetings.handleBulkDelete selected w in
        let request := DeleteIn "meetings" "id" selected in
        deletes w r.2 = [request]
        /\ (failure w request = None ->
            rows_of r.2 "meetings" = without w "meetings" "id" selected
            /\ (forall t, t <> "meetings" -> rows_of r.2 t = rows_of w t)
            /\ Meetings.selection r.1 = [])
        /\ (failure w request <> None ->
            Meetings.selection r.1 = selected /\ tables r.2 = tables w)).
Proof.
  split.
  - intros w selected H. simpl. unfold ContactTable.handleBulkDelete.
    rewrite (nonempty_length_eqb _ H). run_handler.
    destruct (failure w (DeleteIn "contacts" "id" selected)) eqn:E1; simpl.
    { read_log. by repeat split. }
    destruct (failure w (AuditDelete "contacts" selected)) eqn:E2; simpl.
    + read_log. repeat split; try done.
      * apply rows_of_insert.
      * intros t Ht. by apply rows_of_insert_ne.
    + read_log. repeat split; try done.
      * apply rows_of_insert.
      * intros t Ht. by apply rows_of_insert_ne.
  - intros w selected H. simpl. unfold Meetings.handleBulkDelete.
    run_handler.
    destruct (failure w (DeleteIn "meetings" "id" selected)) eqn:E1; simpl.
    { read_log. by repeat split. }
    read_log. repeat split; try done.
    + apply rows_of_insert.
    + intros t Ht. by apply rows_of_insert_ne.
Qed.

(** Contacts [c1] and [c3] selected: one delete request for the two, the
    table keeps [c2], the selection is empty afterwards. *)
Lemma C5_bulk_delete_witness :
  let r := ContactTable.handleBulkDelete ["c1"; "c3"] sampleWorld in
  ["c1"; "c3"] <> []
  /\ deletes sampleWorld r.2 = [DeleteIn "contacts" "id" ["c1"; "c3"]]
  /\ map id_of (rows_of r.2 "contacts") = ["c2"]
  /\ ContactTable.selection r.1 = [].
Proof.
  split; [done|].
  split; [apply (proj1 C5_bulk_delete sampleWorld ["c1"; "c3"]); done|].
  by vm_compute.
Defined.

(** ** C9 *)

Lemma get_project (column : string) (r : gmap string jsval) :
  get (project column r) column = get r column.
Proof.
  unfold project, get. destruct (r !! column) eqn:E; simpl.
  - by rewrite lookup_singleton_eq.
  - by rewrite lookup_empty.
Qed.

Lemma id_of_project (r : gmap string jsval) :
  id_of (project "id" r) = id_of r.
Proof. unfold id_of. by rewrite get_project. Qed.

Lemma map_id_of_project (l : list (gmap string jsval)) :
  map id_of (map (project "id") l) = map id_of l.
Proof. rewrite map_map. apply map_ext. intros r. apply id_of_project. Qed.

Ltac split_on_answers w :=
  repeat match goal with
         | |- context [match failure w ?r with _ => _ end] =>
             let E := fresh "E" in destruct (failure w r) eqn:E; simpl
         end.



(** ** C6 *)

Lemma nonEmptyData_first {A B : Type} (f : A -> B) (p : A -> bool)
    (l : list A) :
  AccountTable.nonEmptyData
    (Some (take_limit (Some 1%nat) (map f (List.filter p l))))
  = existsb p l.
Proof.
  induction l as [|x l IH]; simpl; [done|].
  destruct (p x); simpl; [done|]. apply IH.
Qed.

(** Among the selected identifiers, the ones the two link queries return
    are the ones some contact or lead refers to. *)
Lemma linkedAccountIds_spec (selected : list string)
    (rows : list (gmap string jsval)) (id : string) :
  id ∈ selected ->
  id ∈ AccountTable.linkedAccountIds
         (Some (map (project "account_id")
                  (List.filter (fun r => column_in r "account_id" selected)
                     rows)))
  <-> existsb (fun r => strict_eq_str (get r "account_id") id) rows = true.
Proof.
  intros Hid. unfold AccountTable.linkedAccountIds. simpl.
  rewrite list_elem_of_omap, existsb_exists. split.
  - intros (p & Hp & Hv). apply list_elem_of_fmap in Hp as (r & -> & Hr).
    apply list_elem_of_In, filter_In in Hr as [Hr _].
    exists r. split; [done|]. rewrite get_project in Hv.
    destruct (get r "account_id"); try done.
    injection Hv as ->. simpl. apply String.eqb_refl.
  - intros (r & Hr & Hv). exists (project "account_id" r). split.
    + apply list_elem_of_fmap. exists r. split; [done|].
      apply list_elem_of_In, filter_In. split; [done|].
      unfold column_in. destruct (get r "account_id"); try done.
      simpl in Hv. apply String.eqb_eq in Hv as ->.
      by apply list_includes_spec.
    + rewrite get_project. destruct (get r "account_id"); try done.
      simpl in Hv. by apply String.eqb_eq in Hv as ->.
Qed.

(** The audit loop writes audit entries only; it ends without a throw
    when no audit call throws. *)
Lemma logDeletions_run (accounts : list (gmap string jsval))
    (ids : list string) (w : world) :
  let r := AccountTable.logDeletions accounts ids w in
  tables r.2 = tables w
  /\ failure r.2 = failure w
  /\ (exists l, log r.2 = (log w ++ l)%list /\ List.filter is_delete l = [])
  /\ ((forall id, failure w (AuditDelete "accounts" [id]) = None) ->
      r.1 = None).
Proof.
  revert w. induction ids as [|id ids IH]; intros w; simpl.
  - repeat split; try done. exists []. by rewrite app_nil_r.
  - destruct (List.find _ accounts); [|apply IH].
    run_handler.
    destruct (failure w (AuditDelete "accounts" [id])) eqn:E; simpl.
    + repeat split; try done.
      * by exists [AuditDelete "accounts" [id]].
      * intros H. by rewrite H in E.
    + specialize (IH (mkWorld (tables w)
                        (log w ++ [AuditDelete "accounts" [id]])
                        (failure w))).
      simpl in IH. destruct IH as (Ht & Hf & (l & Hl & Hd) & Hn).
      repeat split; try done.
      exists (AuditDelete "accounts" [id] :: l).
      rewrite Hl, <- app_assoc. done.
Qed.

(** C6.  A link query that reports an error.  In the sample backend the
    contact [c1] refers to account [A]; here the reads of [contacts]
    report an error and every other request is answered.  The single
    delete of [A] is not refused: its [linkedContacts] is [null], which
    the guard reads as no link, so the delete request for [A] is issued,
    [A] leaves the table while [c1] still refers to it, and the success
    toast is shown.  The bulk delete of [A], [B] and [C] likewise deletes
    [A] along with [C] and counts [A] as deleted; [B] is held back by its
    lead, whose query is answered. *)
Theorem C6_failed_link_query_deletes_linked_account :
  let w := unanswered "contacts" in
  let A : gmap string jsval := {[ "id" := VStr "A" ]} in
  let single := AccountTable.handleDelete (Some A) true w in
  let bulk :=
    AccountTable.handleBulkDelete (rows_of w "accounts") ["A"; "B"; "C"] w in
  (has_link w "contacts" "A" = true
   /\ failure w (SelectEq "contacts" "id" "account_id" "A" (Some 1%nat))
      = Some "unavailable"
   /\ failure w (SelectIn "contacts" "account_id" "account_id"
                   ["A"; "B"; "C"])
      = Some "unavailable")
  /\ (deletes w single.2 = [DeleteEq "accounts" "id" "A"]
      /\ map id_of (rows_of single.2 "accounts") = ["B"; "C"]
      /\ has_link single.2 "contacts" "A" = true
      /\ AccountTable.deleteShown single.1
         = Some (mkToast "Success" "Account deleted successfully" false))
  /\ (deletes w bulk.2 = [DeleteIn "accounts" "id" ["A"; "C"]]
      /\ map id_of (rows_of bulk.2 "accounts") = ["B"]
      /\ has_link bulk.2 "contacts" "A" = true
      /\ AccountTable.shown bulk.1
         = Some (mkToast "Success"
                   "Deleted 2 accounts. 1 skipped (have linked records)."
                   false)).
Proof. by vm_compute. Qed.

(** * Further properties of the code *)
(** ** Pagination *)

Section Paging.
Context {A : Type}.
Implicit Types (l : list A).

Lemma slice_chunk l (k n : nat) :
  slice l (Z.of_nat (k * n)) (Z.of_nat (k * n) + Z.of_nat n)
  = firstn n (skipn (k * n) l).
Proof.
  unfold slice, clamp_index.
  destruct (Z.ltb_spec (Z.of_nat (k * n)) 0); [lia|].
  destruct (Z.ltb_spec (Z.of_nat (k * n) + Z.of_nat n) 0); [lia|].
  destruct (Nat.le_gt_cases (k * n) (length l)) as [Hle|Hgt].
  - replace (Z.to_nat (Z.min (Z.of_nat (k * n)) (Z.of_nat (length l))))
      with (k * n)%nat by lia.
    destruct (Nat.le_gt_cases (k * n + n) (length l)) as [Hle2|Hgt2].
    + f_equal. lia.
    + rewrite (take_ge (drop (k * n) l) n) by (rewrite length_drop; lia).
      apply take_ge. rewrite length_drop. lia.
  - rewrite (drop_ge l (k * n)) by lia.
    rewrite (drop_ge l) by lia. by rewrite !take_nil.
Qed.

Lemma chunks_concat (m n : nat) l :
  (0 < n)%nat -> (length l <= m * n)%nat ->
  concat (map (fun k => firstn n (skipn (k * n) l)) (seq 0 m)) = l.
Proof.
  intros Hn. revert l. induction m as [|m IH]; intros l Hl.
  - destruct l; [done|]. simpl in Hl. lia.
  - simpl. rewrite <- seq_shift, map_map.
    transitivity (firstn n l ++ skipn n l)%list; [|apply firstn_skipn].
    f_equal.
    transitivity
      (concat (map (fun k => firstn n (skipn (k * n) (skipn n l)))
                 (seq 0 m))).
    + f_equal. apply map_ext. intros k.
      by rewrite drop_drop.
    + apply IH. rewrite length_skipn. lia.
Qed.

Lemma ceil_div_covers (len n : Z) :
  0 <= len -> 0 < n -> len <= ceil_div len n * n /\ 0 <= ceil_div len n.
Proof.
  intros Hl Hn. unfold ceil_div.
  pose proof (Z.div_mod (len + n - 1) n ltac:(lia)).
  pose proof (Z.mod_pos_bound (len + n - 1) n Hn).
  split; [nia|]. apply Z.div_pos; lia.
Qed.

(** The pages 1 .. totalPages, one after the other, are the whole list. *)
Lemma pages_concat l (n : Z) :
  0 < n ->
  concat (map (fun p => slice l ((p - 1) * n) ((p - 1) * n + n))
            (pageNumbers (ceil_div (Z.of_nat (length l)) n)))
  = l.
Proof.
  intros Hn. unfold pageNumbers.
  destruct (ceil_div_covers (Z.of_nat (length l)) n) as [Hc Hp]; [lia|done|].
  set (m := Z.to_nat (ceil_div (Z.of_nat (length l)) n)).
  transitivity
    (concat (map (fun k => firstn (Z.to_nat n) (skipn (k * Z.to_nat n) l))
               (seq 0 m))).
  - rewrite <- seq_shift, !map_map. f_equal. apply map_ext. intros k.
    rewrite <- slice_chunk. f_equal; lia.
  - apply chunks_concat; [lia|]. subst m. nia.
Qed.
End Paging.

Lemma slice_window_exact {A : Type} (l : list A) (a n : Z) :
  0 <= a -> 0 <= n ->
  Z.of_nat (length (slice l a (a + n)))
  = Z.max (Z.min (a + n) (Z.of_nat (length l)) - Z.min a (Z.of_nat (length l))) 0.
Proof.
  intros Ha Hn. unfold slice, clamp_index.
  destruct (Z.ltb_spec a 0); [lia|].
  destruct (Z.ltb_spec (a + n) 0); [lia|].
  rewrite length_take, length_drop. lia.
Qed.

Lemma within_pages (len n p : Z) :
  0 < n -> 1 <= p <= ceil_div len n -> (p - 1) * n < len.
Proof.
  intros Hn [H1 H2]. unfold ceil_div in H2.
  pose proof (Z.mul_div_le (len + n - 1) n Hn). nia.
Qed.

(** X1.  With a positive page size, the pages 1 to [totalPages], one
    after the other, are exactly the filtered rows, in their order: no row
    is left out and none is shown on two pages.  This holds for the six
    views. *)
Theorem X1_pages_cover_the_filtered_rows :
  (forall s,
     0 < ContactTable.itemsPerPage s ->
     concat (map (fun p => ContactTable.pageContacts
                             (ContactTable.setCurrentPage p s))
               (pageNumbers (ContactTable.totalPages s)))
     = ContactTable.filteredContacts s)
  /\ (forall filteredLeads itemsPerPage,
        0 < itemsPerPage ->
        concat (map (fun p => LeadTable.getCurrentPageLeads filteredLeads p
                                itemsPerPage)
                  (pageNumbers
                     (ceil_div (Z.of_nat (length filteredLeads))
                        itemsPerPage)))
        = filteredLeads)
  /\ (forall filteredAccounts itemsPerPage,
        0 < itemsPerPage ->
        concat (map (fun p => AccountTable.getCurrentPageAccounts
                                filteredAccounts p itemsPerPage)
                  (pageNumbers
                     (ceil_div (Z.of_nat (length filteredAccounts))
                        itemsPerPage)))
        = filteredAccounts)
  /\ (forall s,
        concat (map (fun p => Meetings.paginatedMeetings
                                (Meetings.setCurrentPage p s))
                  (pageNumbers (Meetings.totalPages s)))
        = Meetings.filteredMeetings s)
  /\ (forall deals s,
        0 < ListView.itemsPerPage s ->
        concat (map (fun p => ListView.paginatedDeals deals
                                (ListView.setCurrentPage p s))
                  (pageNumbers (ListView.totalPages deals s)))
        = deals)
  /\ (forall tasks s,
        0 < TaskListView.itemsPerPage s ->
        concat (map (fun p => TaskListView.paginatedTasks tasks
                                (TaskListView.setCurrentPage p s))
                  (pageNumbers (TaskListView.totalPages tasks s)))
        = TaskListView.filteredTasks tasks s).
Proof.
  split; [|split; [|split; [|split; [|split]]]].
  - intros s H. apply (pages_concat (ContactTable.filteredContacts s) _ H).
  - intros l n H. apply (pages_concat l n H).
  - intros l n H. apply (pages_concat l n H).
  - intros s. by apply (pages_concat (Meetings.filteredMeetings s) 25).
  - intros deals s H. apply (pages_concat deals _ H).
  - intros tasks s H.
    apply (pages_concat (TaskListView.filteredTasks tasks s) _ H).
Qed.

(** Twenty-three contacts, ten to a page: three pages, which together are
    the filtered rows. *)
Lemma X1_pages_cover_the_filtered_rows_witness :
  let s := ContactTable.run codeUnitCompare
             [ContactTable.Fetched (numbered "contact_name" 23);
              ContactTable.SelectPageSize 10]
             ContactTable.initial in
  0 < ContactTable.itemsPerPage s
  /\ ContactTable.totalPages s = 3
  /\ concat (map (fun p => ContactTable.pageContacts
                             (ContactTable.setCurrentPage p s))
               (pageNumbers (ContactTable.totalPages s)))
     = ContactTable.filteredContacts s.
Proof.
  intros s. split; [by vm_compute|]. split; [by vm_compute|].
  apply (proj1 X1_pages_cover_the_filtered_rows s). by vm_compute.
Defined.

(** X2.  On a page between 1 and [totalPages] the Contacts table shows at
    least one row, and the footer "Showing a to b of n" counts the rows
    shown: [b - a + 1] rows, with [1 <= a <= b <= n]. *)
Theorem X2_footer_counts_the_rows_shown :
  forall s,
    0 < ContactTable.itemsPerPage s ->
    1 <= ContactTable.currentPage s <= ContactTable.totalPages s ->
    ContactTable.pageContacts s <> []
    /\ Z.of_nat (length (ContactTable.pageContacts s))
       = ContactTable.showingTo s - ContactTable.showingFrom s + 1
    /\ 1 <= ContactTable.showingFrom s
    /\ ContactTable.showingFrom s <= ContactTable.showingTo s
    /\ ContactTable.showingTo s
       <= Z.of_nat (length (ContactTable.filteredContacts s)).
Proof.
  intros s Hn Hp.
  pose proof (within_pages _ _ _ Hn Hp) as Hstart.
  unfold ContactTable.totalPages in Hp.
  assert (Z.of_nat (length (ContactTable.pageContacts s))
          = ContactTable.showingTo s - ContactTable.showingFrom s + 1
          /\ 1 <= ContactTable.showingFrom s
          /\ ContactTable.showingFrom s <= ContactTable.showingTo s
          /\ ContactTable.showingTo s
             <= Z.of_nat (length (ContactTable.filteredContacts s))) as H.
  { unfold ContactTable.pageContacts, ContactTable.showingTo,
      ContactTable.showingFrom, ContactTable.startIndex in *.
    rewrite slice_window_exact by nia.
    destruct (Z.eqb_spec (Z.of_nat (length (ContactTable.filteredContacts s)))
                0); nia. }
  split; [|exact H]. destruct H as (H & H1 & H2 & _).
  intros E. rewrite E in H. simpl in H. lia.
Qed.

(** Page 3 of twenty-three contacts, ten to a page: rows 21 to 23. *)
Lemma X2_footer_counts_the_rows_shown_witness :
  let s := ContactTable.run codeUnitCompare
             [ContactTable.Fetched (numbered "contact_name" 23);
              ContactTable.SelectPageSize 10;
              ContactTable.ClickNext; ContactTable.ClickNext]
             ContactTable.initial in
  (0 < ContactTable.itemsPerPage s
   /\ 1 <= ContactTable.currentPage s <= ContactTable.totalPages s)
  /\ (ContactTable.showingFrom s, ContactTable.showingTo s) = (21, 23)
  /\ Z.of_nat (length (ContactTable.pageContacts s))
     = ContactTable.showingTo s - ContactTable.showingFrom s + 1.
Proof.
  intros s. split; [by vm_compute|]. split; [by vm_compute|].
  apply (X2_footer_counts_the_rows_shown s); by vm_compute.
Defined.

Lemma Contact_set_page_keeps_deps (s : ContactTable.state) (v : Z) :
  ContactTable.filterDepsChanged s (ContactTable.setCurrentPage v s) = false.
Proof.
  unfold ContactTable.filterDepsChanged. simpl.
  rewrite Nat.eqb_refl, !String.eqb_refl.
  rewrite !(proj2 (opt_string_eqb_spec _ _) eq_refl).
  by destruct (ContactTable.sortDirection s).
Qed.

Lemma Contact_set_page_step localeCompare (s : ContactTable.state)
    (e : ContactTable.event) (v : Z) :
  ContactTable.handle e s = ContactTable.setCurrentPage v s ->
  ContactTable.step localeCompare e s = ContactTable.setCurrentPage v s.
Proof.
  intros H. unfold ContactTable.step, ContactTable.runEffects.
  by rewrite H, Contact_set_page_keeps_deps.
Qed.

(** X3.  Previous and Next in the Contacts table, the Tasks list and the
    Deals list.  Previous never goes below page 1 and never forward.  With
    at least one page, Next never goes beyond the last page: from a page
    past the last one, where a change of page size can leave the view, it
    comes back to the last page; from page 1 or later it stays at page 1 or
    later.  Neither changes the filtered rows or the number of pages; in
    the Deals list, where the filtered rows are computed by the render,
    neither changes the search term, the filters or the sort they are
    computed from. *)
Theorem X3_previous_and_next_stay_in_range :
  (forall localeCompare s,
     let prev := ContactTable.step localeCompare ContactTable.ClickPrevious s in
     let next := ContactTable.step localeCompare ContactTable.ClickNext s in
     (1 <= ContactTable.currentPage prev
      /\ ContactTable.currentPage prev <= Z.max 1 (ContactTable.currentPage s)
      /\ ContactTable.filteredContacts prev = ContactTable.filteredContacts s)
     /\ ContactTable.totalPages prev = ContactTable.totalPages s
     /\ ContactTable.filteredContacts next = ContactTable.filteredContacts s
     /\ ContactTable.totalPages next = ContactTable.totalPages s
     /\ (1 <= ContactTable.totalPages s ->
         ContactTable.currentPage next <= ContactTable.totalPages s
         /\ (ContactTable.totalPages s <= ContactTable.currentPage s ->
             ContactTable.currentPage next = ContactTable.totalPages s)
         /\ (1 <= ContactTable.currentPage s ->
             1 <= ContactTable.currentPage next)))
  /\ (forall tasks s,
        let prev := TaskListView.step tasks TaskListView.ClickPrevious s in
        let next := TaskListView.step tasks TaskListView.ClickNext s in
        (1 <= TaskListView.currentPage prev
         /\ TaskListView.currentPage prev
            <= Z.max 1 (TaskListView.currentPage s))
        /\ TaskListView.filteredTasks tasks prev
           = TaskListView.filteredTasks tasks s
        /\ TaskListView.totalPages tasks prev = TaskListView.totalPages tasks s
        /\ TaskListView.filteredTasks tasks next
           = TaskListView.filteredTasks tasks s
        /\ TaskListView.totalPages tasks next = TaskListView.totalPages tasks s
        /\ (1 <= TaskListView.totalPages tasks s ->
            TaskListView.currentPage next <= TaskListView.totalPages tasks s
            /\ (TaskListView.totalPages tasks s <= TaskListView.currentPage s ->
                TaskListView.currentPage next
                = TaskListView.totalPages tasks s)
            /\ (1 <= TaskListView.currentPage s ->
                1 <= TaskListView.currentPage next)))
  /\ (forall deals s,
        let prev := ListView.step deals ListView.ClickPrevious s in
        let next := ListView.step deals ListView.ClickNext s in
        let inputs (s : ListView.state) :=
          (ListView.searchTerm s, ListView.leadOwnerFilter s,
           ListView.filtersRef s, ListView.sortBy s, ListView.sortOrder s) in
        (1 <= ListView.currentPage prev
         /\ ListView.currentPage prev <= Z.max 1 (ListView.currentPage s))
        /\ inputs prev = inputs s
        /\ ListView.totalPages deals prev = ListView.totalPages deals s
        /\ inputs next = inputs s
        /\ ListView.totalPages deals next = ListView.totalPages deals s
        /\ (1 <= ListView.totalPages deals s ->
            ListView.currentPage next <= ListView.totalPages deals s
            /\ (ListView.totalPages deals s <= ListView.currentPage s ->
                ListView.currentPage next = ListView.totalPages deals s)
            /\ (1 <= ListView.currentPage s ->
                1 <= ListView.currentPage next))).
Proof.
  split; [|split].
  - intros localeCompare s. simpl.
    rewrite (Contact_set_page_step localeCompare s ContactTable.ClickPrevious
               _ eq_refl).
    rewrite (Contact_set_page_step localeCompare s ContactTable.ClickNext
               _ eq_refl).
    unfold ContactTable.totalPages. simpl. repeat split; lia.
  - intros tasks s. simpl.
    unfold TaskListView.step, TaskListView.runEffects,
      TaskListView.resetDepsChanged. simpl.
    rewrite !String.eqb_refl. simpl.
    unfold TaskListView.totalPages, TaskListView.filteredTasks. simpl.
    repeat split; lia.
  - intros deals s. simpl.
    unfold ListView.step, ListView.runEffects, ListView.resetDepsChanged.
    simpl. rewrite Nat.eqb_refl, !String.eqb_refl. simpl.
    unfold ListView.totalPages. simpl. repeat split; lia.
Qed.

(** Thirty contacts on page 3 of 3; with 25 to a page there are two pages
    and Next brings the view from page 3 to page 2. *)
Lemma X3_previous_and_next_stay_in_range_witness :
  let s := ContactTable.run codeUnitCompare
             [ContactTable.Fetched (numbered "contact_name" 30);
              ContactTable.SelectPageSize 10;
              ContactTable.ClickNext; ContactTable.ClickNext;
              ContactTable.SelectPageSize 25]
             ContactTable.initial in
  let next := ContactTable.step codeUnitCompare ContactTable.ClickNext s in
  (1 <= ContactTable.totalPages s
   /\ ContactTable.totalPages s <= ContactTable.currentPage s)
  /\ ContactTable.currentPage s = 3
  /\ ContactTable.currentPage next = ContactTable.totalPages s.
Proof.
  intros s next. split; [by vm_compute|]. split; [by vm_compute|].
  apply (proj1 X3_previous_and_next_stay_in_range codeUnitCompare s);
    by vm_compute.
Defined.

(** ** Selection *)

Lemma list_includes_app (l : list string) (x y : string) :
  list_includes (l ++ [y])%list x = list_includes l x || String.eqb x y.
Proof.
  unfold list_includes. rewrite existsb_app. simpl. by rewrite orb_false_r.
Qed.

Lemma list_includes_remove (l : list string) (x y : string) :
  list_includes (List.filter (fun id => negb (String.eqb id y)) l) x
  = list_includes l x && negb (String.eqb x y).
Proof.
  unfold list_includes. induction l as [|z l IH]; simpl; [done|].
  destruct (String.eqb_spec z y) as [->|Hzy]; simpl.
  - rewrite IH. destruct (String.eqb_spec x y); simpl; [|done].
    by rewrite andb_false_r.
  - rewrite IH. destruct (String.eqb_spec x z) as [->|]; simpl; [|done].
    by rewrite (string_eqb_false _ _ Hzy).
Qed.

Lemma remove_absent (l : list string) (y : string) :
  y ∉ l -> List.filter (fun id => negb (String.eqb id y)) l = l.
Proof.
  induction l as [|z l IH]; simpl; [done|]. intros H.
  apply not_elem_of_cons in H as [Hyz Hl].
  rewrite (string_eqb_false z y) by congruence. simpl. by rewrite IH.
Qed.

Lemma toggle_row_spec (selected : list string) (id : string)
    (checked : bool) (other : string) :
  let selected' := ContactTable.handleSelectContact selected id checked in
  list_includes selected' id = checked
  /\ (other <> id ->
      list_includes selected' other = list_includes selected other).
Proof.
  unfold ContactTable.handleSelectContact. destruct checked; simpl.
  - rewrite !list_includes_app, String.eqb_refl, orb_true_r. split; [done|].
    intros H. by rewrite (string_eqb_false _ _ H), orb_false_r.
  - rewrite !list_includes_remove, String.eqb_refl. simpl.
    rewrite andb_false_r. split; [done|].
    intros H. by rewrite (string_eqb_false _ _ H), andb_true_r.
Qed.

(** X4.  The row checkboxes of Contacts, Meetings and Deals.  After a row
    is ticked or unticked its checkbox shows that state, and the checkbox
    of every other row shows what it showed before.  Unticking a row that
    has just been ticked gives back the selection there was, when the row
    was not in it. *)
Theorem X4_row_checkbox :
  (forall selected id checked other,
     let selected' := ContactTable.handleSelectContact selected id checked in
     list_includes selected' id = checked
     /\ (other <> id ->
         list_includes selected' other = list_includes selected other))
  /\ (forall selected id,
        id ∉ selected ->
        ContactTable.handleSelectContact
          (ContactTable.handleSelectContact selected id true) id false
        = selected)
  /\ (forall s id checked other,
        let s' := Meetings.handleSelectMeeting id checked s in
        list_includes (Meetings.selectedMeetings s') id = checked
        /\ (other <> id ->
            list_includes (Meetings.selectedMeetings s') other
            = list_includes (Meetings.selectedMeetings s) other)
        /\ Meetings.paginatedMeetings s' = Meetings.paginatedMeetings s)
  /\ (forall s id checked other,
        let s' := ListView.handleSelectDeal id checked s in
        bool_decide (id ∈ ListView.selectedDeals s') = checked
        /\ (other <> id ->
            bool_decide (other ∈ ListView.selectedDeals s')
            = bool_decide (other ∈ ListView.selectedDeals s))
        /\ ListView.currentPage s' = ListView.currentPage s).
Proof.
  split; [|split; [|split]].
  - apply toggle_row_spec.
  - intros selected id H. unfold ContactTable.handleSelectContact.
    rewrite List.filter_app. simpl. rewrite String.eqb_refl. simpl.
    by rewrite app_nil_r, remove_absent.
  - intros s id checked other. simpl.
    pose proof (toggle_row_spec (Meetings.selectedMeetings s) id checked
                  other) as [H1 H2].
    unfold Meetings.handleSelectMeeting, ContactTable.handleSelectContact in *.
    by destruct checked.
  - intros s id checked other. simpl.
    unfold ListView.handleSelectDeal. destruct checked; simpl.
    + split.
      { apply bool_decide_eq_true, elem_of_union. left.
        by apply elem_of_singleton. }
      split; [|done]. intros H. apply bool_decide_ext.
      rewrite elem_of_union, elem_of_singleton. tauto.
    + split.
      { apply bool_decide_eq_false. rewrite elem_of_difference.
        rewrite elem_of_singleton. tauto. }
      split; [|done]. intros H. apply bool_decide_ext.
      rewrite elem_of_difference, elem_of_singleton. tauto.
Qed.

(** Contacts ["a"] and ["b"] selected; ["c"] is ticked and unticked
    again. *)
Lemma X4_row_checkbox_witness :
  ("c" ∉ ["a"; "b"])
  /\ "a" <> "c"
  /\ list_includes (ContactTable.handleSelectContact ["a"; "b"] "c" true) "a"
     = list_includes ["a"; "b"] "a"
  /\ ContactTable.handleSelectContact
       (ContactTable.handleSelectContact ["a"; "b"] "c" true) "c" false
     = ["a"; "b"].
Proof.
  assert ("c" ∉ ["a"; "b"]) as H
    by (apply (bool_decide_unpack _); by vm_compute).
  split; [exact H|]. split; [done|]. split.
  - by apply (proj1 X4_row_checkbox ["a"; "b"] "c" true "a").
  - by apply (proj1 (proj2 X4_row_checkbox) ["a"; "b"] "c").
Defined.

Lemma select_all_length (page : list (gmap string jsval)) :
  Z.of_nat (length (map id_of (slice page 0 50)))
  = Z.min (Z.of_nat (length page)) 50.
Proof.
  rewrite length_map.
  pose proof (slice_window_exact page 0 50 ltac:(lia) ltac:(lia)) as H.
  change (0 + 50) with 50 in H. rewrite H. lia.
Qed.

Lemma count_checked_after_select_all (page : list (gmap string jsval)) :
  let selected := map id_of (slice page 0 50) in
  ((0 <? Z.of_nat (length selected))
   && (Z.of_nat (length selected) =? Z.min (Z.of_nat (length page)) 50) = true
   <-> page <> []).
Proof.
  simpl. rewrite count_header_checked, select_all_length.
  rewrite <- !length_pos_nonempty, select_all_length. lia.
Qed.

Lemma all_ids_included (page : list (gmap string jsval)) :
  forallb (fun m => list_includes (map id_of page) (id_of m)) page = true.
Proof.
  apply forallb_forall. intros m Hm. apply list_includes_spec.
  apply list_elem_of_fmap. exists m. split; [done|]. by apply list_elem_of_In.
Qed.

Lemma nothing_included (page : list (gmap string jsval)) :
  existsb (fun m => list_includes [] (id_of m)) page = false.
Proof. by induction page. Qed.

(** X5.  Select-all and the header checkbox.  In Contacts, Leads, Accounts
    and Meetings, after a checked select-all the header checkbox is checked
    exactly when the page has rows; after an unchecked select-all it is not
    checked.  In Meetings the partial mark is off in both cases. *)
Theorem X5_header_follows_select_all :
  (forall page,
     (ContactTable.headerChecked (ContactTable.handleSelectAll page true) page
      = true <-> page <> [])
     /\ ContactTable.headerChecked (ContactTable.handleSelectAll page false)
          page = false)
  /\ (forall page,
        (LeadTable.headerChecked (LeadTable.handleSelectAll page true) page
         = true <-> page <> [])
        /\ LeadTable.headerChecked (LeadTable.handleSelectAll page false) page
           = false)
  /\ (forall page,
        (AccountTable.headerChecked (AccountTable.handleSelectAll page true)
           page = true <-> page <> [])
        /\ AccountTable.headerChecked
             (AccountTable.handleSelectAll page false) page = false)
  /\ (forall s,
        (Meetings.isAllSelected (Meetings.handleSelectAll true s) = true
         <-> Meetings.paginatedMeetings s <> [])
        /\ Meetings.isSomeSelected (Meetings.handleSelectAll true s) = false
        /\ Meetings.isAllSelected (Meetings.handleSelectAll false s) = false
        /\ Meetings.isSomeSelected (Meetings.handleSelectAll false s) = false).
Proof.
  split; [|split; [|split]].
  - intros page. split; [apply count_checked_after_select_all | done].
  - intros page. split; [apply count_checked_after_select_all | done].
  - intros page. split; [apply count_checked_after_select_all | done].
  - intros s.
    assert (Meetings.isAllSelected (Meetings.handleSelectAll true s)
            = (0 <? Z.of_nat (length (Meetings.paginatedMeetings s)))) as Hall.
    { unfold Meetings.isAllSelected. simpl.
      change (Meetings.paginatedMeetings (Meetings.setSelectedMeetings _ s))
        with (Meetings.paginatedMeetings s).
      by rewrite all_ids_included, andb_true_r. }
    split; [|split; [|split]].
    + rewrite Hall, Z.ltb_lt. apply length_pos_nonempty.
    + unfold Meetings.isSomeSelected. rewrite Hall. simpl.
      change (Meetings.paginatedMeetings (Meetings.setSelectedMeetings _ s))
        with (Meetings.paginatedMeetings s).
      destruct (Meetings.paginatedMeetings s) as [|m page]; [done|].
      simpl. by rewrite andb_false_r.
    + unfold Meetings.isAllSelected. simpl.
      change (Meetings.paginatedMeetings (Meetings.setSelectedMeetings _ s))
        with (Meetings.paginatedMeetings s).
      by destruct (Meetings.paginatedMeetings s).
    + unfold Meetings.isSomeSelected. simpl.
      change (Meetings.paginatedMeetings (Meetings.setSelectedMeetings _ s))
        with (Meetings.paginatedMeetings s).
      by rewrite nothing_included.
Qed.

Lemma forallb_false_exists {A : Type} (f : A -> bool) (l : list A) :
  forallb f l = false <-> exists x, x ∈ l /\ f x = false.
Proof.
  induction l as [|a l IH]; simpl.
  - split; [done|]. intros (x & Hx & _). by apply elem_of_nil in Hx.
  - rewrite andb_false_iff, IH. split.
    + intros [H|(x & Hx & Hf)].
      * exists a. split; [left|done].
      * exists x. split; [by right|done].
    + intros (x & Hx & Hf). apply elem_of_cons in Hx as [->|Hx].
      * by left.
      * right. by exists x.
Qed.

(** X6.  The partial mark of the Meetings header checkbox.  It is on
    exactly when some row of the page is selected and some row of the page
    is not; it is never on together with [isAllSelected]. *)
Theorem X6_partial_selection_mark :
  forall s,
    (Meetings.isSomeSelected s = true
     <-> (exists m, m ∈ Meetings.paginatedMeetings s
                    /\ id_of m ∈ Meetings.selectedMeetings s)
         /\ (exists m, m ∈ Meetings.paginatedMeetings s
                       /\ id_of m ∉ Meetings.selectedMeetings s))
    /\ Meetings.isSomeSelected s && Meetings.isAllSelected s = false.
Proof.
  intros s. split.
  - unfold Meetings.isSomeSelected, Meetings.isAllSelected.
    rewrite andb_true_iff, negb_true_iff, existsb_exists.
    split.
    + intros [(m & Hm & Hsel) Hnot]. split.
      * exists m. split; [by apply list_elem_of_In|].
        by apply list_includes_spec.
      * apply andb_false_iff in Hnot as [Hnot | Hnot].
        { apply Z.ltb_ge in Hnot.
          destruct (Meetings.paginatedMeetings s); [done|]. simpl in Hnot.
          lia. }
        apply forallb_false_exists in Hnot as (x & Hx & Hf).
        exists x. split; [done|]. intros Hin.
        apply list_includes_spec in Hin. congruence.
    + intros [(m & Hm & Hsel) (x & Hx & Hnot)]. split.
      * exists m. split; [by apply list_elem_of_In|].
        by apply list_includes_spec.
      * apply andb_false_iff. right. apply forallb_false_exists.
        exists x. split; [done|].
        destruct (list_includes _ _) eqn:E; [|done].
        by apply list_includes_spec in E.
  - unfold Meetings.isSomeSelected.
    by destruct (Meetings.isAllSelected s); rewrite ?andb_false_r.
Qed.

(** Two meetings on the page, one of them selected: the partial mark is
    on. *)
Lemma X6_partial_selection_mark_witness :
  let rows : list (gmap string jsval) :=
    [ <[ "id" := VStr "m1" ]> {[ "subject" := VStr "Kickoff" ]};
      <[ "id" := VStr "m2" ]> {[ "subject" := VStr "Review" ]} ] in
  let s := Meetings.run (fun m => to_string (get m "status"))
             (fun _ => None) (fun _ => None)
             [Meetings.Fetched rows; Meetings.ToggleRow "m2" true]
             (Meetings.initial "all") in
  Meetings.isSomeSelected s = true
  /\ exists m, m ∈ Meetings.paginatedMeetings s
               /\ id_of m ∉ Meetings.selectedMeetings s.
Proof.
  intros rows s.
  assert (Meetings.isSomeSelected s = true) as H by (by vm_compute).
  split; [exact H|].
  by apply (proj1 (proj1 (X6_partial_selection_mark s)) H).
Defined.

(** X7.  The Deals list after a checked select-all, the deals having
    distinct identifiers: the header checkbox is checked exactly when the
    page shows every filtered deal and there is one; with more filtered
    deals than the page shows, it is not checked. *)
Theorem X7_deals_header_after_select_all :
  forall deals s,
    NoDup (map id_of deals) ->
    let s' := ListView.handleSelectAll deals true s in
    let page := ListView.paginatedDeals deals s' in
    (ListView.headerChecked page s' = true
     <-> page <> [] /\ length page = length deals)
    /\ (length page < length deals -> ListView.headerChecked page s' = false)%nat.
Proof.
  intros deals s Hnd. simpl.
  set (page := ListView.paginatedDeals deals _).
  assert (size (list_to_set (map id_of deals) : gset string) = length deals)
    as Hsize by (by rewrite size_list_to_set, length_map).
  assert (ListView.headerChecked page (ListView.handleSelectAll deals true s)
          = true <-> page <> [] /\ length page = length deals) as H.
  { unfold ListView.headerChecked. simpl. rewrite Hsize.
    rewrite andb_true_iff, Z.eqb_eq, Z.ltb_lt, length_pos_nonempty.
    rewrite Nat2Z.inj_iff. split; intros [? ?]; by split. }
  split; [exact H|]. intros Hlt.
  destruct (ListView.headerChecked _ _); [|done].
  destruct (proj1 H eq_refl) as [_ E]. lia.
Qed.

(** Fifty-one deals, 25 to a page: after select-all the header checkbox is
    not checked. *)
Lemma X7_deals_header_after_select_all_witness :
  let deals := numbered "project_name" 51 in
  let s' := ListView.handleSelectAll deals true ListView.initial in
  let page := ListView.paginatedDeals deals s' in
  (length page < length deals)%nat
  /\ ListView.headerChecked page s' = false.
Proof.
  intros deals s' page.
  assert (length page < length deals)%nat as Hlt by (vm_compute; lia).
  split; [exact Hlt|].
  apply (proj2 (X7_deals_header_after_select_all deals ListView.initial
                  ltac:(apply (bool_decide_unpack _); by vm_compute))).
  exact Hlt.
Defined.

(** ** Deletes *)

Lemma without_nothing (w : world) (table column : string) :
  without w table column [] = rows_of w table.
Proof.
  unfold without. induction (rows_of w table) as [|r l IH]; simpl; [done|].
  unfold column_in at 1. destruct (get r column); simpl; by rewrite IH.
Qed.

(** X8.  A bulk delete with nothing selected.  In Contacts, Leads and
    Accounts it returns at once: no request, no toast, the backend as it
    was.  Meetings has no such guard: the delete request is issued, for
    an empty list of identifiers, and removes no row. *)
Theorem X8_bulk_delete_of_nothing :
  (forall w,
     ContactTable.handleBulkDelete [] w
     = (ContactTable.mkOutcome [] None, w))
  /\ (forall w deleteLinkedRecords,
        LeadTable.handleBulkDelete deleteLinkedRecords [] w
        = (LeadTable.mkOutcome [] None, w))
  /\ (forall w accounts,
        AccountTable.handleBulkDelete accounts [] w
        = (AccountTable.mkOutcome [] None, w))
  /\ (forall w,
        let r := Meetings.handleBulkDelete [] w in
        deletes w r.2 = [DeleteIn "meetings" "id" []]
        /\ forall t, rows_of r.2 t = rows_of w t).
Proof.
  split; [done|]. split; [done|]. split; [done|].
  intros w. simpl. unfold Meetings.handleBulkDelete. run_handler.
  destruct (failure w (DeleteIn "meetings" "id" [])) eqn:E; simpl.
  - read_log. by split.
  - read_log. split; [done|]. intros t.
    destruct (decide (t = "meetings")) as [->|Ht].
    + rewrite rows_of_insert. apply (without_nothing w "meetings" "id").
    + by apply rows_of_insert_ne.
Qed.

(** X9.  The single delete of a lead.  Without a lead awaiting deletion,
    or with one that has no identifier, it shows the fixed error toast and
    issues no request.  With [deleteLinkedRecords] set, an error of the
    delete of the lead's action items ends the handler: that request is
    the last one issued, the lead stays in its table and stays the one
    awaiting deletion, and the error is shown.  When every request is
    answered the dependent records go first and the lead after them, in
    the order given; the lead and its action items leave their tables and
    the dialog is closed. *)
Theorem X9_lead_delete :
  (forall w deleteLinkedRecords leadToDelete dialog,
     match leadToDelete with
     | Some lead => truthy (get lead "id") = false
     | None => True
     end ->
     LeadTable.handleDelete deleteLinkedRecords leadToDelete dialog w
     = (LeadTable.mkDeleteOutcome leadToDelete dialog
          (mkToast "Error" "No lead selected for deletion" true), w))
  /\ (forall w lead dialog message,
        truthy (get lead "id") = true ->
        let id := id_of lead in
        failure w (DeleteEq "lead_action_items" "lead_id" id)
        = Some message ->
        let r := LeadTable.handleDelete true (Some lead) dialog w in
        last (issued w r.2)
        = Some (DeleteEq "lead_action_items" "lead_id" id)
        /\ rows_of r.2 "leads" = rows_of w "leads"
        /\ rows_of r.2 "lead_action_items" = rows_of w "lead_action_items"
        /\ r.1 = LeadTable.mkDeleteOutcome (Some lead) dialog
                   (LeadTable.deleteFailed message))
  /\ (forall w lead dialog,
        truthy (get lead "id") = true ->
        (forall request, failure w request = None) ->
        let id := id_of lead in
        let r := LeadTable.handleDelete true (Some lead) dialog w in
        let ofLead column (row : gmap string jsval) :=
          strict_eq_str (get row column) id in
        let actionItemIds :=
          map id_of
            (List.filter (ofLead "lead_id") (rows_of w "lead_action_items")) in
        issued w r.2
        = ([DeleteEq "notifications" "lead_id" id;
            SelectEq "lead_action_items" "id" "lead_id" id None]
           ++ match actionItemIds with
              | [] => []
              | _ :: _ =>
                  [DeleteIn "notifications" "action_item_id" actionItemIds]
              end
           ++ [DeleteEq "lead_action_items" "lead_id" id;
               DeleteEq "leads" "id" id;
               AuditDelete "leads" [id];
               SelectAll "leads"])%list
        /\ rows_of r.2 "leads"
           = List.filter (fun row => negb (ofLead "id" row))
               (rows_of w "leads")
        /\ rows_of r.2 "lead_action_items"
           = List.filter (fun row => negb (ofLead "lead_id" row))
               (rows_of w "lead_action_items")
        /\ r.1 = LeadTable.mkDeleteOutcome None false
                   (mkToast "Success" "Lead deleted successfully" false)).
Proof.
  split; [|split].
  - intros w flag [lead|] dialog H; [|done].
    unfold LeadTable.handleDelete. by rewrite H.
  - intros w lead dialog message Hid id E. simpl.
    unfold LeadTable.handleDelete, LeadTable.deleteLinkedOf.
    rewrite Hid. simpl. fold id. run_handler.
    destruct (failure w (DeleteEq "notifications" "lead_id" id))
      eqn:E1; simpl;
      destruct (failure w (SelectEq "lead_action_items" "id" "lead_id" id
                             None)) eqn:E2; simpl;
      rewrite ?rows_of_insert_ne by done;
      try (destruct (take_limit None _) as [|item items] eqn:Eitems; simpl);
      split_on_answers w; simplify_eq; read_log;
      repeat split; try done;
      rewrite ?rows_of_insert_ne by done; try done;
      unfold rows_of; simpl; by rewrite ?lookup_insert_ne by done.
  - intros w lead dialog Hid Hok id. simpl.
    unfold LeadTable.handleDelete, LeadTable.deleteLinkedOf.
    rewrite Hid. simpl. fold id. run_handler.
    repeat (rewrite Hok; simpl). rewrite (rows_of_insert_ne w) by done.
    unfold take_limit.
    destruct (List.filter _ (rows_of w "lead_action_items"))
      as [|item items] eqn:Eitems; simpl;
      repeat (rewrite Hok; simpl); read_log;
      rewrite ?id_of_project, ?map_id_of_project;
      (split; [done|]);
      unfold rows_of; simpl;
      rewrite ?lookup_insert_eq, ?lookup_insert_ne by done; simpl;
      rewrite ?lookup_insert_eq, ?lookup_insert_ne by done; simpl;
      by rewrite ?lookup_insert_eq, ?lookup_insert_ne by done.
Qed.

(** Lead [l1] of the sample backend: its notification [n1] and its action
    item [t1] go first, then the lead.  When the delete of the action items
    is refused, the lead stays. *)
Lemma X9_lead_delete_witness :
  let lead : gmap string jsval := {[ "id" := VStr "l1" ]} in
  let deleted := LeadTable.handleDelete true (Some lead) true sampleWorld in
  let w := refusing "lead_action_items" "denied" in
  let failed := LeadTable.handleDelete true (Some lead) true w in
  (truthy (get lead "id") = true
   /\ (forall request, failure sampleWorld request = None)
   /\ issued sampleWorld deleted.2
      = [DeleteEq "notifications" "lead_id" "l1";
         SelectEq "lead_action_items" "id" "lead_id" "l1" None;
         DeleteIn "notifications" "action_item_id" ["t1"];
         DeleteEq "lead_action_items" "lead_id" "l1";
         DeleteEq "leads" "id" "l1";
         AuditDelete "leads" ["l1"];
         SelectAll "leads"]
   /\ map id_of (rows_of deleted.2 "leads") = ["l2"; "l3"])
  /\ (failure w (DeleteEq "lead_action_items" "lead_id" "l1")
      = Some "denied"
      /\ map id_of (rows_of failed.2 "leads") = ["l1"; "l2"; "l3"]
      /\ failed.1 = LeadTable.mkDeleteOutcome (Some lead) true
                      (LeadTable.deleteFailed "denied")).
Proof.
  intros lead deleted w failed. split.
  - split; [by vm_compute|]. split; [done|]. split; [|by vm_compute].
    etrans;
      [apply (proj1 (proj2 (proj2 X9_lead_delete) sampleWorld lead true
                       ltac:(by vm_compute) ltac:(done)))
      |by vm_compute].
  - split; [by vm_compute|]. split; [by vm_compute|].
    by apply (proj1 (proj2 X9_lead_delete) w lead true "denied").
Defined.

(** X10.  A bulk delete of leads with [deleteLinkedRecords] off issues one
    delete request, for the selected leads, and leaves the notifications
    and the action items as they were. *)
Theorem X10_leads_only :
  forall w selected,
    selected <> [] ->
    let r := LeadTable.handleBulkDelete false selected w in
    deletes w r.2 = [DeleteIn "leads" "id" selected]
    /\ rows_of r.2 "notifications" = rows_of w "notifications"
    /\ rows_of r.2 "lead_action_items" = rows_of w "lead_action_items"
    /\ (failure w (DeleteIn "leads" "id" selected) = None ->
        rows_of r.2 "leads" = without w "leads" "id" selected).
Proof.
  intros w selected H. simpl. unfold LeadTable.handleBulkDelete.
  rewrite (nonempty_length_eqb _ H). run_handler.
  split_on_answers w; read_log; repeat split; try done;
    try (by apply rows_of_insert_ne); try (intros _; apply rows_of_insert).
Qed.

Lemma X10_leads_only_witness :
  let r := LeadTable.handleBulkDelete false ["l1"; "l3"] sampleWorld in
  ["l1"; "l3"] <> []
  /\ deletes sampleWorld r.2 = [DeleteIn "leads" "id" ["l1"; "l3"]]
  /\ map id_of (rows_of r.2 "lead_action_items") = ["t1"; "t2"]
  /\ map id_of (rows_of r.2 "leads") = ["l2"].
Proof.
  split; [done|].
  split; [by apply (X10_leads_only sampleWorld ["l1"; "l3"])|].
  by vm_compute.
Defined.

(** X11.  The single delete of a contact and of a meeting issues one
    delete request, for the row.  When it reports an error nothing else is
    requested, the tables stay as they were and the toast is the fixed
    failure message.  When it is carried out the row leaves its table, no
    other table changes, and the collection is fetched again; for a
    contact the audit entry is written in between. *)
Theorem X11_single_delete :
  (forall w id,
     let r := ContactTable.handleDelete id w in
     let request := DeleteEq "contacts" "id" id in
     deletes w r.2 = [request]
     /\ (failure w request <> None ->
         issued w r.2 = [request] /\ tables r.2 = tables w
         /\ r.1 = mkToast "Error" "Failed to delete contact" true)
     /\ (failure w request = None ->
         rows_of r.2 "contacts"
         = List.filter (fun c => negb (strict_eq_str (get c "id") id))
             (rows_of w "contacts")
         /\ (forall t, t <> "contacts" -> rows_of r.2 t = rows_of w t)
         /\ (failure w (AuditDelete "contacts" [id]) = None ->
             issued w r.2
             = [request; AuditDelete "contacts" [id]; SelectAll "contacts"]
             /\ r.1 = mkToast "Success" "Contact deleted successfully"
                        false)))
  /\ (forall w id,
        let r := Meetings.handleDelete id w in
        let request := DeleteEq "meetings" "id" id in
        deletes w r.2 = [request]
        /\ (failure w request <> None ->
            issued w r.2 = [request] /\ tables r.2 = tables w
            /\ r.1 = mkToast "Error" "Failed to delete meeting" true)
        /\ (failure w request = None ->
            rows_of r.2 "meetings"
            = List.filter (fun m => negb (strict_eq_str (get m "id") id))
                (rows_of w "meetings")
            /\ (forall t, t <> "meetings" -> rows_of r.2 t = rows_of w t)
            /\ issued w r.2 = [request; SelectAll "meetings"]
            /\ r.1 = mkToast "Success" "Meeting deleted successfully" false)).
Proof.
  split.
  - intros w id. simpl. unfold ContactTable.handleDelete. run_handler.
    split_on_answers w; read_log; unfold issued; simpl;
      rewrite <- ?app_assoc, ?drop_app_length; simpl;
      repeat split; try done;
      try (apply rows_of_insert);
      try (intros t Ht; by apply rows_of_insert_ne).
  - intros w id. simpl. unfold Meetings.handleDelete. run_handler.
    split_on_answers w; read_log; unfold issued; simpl;
      rewrite <- ?app_assoc, ?drop_app_length; simpl;
      repeat split; try done;
      try (apply rows_of_insert);
      try (intros t Ht; by apply rows_of_insert_ne).
Qed.

Lemma X11_single_delete_witness :
  let r := ContactTable.handleDelete "c2" sampleWorld in
  failure sampleWorld (DeleteEq "contacts" "id" "c2") = None
  /\ map id_of (rows_of r.2 "contacts") = ["c1"; "c3"]
  /\ rows_of r.2 "contacts"
     = List.filter (fun c => negb (strict_eq_str (get c "id") "c2"))
         (rows_of sampleWorld "contacts").
Proof.
  split; [done|]. split; [by vm_compute|].
  by apply (proj1 X11_single_delete sampleWorld "c2").
Defined.

(** X12.  The single delete of an account, for every pattern of answers.
    It does nothing without an account awaiting deletion.  Otherwise the
    delete is refused exactly when a link query that is answered finds a
    contact or a lead of the account: a link query that reports an error
    counts as finding none.  When not refused, the one delete request is
    for the account; carried out, it removes the account from its table
    and nothing else, and once the audit entry is written the dialog is
    closed; refused by the backend, it leaves the tables, the account
    awaiting deletion and the dialog as they were. *)
Theorem X12_account_delete :
  (forall w dialog,
     AccountTable.handleDelete None dialog w
     = (AccountTable.mkDeleteOutcome None dialog None, w))
  /\ (forall w account dialog,
        truthy (get account "id") = true ->
        let id := id_of account in
        let query table := SelectEq table "id" "account_id" id (Some 1%nat) in
        let request := DeleteEq "accounts" "id" id in
        let r := AccountTable.handleDelete (Some account) dialog w in
        if seenLink w query "contacts" id || seenLink w query "leads" id
        then deletes w r.2 = []
             /\ tables r.2 = tables w
             /\ r.1 = AccountTable.mkDeleteOutcome (Some account) false
                        (Some AccountTable.cannotDeleteLinked)
        else deletes w r.2 = [request]
             /\ (failure w request = None ->
                 rows_of r.2 "accounts"
                 = List.filter
                     (fun a => negb (strict_eq_str (get a "id") id))
                     (rows_of w "accounts")
                 /\ (forall t, t <> "accounts" -> rows_of r.2 t = rows_of w t)
                 /\ (failure w (AuditDelete "accounts" [id]) = None ->
                     r.1 = AccountTable.mkDeleteOutcome None false
                             (Some (mkToast "Success"
                                      "Account deleted successfully" false))))
             /\ (failure w request <> None ->
                 tables r.2 = tables w
                 /\ AccountTable.accountToDelete' r.1 = Some account
                 /\ AccountTable.showDeleteDialog' r.1 = dialog)).
Proof.
  split; [done|].
  intros w account dialog Hid id query request. simpl.
  unfold AccountTable.handleDelete. rewrite Hid. simpl. fold id.
  unfold seenLink, answered, query, request. run_handler.
  destruct (failure w (SelectEq "contacts" "id" "account_id" id
                         (Some 1%nat))) eqn:E1; simpl;
    destruct (failure w (SelectEq "leads" "id" "account_id" id
                           (Some 1%nat))) eqn:E2; simpl;
    rewrite ?nonEmptyData_first;
    change (existsb _ (rows_of _ "contacts")) with (has_link w "contacts" id);
    change (existsb _ (rows_of _ "leads")) with (has_link w "leads" id);
    try (destruct (has_link w "contacts" id); simpl);
    try (destruct (has_link w "leads" id); simpl);
    split_on_answers w; read_log;
    repeat split; try done;
    try (apply rows_of_insert);
    try (intros t Ht; by apply rows_of_insert_ne).
Qed.

(** Account [C] of the sample backend has no contact and no lead: it is
    deleted.  Account [A] has a contact, yet when the query for contacts
    reports an error the delete goes ahead. *)
Lemma X12_account_delete_witness :
  let C : gmap string jsval := {[ "id" := VStr "C" ]} in
  let A : gmap string jsval := {[ "id" := VStr "A" ]} in
  let w := unanswered "contacts" in
  let accepted := AccountTable.handleDelete (Some C) true sampleWorld in
  let unseen := AccountTable.handleDelete (Some A) true w in
  (truthy (get C "id") = true
   /\ deletes sampleWorld accepted.2 = [DeleteEq "accounts" "id" "C"]
   /\ map id_of (rows_of accepted.2 "accounts") = ["A"; "B"])
  /\ (truthy (get A "id") = true
      /\ has_link w "contacts" "A" = true
      /\ deletes w unseen.2 = [DeleteEq "accounts" "id" "A"]
      /\ map id_of (rows_of unseen.2 "accounts") = ["B"; "C"]).
Proof.
  intros C A w accepted unseen. split.
  - split; [by vm_compute|]. split; [|by vm_compute].
    by apply (proj2 X12_account_delete sampleWorld C true).
  - split; [by vm_compute|]. split; [by vm_compute|].
    split; [|by vm_compute].
    by apply (proj2 X12_account_delete w A true).
Defined.

Lemma linkedAccountIds_none (id : string) :
  id ∈ AccountTable.linkedAccountIds None <-> false = true.
Proof.
  unfold AccountTable.linkedAccountIds. simpl. split; [|done].
  by intros H%elem_of_nil.
Qed.

(** The selected accounts the bulk delete keeps back, given what the two
    link queries returned. *)
Lemma deletable_seen (selected : list string)
    (contacts leads : option (list (gmap string jsval)))
    (inContacts inLeads : string -> bool) :
  (forall id, id ∈ selected ->
     id ∈ AccountTable.linkedAccountIds contacts <-> inContacts id = true) ->
  (forall id, id ∈ selected ->
     id ∈ AccountTable.linkedAccountIds leads <-> inLeads id = true) ->
  List.filter
    (fun id =>
       negb (bool_decide
               (id ∈ (list_to_set
                        (AccountTable.linkedAccountIds contacts
                         ++ AccountTable.linkedAccountIds leads)%list
                      : gset string))))
    selected
  = List.filter (fun id => negb (inContacts id || inLeads id)) selected.
Proof.
  intros Hc Hl. apply filter_ext_in. intros id Hid. f_equal.
  apply list_elem_of_In in Hid.
  apply eq_true_iff_eq. rewrite bool_decide_eq_true.
  rewrite elem_of_list_to_set, elem_of_app, (Hc id Hid), (Hl id Hid).
  by rewrite orb_true_iff.
Qed.

Lemma select_in_links (w : world) (table : string)
    (selected : list string) :
  let query := SelectIn table "account_id" "account_id" selected in
  let r := select_in table "account_id" "account_id" selected w in
  r.2 = mkWorld (tables w) (log w ++ [query]) (failure w)
  /\ forall id, id ∈ selected ->
       id ∈ AccountTable.linkedAccountIds r.1
       <-> answered w query && has_link w table id = true.
Proof.
  simpl. unfold answered. run_handler.
  destruct (failure w (SelectIn table "account_id" "account_id" selected));
    simpl.
  - split; [done|]. intros id _. apply linkedAccountIds_none.
  - split; [done|]. intros id Hid. by apply linkedAccountIds_spec.
Qed.

Lemma filter_all {A : Type} (p : A -> bool) (l : list A) :
  (forall x, p x = true) -> List.filter p l = l.
Proof.
  intros H. induction l as [|x l IH]; simpl; [done|].
  by rewrite H, IH.
Qed.

(** X13.  The bulk delete of accounts, for every pattern of answers of
    the two link queries: the accounts deleted are the selected ones for
    which no answered link query returns a row.  A link query that reports
    an error holds no account back, so that with both queries failing the
    delete request is for the whole selection. *)
Theorem X13_account_bulk_delete :
  forall w accounts selected,
    selected <> [] ->
    let query table := SelectIn table "account_id" "account_id" selected in
    let r := AccountTable.handleBulkDelete accounts selected w in
    let deletable :=
      List.filter
        (fun id => negb (seenLink w query "contacts" id
                         || seenLink w query "leads" id))
        selected in
    deletes w r.2
    = match deletable with
      | [] => []
      | _ :: _ => [DeleteIn "accounts" "id" deletable]
      end
    /\ (deletable <> [] ->
        failure w (DeleteIn "accounts" "id" deletable) = None ->
        rows_of r.2 "accounts" = without w "accounts" "id" deletable)
    /\ (answered w (query "contacts") = false ->
        answered w (query "leads") = false ->
        deletable = selected).
Proof.
  intros w accounts selected H query. simpl.
  unfold AccountTable.handleBulkDelete.
  rewrite (nonempty_length_eqb _ H). unfold mbind, M_bind.
  pose proof (select_in_links w "contacts" selected) as Hc.
  destruct (select_in "contacts" "account_id" "account_id" selected w)
    as [contacts w1].
  simpl in Hc. destruct Hc as [-> Hc].
  match goal with
  | |- context [select_in "leads" _ _ selected ?w1] =>
      pose proof (select_in_links w1 "leads" selected) as Hl;
      destruct (select_in "leads" "account_id" "account_id" selected w1)
        as [leads w2]
  end.
  simpl in Hl. destruct Hl as [-> Hl].
  rewrite (deletable_seen selected contacts leads
             (seenLink w query "contacts") (seenLink w query "leads")
             Hc Hl).
  set (deletable := List.filter _ selected).
  assert (answered w (query "contacts") = false ->
          answered w (query "leads") = false -> deletable = selected)
    as Hall.
  { intros Ec El. apply filter_all. intros id. unfold seenLink.
    by rewrite Ec, El. }
  clearbody deletable.
  destruct deletable as [|d ds].
  - simpl. run_handler. read_log. split; [done|]. split; [done|exact Hall].
  - assert (d :: ds <> []) as Hne by done.
    remember (d :: ds) as del eqn:Edel.
    rewrite (nonempty_length_eqb del Hne). run_handler.
    destruct (failure w (DeleteIn "accounts" "id" del)) eqn:E3; simpl.
    + read_log. split; [by destruct del|]. split; [done|exact Hall].
    + match goal with
      | |- context [AccountTable.logDeletions accounts del ?w1] =>
          pose proof (logDeletions_run accounts del w1) as Hlog;
          destruct (AccountTable.logDeletions accounts del w1)
            as [thrown w2]
      end.
      simpl in Hlog. destruct Hlog as (Ht & Hf & (l & Hl' & Hd) & Hn).
      assert (rows_of w2 "accounts" = without w "accounts" "id" del)
        as Hrows.
      { unfold rows_of. rewrite Ht. by rewrite lookup_insert_eq. }
      destruct thrown as [message|]; simpl;
        unfold deletes, issued; simpl; rewrite Hl', <- !app_assoc;
        rewrite drop_app_length; simpl;
        rewrite ?List.filter_app, ?Hd; simpl;
        (split; [by destruct del|]); (split; [done|exact Hall]).
Qed.

(** Accounts [A], [B] and [C] selected, [A] with a contact and [B] with a
    lead.  With the query for contacts reporting an error, [A] is deleted
    along with [C]; [B] is held back by its lead. *)
Lemma X13_account_bulk_delete_witness :
  let selected := ["A"; "B"; "C"] in
  let w := unanswered "contacts" in
  let r :=
    AccountTable.handleBulkDelete (rows_of w "accounts") selected w in
  selected <> []
  /\ has_link w "contacts" "A" = true
  /\ deletes w r.2 = [DeleteIn "accounts" "id" ["A"; "C"]]
  /\ map id_of (rows_of r.2 "accounts") = ["B"].
Proof.
  intros selected w r. split; [done|]. split; [by vm_compute|].
  split; [|by vm_compute].
  by apply (X13_account_bulk_delete w (rows_of w "accounts") selected).
Defined.

(** X23.  What the bulk delete of accounts shows, for every pattern of
    answers.  The two link queries come first.  When every selected
    account is held back by a link that was seen, the toast says so, the
    selection and the tables stay.  When the delete request reports an
    error, the error is shown and the selection and the tables stay.
    When it is carried out, the handler shows either the summary and
    empties the selection, or, when an audit call throws, the error with
    the selection kept; with every audit call returning it is the
    summary.  The summary counts the accounts deleted and, when some were
    held back, the accounts skipped. *)
Theorem X23_account_bulk_delete_summary :
  forall w accounts selected,
    selected <> [] ->
    let query table := SelectIn table "account_id" "account_id" selected in
    let r := AccountTable.handleBulkDelete accounts selected w in
    let held id :=
      seenLink w query "contacts" id || seenLink w query "leads" id in
    let deletable := List.filter (fun id => negb (held id)) selected in
    let deleted := Z.of_nat (length deletable) in
    let skipped := Z.of_nat (length (List.filter held selected)) in
    let failed message :=
      AccountTable.mkOutcome selected
        (Some (mkToast "Error"
                 (message_or message "Failed to delete accounts") true)) in
    let summary :=
      AccountTable.mkOutcome []
        (Some (mkToast "Success"
                 (if 0 <? skipped
                  then "Deleted " ++ number_to_string deleted
                       ++ " accounts. " ++ number_to_string skipped
                       ++ " skipped (have linked records)."
                  else "Deleted " ++ number_to_string deleted
                       ++ " accounts successfully")
                 false)) in
    (exists rest,
       issued w r.2 = query "contacts" :: query "leads" :: rest)
    /\ (deletable = [] ->
        r.1 = AccountTable.mkOutcome selected
                (Some (mkToast "Cannot Delete"
                         "All selected accounts have linked contacts or leads."
                         true))
        /\ tables r.2 = tables w)
    /\ (forall message,
          deletable <> [] ->
          failure w (DeleteIn "accounts" "id" deletable) = Some message ->
          r.1 = failed message /\ tables r.2 = tables w)
    /\ (deletable <> [] ->
        failure w (DeleteIn "accounts" "id" deletable) = None ->
        (r.1 = summary \/ exists message, r.1 = failed message)
        /\ ((forall id, failure w (AuditDelete "accounts" [id]) = None) ->
            r.1 = summary)).
Proof.
  intros w accounts selected H query. simpl.
  unfold AccountTable.handleBulkDelete.
  rewrite (nonempty_length_eqb _ H). unfold mbind, M_bind.
  pose proof (select_in_links w "contacts" selected) as Hc.
  destruct (select_in "contacts" "account_id" "account_id" selected w)
    as [contacts w1].
  simpl in Hc. destruct Hc as [-> Hc].
  match goal with
  | |- context [select_in "leads" _ _ selected ?w1] =>
      pose proof (select_in_links w1 "leads" selected) as Hl;
      destruct (select_in "leads" "account_id" "account_id" selected w1)
        as [leads w2]
  end.
  simpl in Hl. destruct Hl as [-> Hl].
  rewrite (deletable_seen selected contacts leads
             (seenLink w query "contacts") (seenLink w query "leads")
             Hc Hl).
  pose proof (filter_length
                (fun id => seenLink w query "contacts" id
                           || seenLink w query "leads" id) selected)
    as Hcount.
  set (held := fun id => seenLink w query "contacts" id
                         || seenLink w query "leads" id) in *.
  change (List.filter (fun id => negb (seenLink w query "contacts" id
                                       || seenLink w query "leads" id))
            selected)
    with (List.filter (fun id => negb (held id)) selected) in *.
  assert (Z.of_nat (length selected)
          - Z.of_nat (length (List.filter (fun id => negb (held id))
                                selected))
          = Z.of_nat (length (List.filter held selected))) as ->.
  { unfold compose in Hcount. lia. }
  clear Hcount.
  remember (Z.of_nat (length (List.filter held selected))) as skipped
    eqn:Eskipped. clear Eskipped.
  remember (List.filter (fun id => negb (held id)) selected) as deletable
    eqn:Edeletable. clear Edeletable.
  destruct deletable as [|d ds].
  - simpl. run_handler. read_log.
    split; [eexists; reflexivity|]. by repeat split.
  - assert (d :: ds <> []) as Hne by done.
    remember (d :: ds) as del eqn:Edel. clear Edel.
    rewrite (nonempty_length_eqb del Hne). run_handler.
    destruct (failure w (DeleteIn "accounts" "id" del)) eqn:E3; simpl.
    + read_log. split; [eexists; reflexivity|].
      split; [done|]. split; [|done].
      intros message _ Hm. by injection Hm as <-.
    + match goal with
      | |- context [AccountTable.logDeletions accounts del ?w1] =>
          pose proof (logDeletions_run accounts del w1) as Hlog;
          destruct (AccountTable.logDeletions accounts del w1)
            as [thrown w2]
      end.
      simpl in Hlog. destruct Hlog as (Ht & Hf & (l & Hl' & Hd) & Hn).
      destruct thrown as [message|]; simpl;
        unfold issued; simpl; rewrite Hl', <- !app_assoc;
        rewrite drop_app_length; simpl;
        (split; [eexists; reflexivity|]);
        (split; [done|]); (split; [done|]); intros _ _.
      * split; [right; by exists message|].
        intros Hall. by specialize (Hn Hall).
      * unfold AccountTable.deletedSummary. split; [by left|done].
Qed.

(** Accounts [A], [B] and [C] of the sample backend selected, [A] with
    a contact and [B] with a lead: only [C] is deleted and the summary
    reads 1 deleted, 2 skipped. *)
Lemma X23_account_bulk_delete_summary_witness :
  let selected := ["A"; "B"; "C"] in
  let r :=
    AccountTable.handleBulkDelete (rows_of sampleWorld "accounts") selected
      sampleWorld in
  selected <> []
  /\ failure sampleWorld (DeleteIn "accounts" "id" ["C"]) = None
  /\ (forall id, failure sampleWorld (AuditDelete "accounts" [id]) = None)
  /\ map id_of (rows_of r.2 "accounts") = ["A"; "B"]
  /\ r.1 = AccountTable.mkOutcome []
             (Some (mkToast "Success"
                      "Deleted 1 accounts. 2 skipped (have linked records)."
                      false)).
Proof.
  intros selected r. split; [done|]. split; [done|]. split; [done|].
  split; [by vm_compute|].
  etrans;
    [apply (proj2 (proj2 (proj2 (proj2
              (X23_account_bulk_delete_summary sampleWorld
                 (rows_of sampleWorld "accounts") selected ltac:(done))))
              ltac:(by vm_compute) eq_refl)); done
    |by vm_compute].
Defined.

(** ** The filters *)

Lemma filter_filter_and {A : Type} (p q : A -> bool) (l : list A) :
  List.filter q (List.filter p l) = List.filter (fun x => p x && q x) l.
Proof.
  induction l as [|x l IH]; simpl; [done|].
  destruct (p x); simpl; [|done]. destruct (q x); by rewrite IH.
Qed.

Lemma Contact_filter_passes (localeCompare : string -> string -> Z)
    (s : ContactTable.state) :
  ContactTable.filterAndSort localeCompare s
  = let filtered := List.filter (Contact_passes s) (ContactTable.contacts s) in
    match ContactTable.sortField s with
    | Some field =>
        if String.eqb field "" then filtered
        else sort (ContactTable.compare localeCompare field
                     (ContactTable.sortDirection s)) filtered
    | None => filtered
    end.
Proof.
  unfold ContactTable.filterAndSort. simpl.
  match goal with
  | |- match _ with Some _ => if _ then ?l else sort _ ?l | None => ?l end
       = match _ with Some _ => if _ then ?r else sort _ ?r | None => ?r end =>
      assert (l = r) as ->; [|done]
  end.
  unfold Contact_passes.
  destruct (ContactTable.active (ContactTable.sourceFilter s));
    destruct (ContactTable.active (ContactTable.ownerFilter s));
    destruct (ContactTable.active (ContactTable.segmentFilter s));
    destruct (ContactTable.tagFilter s) as [tag|];
    try destruct (String.eqb tag "");
    rewrite ?filter_filter_and; apply filter_ext; intros c;
    by rewrite ?andb_true_r, ?andb_assoc.
Qed.

(** X14.  The filter effect of Contacts keeps the contacts that pass the
    search and every filter switched on, and no other row; it only
    reorders them, and without a sort column it keeps them in the order of
    [contacts]. *)
Theorem X14_contact_filters_conjoin :
  forall localeCompare s,
    let shown := ContactTable.filterAndSort localeCompare s in
    let passing := List.filter (Contact_passes s) (ContactTable.contacts s) in
    shown ≡ₚ passing
    /\ (forall c, c ∈ shown
                  <-> c ∈ ContactTable.contacts s /\ Contact_passes s c = true)
    /\ (ContactTable.sortField s = None -> shown = passing).
Proof.
  intros localeCompare s. simpl.
  assert (ContactTable.filterAndSort localeCompare s
          ≡ₚ List.filter (Contact_passes s) (ContactTable.contacts s))
    as Hperm.
  { rewrite Contact_filter_passes. simpl.
    destruct (ContactTable.sortField s) as [field|]; [|done].
    destruct (String.eqb field ""); [done|]. apply sort_perm. }
  split; [done|]. split.
  - intros c. rewrite Hperm, !list_elem_of_In. apply filter_In.
  - intros H. rewrite Contact_filter_passes. simpl. by rewrite H.
Qed.

(** With the owner filter on [u1], the contacts of [u1] are shown, in the
    order of the collection. *)
Lemma X14_contact_filters_conjoin_witness :
  let s := contactsFilteredBy "u1" "" in
  ContactTable.sortField s = None
  /\ map id_of (ContactTable.filterAndSort codeUnitCompare s) = ["c1"; "c3"]
  /\ ContactTable.filterAndSort codeUnitCompare s
     = List.filter (Contact_passes s) (ContactTable.contacts s).
Proof.
  intros s. split; [done|]. split; [by vm_compute|].
  by apply (X14_contact_filters_conjoin codeUnitCompare s).
Defined.

Lemma includes_empty (s : string) : includes s "" = true.
Proof. by destruct s. Qed.

(** With an empty search term a contact matches as soon as one of the
    searched properties holds a string. *)
Lemma Contact_named_matches (c : gmap string jsval) (name : string) :
  get c "contact_name" = VStr name ->
  ContactTable.matchesSearch "" c = true.
Proof.
  intros H. unfold ContactTable.matchesSearch. rewrite H. simpl.
  by rewrite includes_empty.
Qed.

Lemma Contact_runEffects_query (localeCompare : string -> string -> Z)
    (s0 s1 : ContactTable.state) :
  let r := ContactTable.runEffects localeCompare s0 s1 in
  ContactTable.contacts r = ContactTable.contacts s1
  /\ ContactTable.contactsRef r = ContactTable.contactsRef s1
  /\ ContactTable.searchTerm r = ContactTable.searchTerm s1
  /\ ContactTable.debouncedSearchTerm r = ContactTable.debouncedSearchTerm s1
  /\ ContactTable.sourceFilter r = ContactTable.sourceFilter s1
  /\ ContactTable.ownerFilter r = ContactTable.ownerFilter s1
  /\ ContactTable.segmentFilter r = ContactTable.segmentFilter s1
  /\ ContactTable.tagFilter r = ContactTable.tagFilter s1
  /\ ContactTable.sortField r = ContactTable.sortField s1
  /\ ContactTable.sortDirection r = ContactTable.sortDirection s1.
Proof.
  simpl. unfold ContactTable.runEffects.
  by destruct (ContactTable.filterDepsChanged s0 s1).
Qed.

Lemma Contact_clear_synced (localeCompare : string -> string -> Z)
    (s : ContactTable.state) :
  Contact_synced localeCompare s ->
  Contact_synced localeCompare
    (ContactTable.runEffects localeCompare s (ContactTable.clearAllFilters s)).
Proof.
  unfold Contact_synced, ContactTable.runEffects. intros Hs.
  destruct (ContactTable.filterDepsChanged _ _) eqn:Hdeps; [done|].
  change (ContactTable.filteredContacts (ContactTable.clearAllFilters s))
    with (ContactTable.filteredContacts s).
  rewrite Hs. symmetry.
  by apply Contact_filterAndSort_same_deps.
Qed.

(** X15.  Contacts: [clearAllFilters], once the debounce of the emptied
    search box has elapsed.  No filter is active any more, the sort is
    kept, and the rows shown are the contacts that the empty search
    matches, among them every contact with a name.  When a filter was
    active before, the view is back on page 1. *)
Theorem X15_clear_all_filters :
  forall localeCompare s,
    Contact_synced localeCompare s ->
    let cleared :=
      ContactTable.runEffects localeCompare s
        (ContactTable.clearAllFilters s) in
    let s' := ContactTable.step localeCompare ContactTable.DebounceElapsed
                cleared in
    ContactTable.hasActiveFilters s' = false
    /\ ContactTable.sortField s' = ContactTable.sortField s
    /\ ContactTable.sortDirection s' = ContactTable.sortDirection s
    /\ ContactTable.filteredContacts s'
       ≡ₚ List.filter (ContactTable.matchesSearch "") (ContactTable.contacts s)
    /\ (forall c name,
          c ∈ ContactTable.contacts s ->
          get c "contact_name" = VStr name ->
          c ∈ ContactTable.filteredContacts s')
    /\ (ContactTable.hasActiveFilters s = true ->
        ContactTable.currentPage s' = 1).
Proof.
  intros localeCompare s Hs cleared s'.
  pose proof (Contact_step_synced localeCompare ContactTable.DebounceElapsed
                cleared (Contact_clear_synced localeCompare s Hs)) as Hs'.
  fold s' in Hs'.
  pose proof (Contact_runEffects_query localeCompare s
                (ContactTable.clearAllFilters s)) as Hq.
  fold cleared in Hq. simpl in Hq.
  destruct Hq as (Hc & Hr & Hst & Hd & Hso & Ho & Hse & Ht & Hf & Hdir).
  pose proof (Contact_runEffects_query localeCompare cleared
                (ContactTable.handle ContactTable.DebounceElapsed cleared))
    as Hq'.
  change (ContactTable.runEffects localeCompare cleared
            (ContactTable.handle ContactTable.DebounceElapsed cleared))
    with s' in Hq'.
  simpl in Hq'. rewrite Hc, Hr, Hst, Hso, Ho, Hse, Ht, Hf, Hdir in Hq'.
  destruct Hq' as (Hc' & Hr' & Hst' & Hd' & Hso' & Ho' & Hse' & Ht' & Hf'
                   & Hdir').
  assert (List.filter (Contact_passes s') (ContactTable.contacts s')
          = List.filter (ContactTable.matchesSearch "")
              (ContactTable.contacts s)) as Hpass.
  { rewrite Hc'. apply filter_ext. intros c.
    unfold Contact_passes. rewrite Hd', Hso', Ho', Hse', Ht'. simpl.
    by rewrite !andb_true_r. }
  assert (ContactTable.filteredContacts s'
          ≡ₚ List.filter (ContactTable.matchesSearch "")
               (ContactTable.contacts s)) as Hperm.
  { rewrite Hs', Contact_filter_passes. simpl. rewrite Hpass.
    destruct (ContactTable.sortField s') as [field|]; [|done].
    destruct (String.eqb field ""); [done|]. apply sort_perm. }
  split; [|split; [done|split; [done|split; [done|split]]]].
  - unfold ContactTable.hasActiveFilters.
    by rewrite Hd', Hso', Ho', Hse', Ht'.
  - intros c name Hin Hname. rewrite Hperm.
    apply list_elem_of_In, filter_In. split; [by apply list_elem_of_In|].
    by apply (Contact_named_matches c name).
  - intros Hactive. unfold s', cleared, ContactTable.step.
    unfold ContactTable.runEffects at 2 3.
    destruct (ContactTable.filterDepsChanged s (ContactTable.clearAllFilters s))
      eqn:E1.
    { unfold ContactTable.runEffects.
      match goal with
      | |- context [if ?changed then _ else _] => by destruct changed
      end. }
    assert (ContactTable.filterDepsChanged (ContactTable.clearAllFilters s)
              (ContactTable.handle ContactTable.DebounceElapsed
                 (ContactTable.clearAllFilters s)) = true) as E2.
    { unfold ContactTable.filterDepsChanged, ContactTable.hasActiveFilters
        in *.
      destruct s; simpl in *.
      repeat (apply orb_false_elim in E1 as [E1 ?]).
      repeat match goal with
             | H : negb ?b = false |- _ =>
                 apply negb_false_iff in H; try rewrite H in Hactive
             end.
      simpl in Hactive. rewrite !orb_false_r in Hactive.
      rewrite Hactive. by rewrite orb_true_r. }
    unfold ContactTable.runEffects. by rewrite E2.
Qed.

(** The owner filter on [u1] and page 3 on display: after the reset all
    three contacts are shown, on page 1. *)
Lemma X15_clear_all_filters_witness :
  let s := contactsFilteredBy "u1" "" in
  let s' :=
    ContactTable.step codeUnitCompare ContactTable.DebounceElapsed
      (ContactTable.runEffects codeUnitCompare s
         (ContactTable.clearAllFilters s)) in
  Contact_synced codeUnitCompare s
  /\ ContactTable.hasActiveFilters s = true
  /\ map id_of (ContactTable.filteredContacts s) = ["c1"; "c3"]
  /\ map id_of (ContactTable.filteredContacts s') = ["c1"; "c2"; "c3"]
  /\ ContactTable.hasActiveFilters s' = false
  /\ ContactTable.currentPage s' = 1.
Proof.
  intros s s'.
  assert (Contact_synced codeUnitCompare s) as Hs by done.
  split; [done|]. split; [done|]. split; [by vm_compute|].
  split; [by vm_compute|].
  split; [by apply (X15_clear_all_filters codeUnitCompare s Hs)|].
  by apply (X15_clear_all_filters codeUnitCompare s Hs).
Defined.

Lemma filter_all_in {A : Type} (p : A -> bool) (l : list A) :
  (forall x, In x l -> p x = true) -> List.filter p l = l.
Proof.
  induction l as [|x l IH]; intros H; simpl; [done|].
  rewrite (H x) by (by left). rewrite IH; [done|].
  intros y Hy. apply H. by right.
Qed.

(** X16.  Clearing the filters of Tasks and of Meetings.  Afterwards no
    filter is active; the view is on page 1 when a filter was active and
    stays on its page otherwise.  When every task has a title, as the type
    of a task requires, the tasks listed are all the tasks, in their order
    (on a task without a title the code throws, which is outside the
    model).  The meetings listed are the ones the empty search matches.
    On the Meetings page the selection and the sort are left as they
    were. *)
Theorem X16_clear_filters :
  (forall tasks s,
     let s' := TaskListView.runEffects s (TaskListView.clearAllFilters s) in
     TaskListView.hasActiveFilters s' = false
     /\ TaskListView.currentPage s'
        = (if TaskListView.hasActiveFilters s then 1
           else TaskListView.currentPage s)
     /\ TaskListView.itemsPerPage s' = TaskListView.itemsPerPage s
     /\ ((forall task, In task tasks ->
                       exists title, get task "title" = VStr title) ->
         TaskListView.filteredTasks tasks s' = tasks))
  /\ (forall getMeetingStatus startOfDay minutesOfDay s,
        Meetings_synced getMeetingStatus startOfDay minutesOfDay s ->
        let s' := Meetings.runEffects getMeetingStatus startOfDay minutesOfDay
                    s (Meetings.handleClearAllFilters s) in
        Meetings.hasActiveFilters s' = false
        /\ Meetings.currentPage s'
           = (if Meetings.hasActiveFilters s then 1
              else Meetings.currentPage s)
        /\ Meetings.selectedMeetings s' = Meetings.selectedMeetings s
        /\ Meetings.sortColumn s' = Meetings.sortColumn s
        /\ Meetings.sortDirection s' = Meetings.sortDirection s
        /\ Meetings.filteredMeetings s'
           ≡ₚ List.filter
                (fun m =>
                   lower_includes (get m "subject") ""
                   || lower_includes (get m "lead_name") ""
                   || lower_includes (get m "contact_name") "")
                (Meetings.meetings s)).
Proof.
  split.
  - intros tasks s. simpl.
    assert (TaskListView.resetDepsChanged s (TaskListView.clearAllFilters s)
            = TaskListView.hasActiveFilters s) as Hdeps by done.
    unfold TaskListView.runEffects. rewrite Hdeps.
    split; [by destruct (TaskListView.hasActiveFilters s)|].
    split; [by destruct (TaskListView.hasActiveFilters s)|].
    split; [by destruct (TaskListView.hasActiveFilters s)|].
    intros Htitled.
    assert (TaskListView.searchTerm
              (if TaskListView.hasActiveFilters s
               then TaskListView.setCurrentPage 1
                      (TaskListView.clearAllFilters s)
               else TaskListView.clearAllFilters s) = ""
            /\ TaskListView.statusFilter
                 (if TaskListView.hasActiveFilters s
                  then TaskListView.setCurrentPage 1
                         (TaskListView.clearAllFilters s)
                  else TaskListView.clearAllFilters s) = "all"
            /\ TaskListView.priorityFilter
                 (if TaskListView.hasActiveFilters s
                  then TaskListView.setCurrentPage 1
                         (TaskListView.clearAllFilters s)
                  else TaskListView.clearAllFilters s) = "all"
            /\ TaskListView.assignedToFilter
                 (if TaskListView.hasActiveFilters s
                  then TaskListView.setCurrentPage 1
                         (TaskListView.clearAllFilters s)
                  else TaskListView.clearAllFilters s) = "all")
      as (H1 & H2 & H3 & H4)
      by (by destruct (TaskListView.hasActiveFilters s)).
    unfold TaskListView.filteredTasks.
    apply filter_all_in. intros task Hin.
    destruct (Htitled task Hin) as [title Htitle].
    rewrite H1, H2, H3, H4, Htitle. simpl. by rewrite includes_empty.
  - intros getMeetingStatus startOfDay minutesOfDay s Hs. simpl.
    assert (Meetings.memoDepsChanged s (Meetings.handleClearAllFilters s)
            = Meetings.hasActiveFilters s) as Hdeps.
    { unfold Meetings.memoDepsChanged, Meetings.hasActiveFilters. simpl.
      rewrite Nat.eqb_refl, (proj2 (Meetings_column_eqb_spec _ _) eq_refl).
      replace (direction_eqb _ _) with true
        by (by destruct (Meetings.sortDirection s)).
      simpl. rewrite !orb_false_r.
      destruct (String.eqb (Meetings.searchTerm s) "");
        destruct (String.eqb (Meetings.statusFilter s) "all");
        by destruct (String.eqb (Meetings.organizerFilter s) "all"). }
    assert (forall s0,
              Meetings.searchTerm s0 = "" ->
              Meetings.statusFilter s0 = "all" ->
              Meetings.organizerFilter s0 = "all" ->
              Meetings.meetings s0 = Meetings.meetings s ->
              Meetings.sortColumn s0 = Meetings.sortColumn s ->
              Meetings.sortedAndFilteredMeetings getMeetingStatus startOfDay
                minutesOfDay s0
              ≡ₚ List.filter
                   (fun m =>
                      lower_includes (get m "subject") ""
                      || lower_includes (get m "lead_name") ""
                      || lower_includes (get m "contact_name") "")
                   (Meetings.meetings s)) as Hshown.
    { intros s0 H1 H2 H3 H4 H5.
      unfold Meetings.sortedAndFilteredMeetings.
      assert (List.filter (Meetings.matches getMeetingStatus s0)
                (Meetings.meetings s0)
              = List.filter
                  (fun m =>
                     lower_includes (get m "subject") ""
                     || lower_includes (get m "lead_name") ""
                     || lower_includes (get m "contact_name") "")
                  (Meetings.meetings s)) as ->.
      { rewrite H4. apply filter_ext. intros m. unfold Meetings.matches.
        rewrite H1, H2, H3. simpl. by rewrite !andb_true_r. }
      destruct (Meetings.sortColumn s0); [apply sort_perm|done]. }
    unfold Meetings.runEffects. rewrite Hdeps.
    destruct (Meetings.hasActiveFilters s) eqn:Hactive; simpl.
    + repeat split; try done. by apply Hshown.
    + repeat split; try done.
      rewrite Hs.
      unfold Meetings.hasActiveFilters in Hactive.
      repeat (apply orb_false_elim in Hactive as [Hactive ?]).
      repeat match goal with
             | H : negb _ = false |- _ =>
                 apply negb_false_iff, String.eqb_eq in H
             end.
      by apply Hshown.
Qed.

(** Two meetings, the completed ones on display and meeting 2 selected:
    after the reset both meetings are listed and meeting 2 is still
    selected.  A task hidden by the search is listed after the reset of
    Tasks. *)
Lemma X16_clear_filters_witness :
  let status (m : gmap string jsval) := to_string (get m "status") in
  let unknown (v : jsval) : option Z := None in
  let rows : list (gmap string jsval) :=
    [ <["id" := VStr "1"]>
        (<["subject" := VStr "Kickoff"]> {["status" := VStr "scheduled"]});
      <["id" := VStr "2"]>
        (<["subject" := VStr "Review"]> {["status" := VStr "completed"]}) ] in
  let s := Meetings.run status unknown unknown
             [Meetings.Fetched rows; Meetings.SelectStatus "completed";
              Meetings.ToggleRow "2" true]
             (Meetings.initial "all") in
  let s' := Meetings.runEffects status unknown unknown s
              (Meetings.handleClearAllFilters s) in
  let task : gmap string jsval :=
    <["id" := VStr "t"]> {["title" := VStr "Call back"]} in
  let t := TaskListView.mkState "zzz" "open" "all" "all" 3 25 in
  let t' := TaskListView.runEffects t (TaskListView.clearAllFilters t) in
  (Meetings_synced status unknown unknown s
   /\ map id_of (Meetings.filteredMeetings s) = ["2"]
   /\ Meetings.hasActiveFilters s' = false
   /\ Meetings.selectedMeetings s' = ["2"]
   /\ length (Meetings.filteredMeetings s') = 2%nat)
  /\ ((forall task', In task' [task] ->
                      exists title, get task' "title" = VStr title)
      /\ TaskListView.filteredTasks [task] t = []
      /\ TaskListView.filteredTasks [task] t' = [task]).
Proof.
  intros status unknown rows s s' task t t'.
  assert (Meetings_synced status unknown unknown s) as Hs by done.
  split.
  - split; [done|]. split; [by vm_compute|].
    split; [by apply (proj2 X16_clear_filters status unknown unknown s Hs)|].
    split; [by vm_compute|].
    etrans;
      [apply Permutation_length,
         (proj2 X16_clear_filters status unknown unknown s Hs)
      |by vm_compute].
  - assert (forall task', In task' [task] ->
                       exists title, get task' "title" = VStr title)
      as Htitled.
    { intros task' [<-|[]]. exists "Call back". by vm_compute. }
    split; [exact Htitled|]. split; [by vm_compute|].
    exact (proj2 (proj2 (proj2 (proj1 X16_clear_filters [task] t))) Htitled).
Defined.

(** ** Tasks: the due date marks *)

(** X17.  [getDueDateInfo].  A task is marked overdue exactly when it has
    a due date, is neither completed nor cancelled, and the day of the due
    date lies before today; it is marked due today exactly when, under the
    same conditions, that day is today.  The two marks exclude each other,
    and the text is coloured exactly when one of them is set. *)
Theorem X17_due_date_marks :
  forall startOfDay today dueDate status,
    let info := TaskListView.getDueDateInfo startOfDay today dueDate status in
    let open :=
      truthy dueDate = true /\ status <> "completed"
      /\ status <> "cancelled" in
    (TaskListView.isOverdue info = true
     <-> open /\ exists day, startOfDay dueDate = Some day /\ day < today)
    /\ (TaskListView.isDueToday info = true
        <-> open /\ startOfDay dueDate = Some today)
    /\ TaskListView.isOverdue info && TaskListView.isDueToday info = false
    /\ (TaskListView.color info = ""
        <-> TaskListView.isOverdue info = false
            /\ TaskListView.isDueToday info = false).
Proof.
  intros startOfDay today dueDate status. simpl.
  unfold TaskListView.getDueDateInfo.
  destruct (truthy dueDate); simpl;
    [|by repeat split; try done; intros [[? _] _]].
  destruct (String.eqb_spec status "completed") as [->|Hc]; simpl;
    [by repeat split; try done; intros [(_ & ? & _) _]|].
  destruct (String.eqb_spec status "cancelled") as [->|Hx]; simpl;
    [by repeat split; try done; intros [(_ & _ & ?) _]|].
  destruct (startOfDay dueDate) as [day|]; simpl;
    [|by repeat split; try done; intros [_ H]; try destruct H as (? & ? & _)].
  destruct (Z.ltb_spec day today); simpl.
  - repeat split; try done.
    + by exists day.
    + intros [_ H']. injection H' as ->. lia.
    + by intros [? _].
  - destruct (Z.eqb_spec day today) as [->|Hne]; simpl.
    + repeat split; try done.
      * intros (_ & d & Hd & ?). injection Hd as ->. lia.
      * by intros [_ ?].
    + repeat split; try done.
      * intros (_ & d & Hd & ?). injection Hd as ->. lia.
      * intros [_ H']. by injection H' as ->.
Qed.

(** ** Accounts: the contact counts *)

Lemma contactCountMap_fold (inherited : string -> bool)
    (rows : list (gmap string jsval)) (acc : gmap string Z) (id : string) :
  inherited id = false ->
  default 0
    (fold_left
       (fun acc c =>
          if truthy (get c "account_id")
          then let key := to_string (get c "account_id") in
               if inherited key then acc
               else <[ key := default 0 (acc !! key) + 1 ]> acc
          else acc)
       rows acc !! id)
  = default 0 (acc !! id)
    + Z.of_nat (length (List.filter (refersTo id) rows)).
Proof.
  intros Hid. revert acc.
  induction rows as [|c rows IH]; intros acc; simpl; [lia|].
  rewrite IH. unfold refersTo at 2.
  destruct (truthy (get c "account_id")); simpl; [|done].
  destruct (String.eqb_spec (to_string (get c "account_id")) id) as [->|Hne].
  - rewrite Hid, lookup_insert_eq. simpl. lia.
  - destruct (inherited (to_string (get c "account_id"))); [done|].
    by rewrite lookup_insert_ne.
Qed.

(** X18.  The accounts [fetchAccounts] stores: one row per fetched
    account, in the same order, with the fetched properties.  For an
    account whose id is not the name of a property that the count object
    inherits, [contact_count] is the number of fetched contact rows that
    name the account; for an id that is such a name ([constructor],
    [toString], ...) it is not a number. *)
Theorem X18_contact_counts :
  forall inherited accountsData contactCounts,
    let stored :=
      AccountTable.accountsWithCounts inherited accountsData contactCounts in
    map fst stored = accountsData
    /\ forall i account,
         accountsData !! i = Some account ->
         stored !! i
         = Some (account,
                 if inherited (id_of account) then AccountTable.NotANumber
                 else AccountTable.Count
                        (Z.of_nat
                           (length (List.filter (refersTo (id_of account))
                                      contactCounts)))).
Proof.
  intros inherited accountsData contactCounts. simpl.
  unfold AccountTable.accountsWithCounts. split.
  - rewrite map_map. simpl. apply map_id.
  - intros i account Hi. rewrite list_lookup_fmap, Hi. simpl. f_equal.
    f_equal. unfold AccountTable.countFor. fold (id_of account).
    destruct (inherited (id_of account)) eqn:Hid; [done|]. f_equal.
    unfold AccountTable.contactCountMap.
    rewrite (contactCountMap_fold inherited _ _ _ Hid).
    by rewrite lookup_empty.
Qed.

(** Account [A] has one contact in the sample backend, account [C] none;
    an account called [constructor] gets no number. *)
Lemma X18_contact_counts_witness :
  let odd : gmap string jsval := {[ "id" := VStr "constructor" ]} in
  let fetched := (rows_of sampleWorld "accounts" ++ [odd])%list in
  let stored :=
    AccountTable.accountsWithCounts inheritedKey fetched
      (rows_of sampleWorld "contacts") in
  fetched !! 0%nat = Some ({[ "id" := VStr "A" ]} : gmap string jsval)
  /\ map snd stored
     = [AccountTable.Count 1; AccountTable.Count 0; AccountTable.Count 0;
        AccountTable.NotANumber]
  /\ stored !! 0%nat = Some ({[ "id" := VStr "A" ]}, AccountTable.Count 1).
Proof.
  intros odd fetched stored. split; [done|]. split; [by vm_compute|].
  etrans;
    [exact (proj2 (X18_contact_counts inheritedKey fetched
                     (rows_of sampleWorld "contacts"))
              0%nat {[ "id" := VStr "A" ]} eq_refl)
    |by vm_compute].
Defined.

(** ** Contacts: the avatar *)

Lemma char_code_sum_fold (l : list ascii) (acc : Z) :
  fold_left (fun acc char => acc + Z.of_nat (nat_of_ascii char)) l acc
  = acc + fold_left (fun acc char => acc + Z.of_nat (nat_of_ascii char)) l 0.
Proof.
  revert acc. induction l as [|c l IH]; intros acc; simpl; [lia|].
  rewrite IH, (IH (0 + _)). lia.
Qed.

Lemma char_code_sum_cons (c : ascii) (s : string) :
  char_code_sum (String c s) = Z.of_nat (nat_of_ascii c) + char_code_sum s.
Proof. unfold char_code_sum. simpl. by rewrite char_code_sum_fold. Qed.

Lemma char_code_sum_nonneg (s : string) : 0 <= char_code_sum s.
Proof.
  induction s as [|c s IH]; [done|]. rewrite char_code_sum_cons. lia.
Qed.

Lemma char_code_sum_app (a b : string) :
  char_code_sum (a ++ b) = char_code_sum a + char_code_sum b.
Proof.
  induction a as [|c a IH]; [done|].
  change (String c a ++ b) with (String c (a ++ b)).
  rewrite !char_code_sum_cons, IH. lia.
Qed.

Lemma append_length (a b : string) :
  String.length (a ++ b) = (String.length a + String.length b)%nat.
Proof. induction a as [|c a IH]; simpl; [done|]. by rewrite IH. Qed.

Lemma append_empty_r (s : string) : s ++ "" = s.
Proof.
  induction s as [|c s IH]; [done|].
  change (String c (s ++ "") = String c s). by rewrite IH.
Qed.

Lemma split_without_separator (sep : ascii) (s : string) :
  (forall c, In c (list_ascii_of_string s) -> c <> sep) ->
  split sep s = [s].
Proof.
  induction s as [|c s IH]; intros H; simpl; [done|].
  destruct (Ascii.eqb_spec c sep) as [->|_].
  - exfalso. by apply (H sep); [left|].
  - rewrite IH; [done|]. intros c' Hc'. apply H. by right.
Qed.

(** Two pieces of at most one character each make at most two
    characters. *)
Lemma concat_short (f : string -> string) (words : list string) :
  (length words <= 2)%nat ->
  (forall word, In word words -> (String.length (f word) <= 1)%nat) ->
  (String.length (concat_strings (map f words)) <= 2)%nat.
Proof.
  intros Hlen Hshort.
  destruct words as [|a [|b [|c words]]]; simpl in *; try lia.
  - rewrite append_length. simpl.
    pose proof (Hshort a ltac:(by left)). lia.
  - rewrite !append_length. simpl.
    pose proof (Hshort a ltac:(by left)).
    pose proof (Hshort b ltac:(right; by left)). lia.
Qed.

(** X19.  The avatar of a contact.  [getAvatarColor] always finds one of
    the eight colours, and the colour depends on the characters of the
    name only, not on their order.  [getContactInitials] are the first
    characters of the first two words, upper-cased by the host: at most
    two characters when upper-casing lengthens neither of them (the host
    lengthens some letters, so that there can be more), and for a name
    without a space the upper-cased first character. *)
Theorem X19_avatar :
  (forall name,
     exists colour,
       ContactTable.getAvatarColor name = Some colour
       /\ In colour ContactTable.avatarColors)
  /\ (forall first last,
        ContactTable.getAvatarColor (first ++ last)
        = ContactTable.getAvatarColor (last ++ first))
  /\ (forall toUpperCase name,
        (forall word,
           In word (slice (split " " name) 0 2) ->
           (String.length (toUpperCase (charAt0 word)) <= 1)%nat) ->
        (String.length (ContactTable.getContactInitials toUpperCase name)
         <= 2)%nat)
  /\ (forall toUpperCase name,
        (forall c, In c (list_ascii_of_string name) -> c <> " "%char) ->
        ContactTable.getContactInitials toUpperCase name
        = toUpperCase (charAt0 name)).
Proof.
  split; [|split; [|split]].
  - intros name. unfold ContactTable.getAvatarColor, index_of.
    pose proof (char_code_sum_nonneg name) as Hsum.
    change (Z.of_nat (length ContactTable.avatarColors)) with 8.
    pose proof (Z.mod_pos_bound (char_code_sum name) 8 ltac:(lia)) as Hi.
    destruct (Z.ltb_spec (char_code_sum name mod 8) 0) as [?|_]; [lia|].
    destruct (nth_error ContactTable.avatarColors
                (Z.to_nat (char_code_sum name mod 8))) as [colour|] eqn:E.
    + exists colour. split; [done|]. by apply nth_error_In in E.
    + apply nth_error_None in E. simpl in E. lia.
  - intros first last. unfold ContactTable.getAvatarColor.
    rewrite !char_code_sum_app. by rewrite Z.add_comm.
  - intros toUpperCase name Hshort.
    unfold ContactTable.getContactInitials.
    apply (concat_short (fun word => toUpperCase (charAt0 word)));
      [|exact Hshort].
    pose proof (slice_window_length (split " " name) 0 2 ltac:(lia)) as H.
    change (0 + 2) with 2 in H. lia.
  - intros toUpperCase name H. unfold ContactTable.getContactInitials.
    rewrite (split_without_separator _ _ H).
    change (slice [name] 0 2) with [name]. simpl.
    apply append_empty_r.
Qed.

(** With upper-casing on the ASCII letters, the initials of a name of
    three words are those of the first two. *)
Lemma X19_avatar_witness :
  (forall word,
     In word (slice (split " " "mary jane watson") 0 2) ->
     (String.length (asciiUpperCase (charAt0 word)) <= 1)%nat)
  /\ ContactTable.getContactInitials asciiUpperCase "mary jane watson" = "MJ"
  /\ (String.length
        (ContactTable.getContactInitials asciiUpperCase "mary jane watson")
      <= 2)%nat.
Proof.
  assert (forall word,
            In word (slice (split " " "mary jane watson") 0 2) ->
            (String.length (asciiUpperCase (charAt0 word)) <= 1)%nat) as H.
  { intros word Hw. vm_compute in Hw.
    destruct Hw as [<-|[<-|[]]]; vm_compute; lia. }
  split; [exact H|]. split; [by vm_compute|].
  exact (proj1 (proj2 (proj2 X19_avatar)) asciiUpperCase "mary jane watson" H).
Defined.

(** ** Deals: the count of active filters *)

Lemma nonEmpty_spec {A : Type} (l : list A) :
  0 <= ListView.nonEmpty l <= 1 /\ (ListView.nonEmpty l = 0 <-> l = []).
Proof. destruct l; unfold ListView.nonEmpty; simpl; split; try lia; done. Qed.

(** X20.  The badge of the Deals filters counts between 0 and 8.  It is 0
    exactly when every list of the filter object is empty, its search term
    is empty and the probability range covers 0 to 100; this is the object
    [clearAllFilters] installs.  Filters count as active exactly when the
    badge is not 0 or the search box is not empty. *)
Theorem X20_active_filters_count :
  forall filters searchTerm,
    let count := ListView.getActiveFiltersCount filters in
    0 <= count <= 8
    /\ (count = 0
        <-> ListView.stages filters = [] /\ ListView.regions filters = []
            /\ ListView.leadOwners filters = []
            /\ ListView.priorities filters = []
            /\ ListView.probabilities filters = []
            /\ ListView.handoffStatuses filters = []
            /\ ListView.filterSearchTerm filters = ""
            /\ (ListView.probabilityRange filters).1 <= 0
            /\ 100 <= (ListView.probabilityRange filters).2)
    /\ ListView.getActiveFiltersCount ListView.clearedFilters = 0
    /\ (ListView.hasActiveFilters filters searchTerm = false
        <-> count = 0 /\ searchTerm = "").
Proof.
  intros filters searchTerm. simpl.
  unfold ListView.hasActiveFilters, ListView.getActiveFiltersCount.
  pose proof (nonEmpty_spec (ListView.stages filters)) as [? ?].
  pose proof (nonEmpty_spec (ListView.regions filters)) as [? ?].
  pose proof (nonEmpty_spec (ListView.leadOwners filters)) as [? ?].
  pose proof (nonEmpty_spec (ListView.priorities filters)) as [? ?].
  pose proof (nonEmpty_spec (ListView.probabilities filters)) as [? ?].
  pose proof (nonEmpty_spec (ListView.handoffStatuses filters)) as [? ?].
  destruct (String.eqb_spec (ListView.filterSearchTerm filters) "");
    destruct (Z.ltb_spec 0 (ListView.probabilityRange filters).1);
    destruct (Z.ltb_spec (ListView.probabilityRange filters).2 100);
    destruct (String.eqb_spec searchTerm ""); simpl;
    (split; [lia|]); (split; [|split; [done|]]);
    rewrite ?orb_false_iff, ?Z.ltb_ge, ?Z.ltb_lt;
    intuition (try lia; try done);
    match goal with
    | H : _ = 0 -> ?g |- ?g => apply H; lia
    end.
Qed.

(** ** Meetings: the order by date *)

Section Sorting.

Context {A : Type}.
Variable cmp : A -> A -> Z.

Lemma sort_insert_ordered (R : A -> A -> Prop) (P : A -> Prop) :
  (forall x y, P x -> P y -> cmp x y <= 0 -> R x y) ->
  (forall x y, P x -> P y -> 0 < cmp x y -> R y x) ->
  (forall x y z, R x y -> R y z -> R x z) ->
  forall x l,
    P x -> Forall P l -> ordered R l -> ordered R (sort_insert cmp x l).
Proof.
  intros Hle Hgt Htrans x l Hx.
  induction l as [|y rest IH]; intros HP Hord; simpl; [done|].
  destruct Hord as [Hy Hrest].
  apply Forall_cons in HP as [HPy HPrest].
  destruct (Z.leb_spec (cmp x y) 0) as [Hc|Hc]; simpl.
  - split; [|done]. constructor; [by apply Hle|].
    eapply Forall_impl; [exact Hy|]. intros z Hz.
    eapply Htrans; [by apply Hle|done].
  - split; [|by apply IH].
    rewrite sort_insert_perm. constructor; [by apply Hgt|done].
Qed.

Lemma sort_ordered (R : A -> A -> Prop) (P : A -> Prop) :
  (forall x y, P x -> P y -> cmp x y <= 0 -> R x y) ->
  (forall x y, P x -> P y -> 0 < cmp x y -> R y x) ->
  (forall x y z, R x y -> R y z -> R x z) ->
  forall l, Forall P l -> ordered R (sort cmp l).
Proof.
  intros Hle Hgt Htrans l. induction l as [|x l IH]; intros HP; [done|].
  apply Forall_cons in HP as [Hx HP].
  change (sort cmp (x :: l)) with (sort_insert cmp x (sort cmp l)).
  apply (sort_insert_ordered R P); try done.
  - by rewrite sort_perm.
  - by apply IH.
Qed.

(** A comparator that never puts a row after another leaves the array as
    it is. *)
Lemma sort_indifferent (l : list A) :
  (forall x y, In x l -> In y l -> cmp x y <= 0) -> sort cmp l = l.
Proof.
  induction l as [|x l IH]; intros H; [done|].
  change (sort cmp (x :: l)) with (sort_insert cmp x (sort cmp l)).
  rewrite IH by (intros a b Ha Hb; apply H; by right).
  destruct l as [|y l]; simpl; [done|].
  destruct (Z.leb_spec (cmp x y) 0) as [_|Hc]; [done|].
  specialize (H x y ltac:(by left) ltac:(right; by left)). lia.
Qed.

End Sorting.

(** X21.  Meetings sorted by the date column.  When every meeting has a
    valid start time, the rows come out in the order of their days:
    ascending, each day is no later than the days of all rows after it,
    and the other way round descending.  When no meeting has a valid start
    time the comparator cannot tell the rows apart and the filtered rows
    stay in the order of the collection. *)
Theorem X21_meetings_by_date :
  forall getMeetingStatus startOfDay minutesOfDay s,
    Meetings.sortColumn s = Some Meetings.date ->
    let shown :=
      Meetings.sortedAndFilteredMeetings getMeetingStatus startOfDay
        minutesOfDay s in
    ((forall m, In m (Meetings.meetings s) ->
                exists day, startOfDay (get m "start_time") = Some day) ->
     ordered (daysInOrder startOfDay (Meetings.sortDirection s)) shown)
    /\ ((forall m, In m (Meetings.meetings s) ->
                   startOfDay (get m "start_time") = None) ->
        shown
        = List.filter (Meetings.matches getMeetingStatus s)
            (Meetings.meetings s)).
Proof.
  intros getMeetingStatus startOfDay minutesOfDay s Hcol. simpl.
  unfold Meetings.sortedAndFilteredMeetings. rewrite Hcol. split.
  - intros Hvalid.
    apply (sort_ordered _ _
             (fun m => exists day, startOfDay (get m "start_time") = Some day)).
    + intros a b [x Hx] [y Hy] Hc. exists x, y. split; [done|]. split; [done|].
      unfold Meetings.compare, Meetings.sortValueOf in Hc.
      rewrite Hx, Hy in Hc. simpl in Hc.
      destruct (Z.ltb_spec x y), (Z.ltb_spec y x),
        (Meetings.sortDirection s); lia.
    + intros a b [x Hx] [y Hy] Hc. exists y, x. split; [done|]. split; [done|].
      unfold Meetings.compare, Meetings.sortValueOf in Hc.
      rewrite Hx, Hy in Hc. simpl in Hc.
      destruct (Z.ltb_spec x y), (Z.ltb_spec y x),
        (Meetings.sortDirection s); lia.
    + intros a b c (x & y & Hx & Hy & Hxy) (y' & z & Hy' & Hz & Hyz).
      exists x, z. split; [done|]. split; [done|].
      rewrite Hy in Hy'. injection Hy' as <-.
      destruct (Meetings.sortDirection s); lia.
    + apply Forall_forall. intros m Hm. apply Hvalid.
      by apply list_elem_of_In, filter_In in Hm as [Hm _].
  - intros Hinvalid. apply sort_indifferent. intros a b Ha Hb.
    apply filter_In in Ha as [Ha _]. apply filter_In in Hb as [Hb _].
    unfold Meetings.compare, Meetings.sortValueOf.
    by rewrite (Hinvalid a Ha), (Hinvalid b Hb).
Qed.

(** Three meetings on the days 3, 1 and 2, sorted by date in ascending
    order: they come out as 1, 2, 3. *)
Lemma X21_meetings_by_date_witness :
  let dayOf (v : jsval) : option Z :=
    match v with VNum n => Some n | _ => None end in
  let meeting (id : string) (day : Z) : gmap string jsval :=
    <["id" := VStr id]>
      (<["subject" := VStr "Review"]> {["start_time" := VNum day]}) in
  let rows := [meeting "a" 3; meeting "b" 1; meeting "c" 2] in
  let s := Meetings.mkState rows 1 [] "" "all" "all" (Some Meetings.date) Asc
             1 [] in
  let shown :=
    Meetings.sortedAndFilteredMeetings (fun _ => "scheduled") dayOf dayOf s in
  Meetings.sortColumn s = Some Meetings.date
  /\ (forall m, In m (Meetings.meetings s) ->
                exists day, dayOf (get m "start_time") = Some day)
  /\ map id_of shown = ["b"; "c"; "a"]
  /\ ordered (daysInOrder dayOf Asc) shown.
Proof.
  intros dayOf meeting rows s shown.
  assert (forall m, In m (Meetings.meetings s) ->
                    exists day, dayOf (get m "start_time") = Some day)
    as Hvalid.
  { intros m [<-|[<-|[<-|[]]]]; eexists; by vm_compute. }
  split; [done|]. split; [exact Hvalid|]. split; [by vm_compute|].
  exact (proj1 (X21_meetings_by_date (fun _ => "scheduled") dayOf dayOf s
                  eq_refl) Hvalid).
Defined.

(** ** Leads: the filters *)

Lemma Lead_filter_passes (localeCompare : string -> string -> Z)
    (dateValue : jsval -> option Z) (leads : list (gmap string jsval))
    (q : LeadTable.query) :
  LeadTable.filterAndSort localeCompare dateValue leads q
  = let filtered := List.filter (Lead_passes dateValue q) leads in
    match LeadTable.sortField q with
    | Some field =>
        if String.eqb field "" then filtered
        else sort (LeadTable.compare localeCompare field
                     (LeadTable.sortDirection q)) filtered
    | None => filtered
    end.
Proof.
  unfold LeadTable.filterAndSort. simpl.
  match goal with
  | |- match _ with Some _ => if _ then ?l else sort _ ?l | None => ?l end
       = match _ with Some _ => if _ then ?r else sort _ ?r | None => ?r end =>
      assert (l = r) as ->; [|done]
  end.
  unfold Lead_passes.
  destruct (String.eqb (LeadTable.statusFilter q) "all");
    destruct (String.eqb (LeadTable.ownerFilter q) "all");
    destruct (LeadTable.dateFromFilter q) as [from|];
    try destruct (String.eqb from "");
    destruct (LeadTable.dateToFilter q) as [to|];
    try destruct (String.eqb to "");
    simpl; rewrite ?filter_filter_and; apply filter_ext; intros lead;
    by rewrite ?andb_true_r, ?andb_assoc.
Qed.

(** X22.  The filter effect of Leads keeps the leads that pass the search
    and every filter switched on, and only reorders them.  With a start
    date set, every lead shown has a creation time, and it is a valid date
    on or after the start date, which is valid too; likewise with an end
    date.  So a lead without a creation time is never shown while a date
    filter is set. *)
Theorem X22_lead_filters :
  forall localeCompare dateValue leads q,
    let shown := LeadTable.filterAndSort localeCompare dateValue leads q in
    shown ≡ₚ List.filter (Lead_passes dateValue q) leads
    /\ (forall from lead,
          LeadTable.dateFromFilter q = Some from -> from <> "" ->
          In lead shown ->
          truthy (get lead "created_time") = true
          /\ exists created bound,
               dateValue (get lead "created_time") = Some created
               /\ dateValue (VStr from) = Some bound
               /\ bound <= created)
    /\ (forall to lead,
          LeadTable.dateToFilter q = Some to -> to <> "" ->
          In lead shown ->
          truthy (get lead "created_time") = true
          /\ exists created bound,
               dateValue (get lead "created_time") = Some created
               /\ dateValue (VStr to) = Some bound
               /\ created <= bound).
Proof.
  intros localeCompare dateValue leads q. simpl.
  assert (LeadTable.filterAndSort localeCompare dateValue leads q
          ≡ₚ List.filter (Lead_passes dateValue q) leads) as Hperm.
  { rewrite Lead_filter_passes. simpl.
    destruct (LeadTable.sortField q) as [field|]; [|done].
    destruct (String.eqb field ""); [done|]. apply sort_perm. }
  assert (forall lead,
            In lead (LeadTable.filterAndSort localeCompare dateValue leads q) ->
            Lead_passes dateValue q lead = true) as Hpass.
  { intros lead Hin. apply list_elem_of_In in Hin. rewrite Hperm in Hin.
    by apply list_elem_of_In, filter_In in Hin as [_ ?]. }
  split; [done|]. split.
  - intros from lead Hfrom Hne Hin. specialize (Hpass lead Hin).
    unfold Lead_passes in Hpass. rewrite Hfrom in Hpass.
    apply String.eqb_neq in Hne. rewrite Hne in Hpass. simpl in Hpass.
    repeat (apply andb_prop in Hpass as [Hpass ?]).
    match goal with
    | H : LeadTable.createdFrom _ _ _ = true |- _ =>
        unfold LeadTable.createdFrom in H;
        destruct (truthy (get lead "created_time")); [|done];
        destruct (dateValue (get lead "created_time")) as [created|];
          [|done];
        destruct (dateValue (VStr from)) as [bound|]; [|done];
        apply Z.leb_le in H
    end.
    split; [done|]. by exists created, bound.
  - intros to lead Hto Hne Hin. specialize (Hpass lead Hin).
    unfold Lead_passes in Hpass. rewrite Hto in Hpass.
    apply String.eqb_neq in Hne. rewrite Hne in Hpass. simpl in Hpass.
    repeat (apply andb_prop in Hpass as [Hpass ?]).
    match goal with
    | H : LeadTable.createdTo _ _ _ = true |- _ =>
        unfold LeadTable.createdTo in H;
        destruct (truthy (get lead "created_time")); [|done];
        destruct (dateValue (get lead "created_time")) as [created|];
          [|done];
        destruct (dateValue (VStr to)) as [bound|]; [|done];
        apply Z.leb_le in H
    end.
    split; [done|]. by exists created, bound.
Qed.

(** Three leads created on the days 3 and 7 and at no recorded time, and
    the start date on day 5: only the lead of day 7 is shown. *)
Lemma X22_lead_filters_witness :
  let dateValue (v : jsval) : option Z :=
    match v with
    | VNum n => Some n
    | VStr s => if String.eqb s "day 5" then Some 5 else None
    | _ => None
    end in
  let early : gmap string jsval :=
    <["id" := VStr "l1"]>
      (<["lead_name" := VStr "Ann"]> {["created_time" := VNum 3]}) in
  let late : gmap string jsval :=
    <["id" := VStr "l2"]>
      (<["lead_name" := VStr "Bob"]> {["created_time" := VNum 7]}) in
  let undated : gmap string jsval :=
    <["id" := VStr "l3"]> {["lead_name" := VStr "Cid"]} in
  let q := LeadTable.mkQuery "" "all" "all" (Some "day 5") None None Asc in
  let shown :=
    LeadTable.filterAndSort codeUnitCompare dateValue [early; late; undated]
      q in
  LeadTable.dateFromFilter q = Some "day 5"
  /\ "day 5" <> ""
  /\ In late shown
  /\ map id_of shown = ["l2"]
  /\ exists created bound,
       dateValue (get late "created_time") = Some created
       /\ dateValue (VStr "day 5") = Some bound
       /\ bound <= created.
Proof.
  intros dateValue early late undated q shown.
  assert (In late shown) as Hin by (vm_compute; by left).
  split; [done|]. split; [done|]. split; [exact Hin|].
  split; [by vm_compute|].
  exact (proj2 (proj1 (proj2 (X22_lead_filters codeUnitCompare dateValue
                                [early; late; undated] q))
                  "day 5" late eq_refl ltac:(done) Hin)).
Defined.
